(** * pymerang controller: tunnel lifecycle and negotiation engine

    A shallow embedding of [pymerang/pymerang_server.py],
    [pymerang/vxlan_utils.py] and [pymerang/etherws_utils.py], and the
    properties of the controller's specification proved (or refuted) on it.

    Python objects that are mutated in place are modelled by explicit state
    passing: every method is a function from the state before the call to an
    outcome and the state after it.  An exception leaves the mutations made
    before it in place, as in Python. *)

From Stdlib Require Import ZArith Lia Ascii String.
From stdpp Require Import gmap strings list fin_maps pretty.

#[local] Set Warnings "-clear-no-such-hyp".

Open Scope string_scope.
Open Scope list_scope.
Open Scope Z_scope.

(* ===================================================================== *)
(** * Part I: the model                                                   *)
(* ===================================================================== *)

(** ** Statements, early returns and exceptions *)

(** The Python exceptions the modelled code can raise. *)
Inductive exn : Type :=
| KeyError        (* d[k] or del d[k] on a missing key, set.remove *)
| AttributeError  (* attribute or method of None *)
| TypeError       (* comparison of None with an int, int(None) *)
| IndexError      (* l[0] on an empty list *)
| NetlinkError.   (* the kernel refused a netlink request *)

(** How a block of statements ends: it runs to its end with a value, it
    executes a [return], or an exception propagates out of it. *)
Inductive outcome (R A : Type) : Type :=
| Val (a : A)
| Ret (r : R)
| Exc (e : exn).
Arguments Val {R A} a.
Arguments Ret {R A} r.
Arguments Exc {R A} e.

(** A block over a state [S], inside a function returning [R]. *)
Definition M (S R A : Type) : Type := S -> outcome R A * S.

Definition pure {S R A} (a : A) : M S R A := fun s => (Val a, s).

Definition bind {S R A B} (m : M S R A) (f : A -> M S R B) : M S R B :=
  fun s =>
    match m s with
    | (Val a, s') => f a s'
    | (Ret r, s') => (Ret r, s')
    | (Exc e, s') => (Exc e, s')
    end.

Notation "'let*' x ':=' m 'in' k" := (bind m (fun x => k))
  (at level 10, x pattern, m at level 100, k at level 200).
Notation "m '>>' k" := (bind m (fun _ => k))
  (at level 100, k at level 200, right associativity).

Definition get {S R} : M S R S := fun s => (Val s, s).
Definition gets {S R A} (f : S -> A) : M S R A := fun s => (Val (f s), s).
Definition modify {S R} (f : S -> S) : M S R unit := fun s => (Val tt, f s).
Definition return_ {S R A} (r : R) : M S R A := fun s => (Ret r, s).
Definition raise {S R A} (e : exn) : M S R A := fun s => (Exc e, s).

(** The result of a call, seen by the caller. *)
Inductive result (R : Type) : Type :=
| Returned (r : R)
| Raised (e : exn).
Arguments Returned {R} r.
Arguments Raised {R} e.

(** [def f(...): body]: the value of the last statement is the value the
    function returns when no [return] is executed before. *)
Definition def {S R} (body : M S R R) : S -> result R * S :=
  fun s =>
    match body s with
    | (Val r, s') => (Returned r, s')
    | (Ret r, s') => (Returned r, s')
    | (Exc e, s') => (Raised e, s')
    end.

(** A call [f(...)] from inside another function's body. *)
Definition call {S R R'} (f : S -> result R' * S) : M S R R' :=
  fun s =>
    match f s with
    | (Returned r, s') => (Val r, s')
    | (Raised e, s') => (Exc e, s')
    end.

(** A call to a method of an object stored in a component of the state:
    [rd] reads the component, [wr] writes it back. *)
Definition call_in {S T R R'} (rd : S -> T) (wr : T -> S -> S)
    (f : T -> result R' * T) : M S R R' :=
  fun s =>
    match f (rd s) with
    | (Returned r, t') => (Val r, wr t' s)
    | (Raised e, t') => (Exc e, wr t' s)
    end.

(** A block preserves a component [f] of the state when no run of it
    changes [f]. *)
Definition preserves {S R A X} (f : S -> X) (m : M S R A) : Prop :=
  forall s, f (m s).2 = f s.

(** A block commutes with a transformation [e] of the state when a run
    from a transformed state has the same outcome and ends in the
    transformed final state.  With [e] erasing a part of the state, the
    block neither reads nor writes that part. *)
Definition commutes {S R A} (e : S -> S) (m : M S R A) : Prop :=
  forall s, m (e s) = ((m s).1, e (m s).2).

(** A block never executes a [return]. *)
Definition never_returns {S R A} (m : M S R A) : Prop :=
  forall s r s', m s <> (Ret r, s').

(** A block keeps a property of the state, however it ends. *)
Definition keeps {S R A} (P : S -> Prop) (m : M S R A) : Prop :=
  forall s, P s -> P (m s).2.

(** A block ensures a property of the state whenever it ends without an
    exception. *)
Definition ensures {S R A} (Q : S -> Prop) (m : M S R A) : Prop :=
  forall s, match (m s).1 with Exc _ => True | _ => Q (m s).2 end.

(** ** Status codes ([status_codes_pb2]) *)

Inductive status : Type :=
| STATUS_SUCCESS
| STATUS_UNAUTHORIZED
| STATUS_INTERNAL_ERROR.

#[global] Instance status_eq_dec : EqDecision status.
Proof. solve_decision. Defined.

(** ** NAT classifications ([pynat]) and tunnel-mode descriptors *)

Inductive nat_type : Type :=
| OPEN
| FULL_CONE
| RESTRICTED_CONE
| RESTRICTED_PORT
| SYMMETRIC
| UDP_FIREWALL
| BLOCKED.

#[global] Instance nat_type_eq_dec : EqDecision nat_type.
Proof. solve_decision. Defined.

(** What [tunnel_utils.TunnelMode.__init__] receives from a tunnel mode's
    constructor: the capability metadata of the mode. *)
Record TunnelModeInfo : Type := {
  name : string;
  require_keep_alive_messages : bool;
  supported_nat_types : list nat_type;
  priority : Z
}.

(** Is a device behind NAT of type [n] compatible with the mode? *)
Definition supports (m : TunnelModeInfo) (n : nat_type) : bool :=
  bool_decide (n ∈ supported_nat_types m).

(** ** Addresses and the address family of a textual address *)

Inductive family : Type := AF_INET | AF_INET6.

#[global] Instance family_eq_dec : EqDecision family.
Proof. solve_decision. Defined.

Fixpoint has_char (c : Ascii.ascii) (s : string) : bool :=
  match s with
  | EmptyString => false
  | String c' s' => if decide (c = c') then true else has_char c s'
  end.

(** Modelled from the spec: [tunnel_utils.getAddressFamily] is not among the
    sources.  It classifies the textual external address of a device: an
    address written with a colon is IPv6, one written with dots is IPv4,
    anything else has no family ([None]). *)
Definition getAddressFamily (ip : string) : option family :=
  if has_char ":"%char ip then Some AF_INET6
  else if has_char "."%char ip then Some AF_INET
  else None.

(** A private (VTEP) address handed out by an address allocator.  The
    allocators return the text ['ip/mask']; the model keeps the two sides of
    the slash apart, so that [split('/')] is the pair of projections.  The
    host part is the number of the host inside the management block. *)
Record mgmt_addr : Type := {
  addr_family : family;
  addr_host : N;
  addr_mask : Z
}.

#[global] Instance mgmt_addr_eq_dec : EqDecision mgmt_addr.
Proof. solve_decision. Defined.

(** The key of a per-tenant address map: the integer [0] for the
    controller's own VTEP, the device id for a device. *)
Inductive slot : Type :=
| Slot0
| SlotDev (device_id : string).

#[global] Instance slot_eq_dec : EqDecision slot.
Proof. solve_decision. Defined.

#[global] Instance slot_countable : Countable slot.
Proof.
  refine (inj_countable'
            (fun s => match s with Slot0 => None | SlotDev d => Some d end)
            (fun o => match o with None => Slot0 | Some d => SlotDev d end) _).
  by intros [].
Defined.

(** ** The network-object collaborator (pyroute2) *)

Module Net.

(** The arguments [create_vxlan] is called with in [vxlan_utils] (the
    others keep their default [None]). *)
Record VxlanArgs : Type := {
  vni : Z;
  local : option string;
  dstport : Z;
  srcport_min : Z;
  srcport_max : Z;
  udpcsum : bool;
  udp6zerocsumtx : bool;
  udp6zerocsumrx : bool;
  learning : bool
}.

Record Link : Type := {
  link_vxlan : VxlanArgs;
  link_up : bool;
  link_addrs : list (family * N * Z);
  link_mac : string
}.

(** Interfaces by name, the forwarding table (device, MAC, destination,
    port) and the neighbour table (device, VTEP address, MAC).
    [kernel_mac] is the MAC address the kernel gives to a new interface. *)
Record State : Type := {
  links : gmap string Link;
  fdb : list (string * option string * string * Z);
  neigh : list (string * (family * N) * option string);
  kernel_mac : string -> string
}.

Definition set_links (f : gmap string Link -> gmap string Link)
    (n : State) : State :=
  {| links := f (links n); fdb := fdb n; neigh := neigh n;
     kernel_mac := kernel_mac n |}.

Definition set_fdb (f : list (string * option string * string * Z) ->
                        list (string * option string * string * Z))
    (n : State) : State :=
  {| links := links n; fdb := f (fdb n); neigh := neigh n;
     kernel_mac := kernel_mac n |}.

Definition set_neigh (f : list (string * (family * N) * option string) ->
                          list (string * (family * N) * option string))
    (n : State) : State :=
  {| links := links n; fdb := fdb n; neigh := f (neigh n);
     kernel_mac := kernel_mac n |}.

(** [ip_route.link_lookup(ifname=dev)[0]]: the index of the interface;
    the list is empty, and [[0]] raises, when there is none. *)
Definition link_lookup {R} (dev : string) : M State R Link :=
  let* n := get in
  match links n !! dev with
  | Some l => pure l
  | None => raise IndexError
  end.

(** [create_vxlan]: [ip link add DEVICE type vxlan ...] (called without
    [phys_dev]).  The kernel refuses a name that is taken. *)
Definition create_vxlan {R} (device : string) (args : VxlanArgs)
    : M State R unit :=
  let* n := get in
  match links n !! device with
  | Some _ => raise NetlinkError
  | None =>
      modify (set_links
                <[device := {| link_vxlan := args; link_up := false;
                               link_addrs := [];
                               link_mac := kernel_mac n device |}]>)
  end.

Definition create_fdb_entry {R} (dst : string) (lladdr : option string)
    (dev : string) (port : Z) : M State R unit :=
  link_lookup dev >>
  modify (set_fdb (fun t => t ++ [(dev, lladdr, dst, port)])).

Definition remove_fdb_entry {R} (lladdr : option string) (dev : string)
    : M State R unit :=
  link_lookup dev >>
  modify (set_fdb (filter (fun e => ¬ (e.1.1.1 = dev ∧ e.1.1.2 = lladdr)))).

(** Modelled from the spec: [tunnel_utils.enable_interface] is not among
    the sources.  It brings the interface up; like the functions of
    [vxlan_utils] above, it looks the interface up by name first. *)
Definition enable_interface {R} (device : string) : M State R unit :=
  let* l := link_lookup device in
  modify (set_links
            <[device := {| link_vxlan := link_vxlan l; link_up := true;
                           link_addrs := link_addrs l;
                           link_mac := link_mac l |}]>).

(** Modelled from the spec: [tunnel_utils.add_address] is not among the
    sources.  It assigns an address and mask to the interface (as
    [etherws_utils.add_address] does). *)
Definition add_address {R} (device : string) (address : family * N)
    (mask : Z) : M State R unit :=
  let* l := link_lookup device in
  modify (set_links
            <[device := {| link_vxlan := link_vxlan l;
                             link_up := link_up l;
                           link_addrs := link_addrs l ++
                                         [(address.1, address.2, mask)];
                           link_mac := link_mac l |}]>).

(** Modelled from the spec: [tunnel_utils.del_address] is not among the
    sources.  It removes an address and mask from the interface (as
    [etherws_utils.del_address] does). *)
Definition del_address {R} (device : string) (address : family * N)
    (mask : Z) : M State R unit :=
  let* l := link_lookup device in
  modify (set_links
            <[device := {| link_vxlan := link_vxlan l;
                             link_up := link_up l;
                           link_addrs :=
                             filter (fun a => a ≠ (address.1, address.2, mask))
                                    (link_addrs l);
                           link_mac := link_mac l |}]>).

(** Modelled from the spec: [tunnel_utils.create_ip_neigh] is not among the
    sources.  It adds a neighbour-table entry (IP to MAC) on the
    interface. *)
Definition create_ip_neigh {R} (dev : string) (lladdr : option string)
    (dst : family * N) : M State R unit :=
  link_lookup dev >>
  modify (set_neigh (fun t => t ++ [(dev, dst, lladdr)])).

(** Modelled from the spec: [tunnel_utils.remove_ip_neigh] is not among the
    sources.  It removes the neighbour-table entries of an IP on the
    interface. *)
Definition remove_ip_neigh {R} (dev : string) (dst : family * N)
    : M State R unit :=
  link_lookup dev >>
  modify (set_neigh (filter (fun e => ¬ (e.1.1 = dev ∧ e.1.2 = dst)))).

(** Modelled from the spec: [tunnel_utils.get_mac_address] is not among the
    sources.  It reads the MAC address of the interface. *)
Definition get_mac_address {R} (ifname : string) : M State R string :=
  let* l := link_lookup ifname in
  pure (link_mac l).

(** Modelled from the spec: [tunnel_utils.remove_interface] is not among the
    sources.  It removes the interface. *)
Definition remove_interface {R} (device : string) : M State R unit :=
  link_lookup device >>
  modify (set_links (delete device)).

End Net.

(** ** [vxlan_utils.TunnelVXLAN] *)

Module TunnelVXLAN.

(** Destination port used by VXLAN interfaces. *)
Definition VXLAN_DSTPORT : Z := 4789.
(** Enable UDP checksum on VXLAN packets. *)
Definition ENABLE_UDP_CSUM : bool := true.
(** VNI used for the management VTEPs. *)
Definition MGMT_VNI : Z := 0.

(** [TunnelVXLAN.__init__]: the capability metadata passed to the base
    class. *)
Definition __init__ (name : string) (priority : Z) : TunnelModeInfo :=
  {| name := name;
     require_keep_alive_messages := true;
     supported_nat_types :=
       [OPEN; FULL_CONE; RESTRICTED_CONE; RESTRICTED_PORT];
     priority := priority |}.

(** Modelled from the spec: the address allocator objects
    ([ipv4_address_allocator], [ipv6_address_allocator]) are not among the
    sources.  Per tenant, an allocator issues the next unused host address
    of the tenant's management block, and a released address returns to the
    tenant's free set. *)
Record Allocator : Type := {
  prefixlen : Z;
  next_host : gmap string N;
  reusable : gmap string (list N)
}.

(** The attributes of a [TunnelVXLAN] object used on the controller side,
    and the network objects of the host it runs on. *)
Record State : Type := {
  info : TunnelModeInfo;
  controller_ip : string;
  initiated : gset string;
  device_to_mac_addr : gmap string string;
  device_to_mgmt_ipv4 : gmap string (gmap slot mgmt_addr);
  device_to_mgmt_ipv6 : gmap string (gmap slot mgmt_addr);
  ipv4_address_allocator : Allocator;
  ipv6_address_allocator : Allocator;
  net : Net.State
}.

Definition set_initiated (f : gset string -> gset string) (s : State)
    : State :=
  {| info := info s; controller_ip := controller_ip s;
     initiated := f (initiated s);
     device_to_mac_addr := device_to_mac_addr s;
     device_to_mgmt_ipv4 := device_to_mgmt_ipv4 s;
     device_to_mgmt_ipv6 := device_to_mgmt_ipv6 s;
     ipv4_address_allocator := ipv4_address_allocator s;
     ipv6_address_allocator := ipv6_address_allocator s;
     net := net s |}.

Definition set_device_to_mac_addr
    (f : gmap string string -> gmap string string) (s : State) : State :=
  {| info := info s; controller_ip := controller_ip s;
     initiated := initiated s;
     device_to_mac_addr := f (device_to_mac_addr s);
     device_to_mgmt_ipv4 := device_to_mgmt_ipv4 s;
     device_to_mgmt_ipv6 := device_to_mgmt_ipv6 s;
     ipv4_address_allocator := ipv4_address_allocator s;
     ipv6_address_allocator := ipv6_address_allocator s;
     net := net s |}.

Definition set_net (n : Net.State) (s : State) : State :=
  {| info := info s; controller_ip := controller_ip s;
     initiated := initiated s;
     device_to_mac_addr := device_to_mac_addr s;
     device_to_mgmt_ipv4 := device_to_mgmt_ipv4 s;
     device_to_mgmt_ipv6 := device_to_mgmt_ipv6 s;
     ipv4_address_allocator := ipv4_address_allocator s;
     ipv6_address_allocator := ipv6_address_allocator s;
     net := n |}.

(** The address map and the allocator of one family. *)
Definition mgmt_map (f : family) (s : State) : gmap string (gmap slot mgmt_addr) :=
  match f with
  | AF_INET => device_to_mgmt_ipv4 s
  | AF_INET6 => device_to_mgmt_ipv6 s
  end.

Definition allocator (f : family) (s : State) : Allocator :=
  match f with
  | AF_INET => ipv4_address_allocator s
  | AF_INET6 => ipv6_address_allocator s
  end.

Definition set_pool (f : family) (m : gmap string (gmap slot mgmt_addr))
    (a : Allocator) (s : State) : State :=
  {| info := info s; controller_ip := controller_ip s;
     initiated := initiated s;
     device_to_mac_addr := device_to_mac_addr s;
     device_to_mgmt_ipv4 :=
       match f with AF_INET => m | AF_INET6 => device_to_mgmt_ipv4 s end;
     device_to_mgmt_ipv6 :=
       match f with AF_INET => device_to_mgmt_ipv6 s | AF_INET6 => m end;
     ipv4_address_allocator :=
       match f with AF_INET => a | AF_INET6 => ipv4_address_allocator s end;
     ipv6_address_allocator :=
       match f with AF_INET => ipv6_address_allocator s | AF_INET6 => a end;
     net := net s |}.

(** A network-object operation run from a method of the tunnel mode. *)
Definition in_net {R A} (m : M Net.State R A) : M State R A :=
  fun s => let (o, n') := m (net s) in (o, set_net n' s).

(** *** Methods inherited from [tunnel_utils.TunnelMode] *)

(** Modelled from the spec: the tenant's entry in an allocator when the
    first device of the tenant arrives (host 0 is the block itself). *)
Definition init_pool (tenantid : string) (a : Allocator) : Allocator :=
  {| prefixlen := prefixlen a;
     next_host := <[tenantid := 1%N]> (next_host a);
     reusable := <[tenantid := []]> (reusable a) |}.

(** Modelled from the spec: [init_tenantid] is not among the sources.  It
    creates the tenant's (empty) address maps and its pools. *)
Definition init_tenantid {R} (tenantid : string) : M State R unit :=
  modify (fun s =>
    set_pool AF_INET (<[tenantid := ∅]> (mgmt_map AF_INET s))
             (init_pool tenantid (allocator AF_INET s))
      (set_pool AF_INET6 (<[tenantid := ∅]> (mgmt_map AF_INET6 s))
                (init_pool tenantid (allocator AF_INET6 s)) s)).

(** Modelled from the spec: the allocator without the entry of a tenant
    whose last device has left. *)
Definition release_pool (tenantid : string) (a : Allocator) : Allocator :=
  {| prefixlen := prefixlen a;
     next_host := delete tenantid (next_host a);
     reusable := delete tenantid (reusable a) |}.

(** Modelled from the spec: [release_tenantid] is not among the sources.
    It drops the tenant's address maps and pools. *)
Definition release_tenantid {R} (tenantid : string) : M State R unit :=
  modify (fun s =>
    set_pool AF_INET (delete tenantid (mgmt_map AF_INET s))
             (release_pool tenantid (allocator AF_INET s))
      (set_pool AF_INET6 (delete tenantid (mgmt_map AF_INET6 s))
                (release_pool tenantid (allocator AF_INET6 s)) s)).

(** Modelled from the spec: [get_new_mgmt_ipv4] and [get_new_mgmt_ipv6] are
    not among the sources.  The address of a slot is stable: a slot that has
    one keeps it; otherwise the slot gets a released address of the tenant
    if there is one, else the tenant's next unused host.  A tenant that was
    not initiated has no pool ([KeyError]). *)
Definition get_new_mgmt_ip {R} (f : family) (sl : slot) (tenantid : string)
    : M State R mgmt_addr :=
  let* s := get in
  let a := allocator f s in
  match mgmt_map f s !! tenantid, next_host a !! tenantid,
        reusable a !! tenantid with
  | Some m, Some n, Some free =>
      match m !! sl with
      | Some addr => pure addr
      | None =>
          let h := match free with h :: _ => h | [] => n end in
          let a' :=
            match free with
            | _ :: rest =>
                {| prefixlen := prefixlen a; next_host := next_host a;
                   reusable := <[tenantid := rest]> (reusable a) |}
            | [] =>
                {| prefixlen := prefixlen a;
                   next_host := <[tenantid := (n + 1)%N]> (next_host a);
                   reusable := reusable a |}
            end in
          let addr := {| addr_family := f; addr_host := h;
                         addr_mask := prefixlen a |} in
          modify (set_pool f (<[tenantid := <[sl := addr]> m]> (mgmt_map f s))
                           a') >>
          pure addr
      end
  | _, _, _ => raise KeyError
  end.

Definition get_new_mgmt_ipv4 {R} := @get_new_mgmt_ip R AF_INET.
Definition get_new_mgmt_ipv6 {R} := @get_new_mgmt_ip R AF_INET6.

(** Modelled from the spec: [release_ipv4_address] and
    [release_ipv6_address] are not among the sources.  The address of the
    slot, if it has one, returns to the free set of the tenant. *)
Definition release_ip_address {R} (f : family) (sl : slot)
    (tenantid : string) : M State R unit :=
  let* s := get in
  let a := allocator f s in
  match mgmt_map f s !! tenantid, reusable a !! tenantid with
  | Some m, Some free =>
      match m !! sl with
      | None => pure tt
      | Some addr =>
          modify (set_pool f (<[tenantid := delete sl m]> (mgmt_map f s))
                    {| prefixlen := prefixlen a; next_host := next_host a;
                       reusable :=
                         <[tenantid := addr_host addr :: free]> (reusable a) |})
      end
  | _, _ => raise KeyError
  end.

Definition release_ipv4_address {R} := @release_ip_address R AF_INET.
Definition release_ipv6_address {R} := @release_ip_address R AF_INET6.

(** Modelled from the spec: [num_addresses] is not among the sources.  It
    counts the devices of the tenant that hold an address (the controller's
    slot is not a device). *)
Definition num_addresses {R} (tenantid : string) : M State R nat :=
  let* s := get in
  match device_to_mgmt_ipv4 s !! tenantid, device_to_mgmt_ipv6 s !! tenantid with
  | Some m4, Some m6 => pure (size (delete Slot0 m4) + size (delete Slot0 m6))%nat
  | _, _ => raise KeyError
  end.

(** Modelled from the spec: [get_device_vtep_mac] is not among the sources.
    It reads the MAC address saved for the device, [None] without one. *)
Definition get_device_vtep_mac {R} (device_id : string)
    : M State R (option string) :=
  gets (fun s => device_to_mac_addr s !! device_id).

(** *** Methods of [TunnelVXLAN] *)

(** The ephemeral negotiation record passed to the endpoint methods, which
    fill in the VTEP fields. *)
Record TunnelInfo : Type := {
  device_id : string;
  tenantid : string;
  device_external_ip : string;
  device_external_port : Z;
  device_vtep_mac : string;
  vxlan_port : Z;
  controller_vtep_mac : option string;
  controller_vtep_ip : option (family * N);
  device_vtep_ip : option (family * N);
  vtep_mask : option Z
}.

Definition set_vteps (mac : string) (cip dip : family * N) (mask : Z)
    (t : TunnelInfo) : TunnelInfo :=
  {| device_id := device_id t; tenantid := tenantid t;
     device_external_ip := device_external_ip t;
     device_external_port := device_external_port t;
     device_vtep_mac := device_vtep_mac t;
     vxlan_port := vxlan_port t;
     controller_vtep_mac := Some mac;
     controller_vtep_ip := Some cip;
     device_vtep_ip := Some dip;
     vtep_mask := Some mask |}.

(** [ip_mask = addr.split('/')]: [ip_mask[0]] and [int(ip_mask[1])]. *)
Definition split_ip (a : mgmt_addr) : family * N := (addr_family a, addr_host a).
Definition split_mask (a : mgmt_addr) : Z := addr_mask a.

(** Return the private IPv6 of the device. *)
Definition get_device_mgmtipv6 {R} (tenantid : string) (device_id : slot)
    : M State R (option mgmt_addr) :=
  let* self := get in
  match device_to_mgmt_ipv6 self !! tenantid with
  | None => pure None
  | Some m => pure (m !! device_id)
  end.

(** Return the private IPv4 of the device. *)
Definition get_device_mgmtipv4 {R} (tenantid : string) (device_id : slot)
    : M State R (option mgmt_addr) :=
  let* self := get in
  match device_to_mgmt_ipv4 self !! tenantid with
  | None => pure None
  | Some m => pure (m !! device_id)
  end.

(** Return the private IP of the device.  The tenant passed by the caller
    is overwritten by ['0']. *)
Definition get_device_mgmtip {R} (tenantid : string) (device_id : slot)
    : M State R (option mgmt_addr) :=
  let tenantid := "0" in
  let* addr := get_device_mgmtipv4 tenantid device_id in
  match addr with
  | None => get_device_mgmtipv6 tenantid device_id
  | Some _ => pure addr
  end.

(** [x.split('/')] on the result of a getter: [None] has no [split]. *)
Definition split_of {R} (o : option mgmt_addr) : M State R mgmt_addr :=
  match o with
  | Some a => pure a
  | None => raise AttributeError
  end.

(** ['%s-%s' % (self.name, vni)] *)
Definition vxlan_name_of (self : State) (vni : Z) : string :=
  name (info self) +:+ "-" +:+ pretty vni.

Definition create_tunnel_controller_endpoint (tunnel_info : TunnelInfo)
    : State -> result (status * TunnelInfo) * State :=
  def (
    (* Extract the device ID *)
    let device_id := device_id tunnel_info in
    (* External IP and port of the device *)
    let device_external_ip := device_external_ip tunnel_info in
    (* MAC address of the VTEP's device *)
    let device_vtep_mac := device_vtep_mac tunnel_info in
    (* Extract the port *)
    let port := vxlan_port tunnel_info in
    (* Extract the tenant ID: [tunnel_info.tenantid] is commented out *)
    let tenantid := "0" in
    (* VNI used for VXLAN management interface *)
    let vni := MGMT_VNI in
    let* vxlan_name := gets (fun self => vxlan_name_of self vni) in
    let* controller_ip := gets controller_ip in
    let* is_initiated :=
      gets (fun self => bool_decide (tenantid ∈ initiated self)) in
    (if is_initiated : bool then pure tt
     else
       (* Initiate tenant ID *)
       modify (set_initiated (fun i => i ∪ {[tenantid]})) >>
       init_tenantid tenantid >>
       (* Generate private addresses for the controller VTEP *)
       let* ip_mask6 := get_new_mgmt_ipv6 Slot0 tenantid in
       let* ip_mask4 := get_new_mgmt_ipv4 Slot0 tenantid in
       (* Create the VXLAN interface and bring it up *)
       in_net (Net.create_vxlan vxlan_name
                 {| Net.vni := vni;
                    Net.local := Some controller_ip;
                    Net.dstport := VXLAN_DSTPORT;
                    Net.srcport_min := VXLAN_DSTPORT;
                    Net.srcport_max := VXLAN_DSTPORT + 1;
                    Net.udpcsum := ENABLE_UDP_CSUM;
                    Net.udp6zerocsumtx := ENABLE_UDP_CSUM;
                    Net.udp6zerocsumrx := negb ENABLE_UDP_CSUM;
                    Net.learning := false |}) >>
       in_net (Net.enable_interface vxlan_name) >>
       (* Add the private addresses to the interface *)
       in_net (Net.add_address vxlan_name (split_ip ip_mask6)
                               (split_mask ip_mask6)) >>
       in_net (Net.add_address vxlan_name (split_ip ip_mask4)
                               (split_mask ip_mask4))) >>
    (* Save the MAC address of the device's VTEP *)
    modify (set_device_to_mac_addr <[device_id := device_vtep_mac]>) >>
    (* Generate private address for the device VTEP *)
    let* vteps :=
      match getAddressFamily device_external_ip with
      | Some AF_INET6 =>
          let* c := get_new_mgmt_ipv6 Slot0 tenantid in
          let* d := get_new_mgmt_ipv6 (SlotDev device_id) tenantid in
          pure (split_ip c, split_ip d, split_mask d)
      | Some AF_INET =>
          let* c := get_new_mgmt_ipv4 Slot0 tenantid in
          let* d := get_new_mgmt_ipv4 (SlotDev device_id) tenantid in
          pure (split_ip c, split_ip d, split_mask d)
      | None => return_ (STATUS_INTERNAL_ERROR, tunnel_info)
      end in
    let '(controller_vtep_ip, device_vtep_ip, vtep_mask) := vteps in
    (* FDB entry: device VTEP MAC -> device external address *)
    in_net (Net.create_fdb_entry device_external_ip (Some device_vtep_mac)
                                 vxlan_name port) >>
    (* Neighbour entry: device VTEP IP -> device VTEP MAC *)
    in_net (Net.create_ip_neigh vxlan_name (Some device_vtep_mac)
                                device_vtep_ip) >>
    (* Update and return the tunnel info *)
    let* mac := in_net (Net.get_mac_address vxlan_name) in
    pure (STATUS_SUCCESS,
          set_vteps mac controller_vtep_ip device_vtep_ip vtep_mask
                    tunnel_info)).

Definition destroy_tunnel_controller_endpoint (tunnel_info : TunnelInfo)
    : State -> result status * State :=
  def (
    (* Extract the device ID *)
    let device_id := device_id tunnel_info in
    (* Extract the tenant ID: [tunnel_info.tenantid] is commented out *)
    let tenantid := "0" in
    (* VNI used for VXLAN management interface *)
    let vni := MGMT_VNI in
    let* vxlan_name := gets (fun self => vxlan_name_of self vni) in
    (* Remove the neighbour entry of the device *)
    let* addr := get_device_mgmtip tenantid (SlotDev device_id) in
    let* addr := split_of addr in
    let device_vtep_ip := split_ip addr in
    in_net (Net.remove_ip_neigh vxlan_name device_vtep_ip) >>
    (* Remove the FDB entry of the device *)
    let* device_vtep_mac := get_device_vtep_mac device_id in
    in_net (Net.remove_fdb_entry device_vtep_mac vxlan_name) >>
    (* Release the private IP address associated to the device *)
    release_ipv4_address (SlotDev device_id) tenantid >>
    release_ipv6_address (SlotDev device_id) tenantid >>
    (* If the tenant has no more devices, we can de-allocate the VTEP *)
    let* n := num_addresses tenantid in
    (if decide (n = 0%nat) then
       let* a := get_device_mgmtipv4 tenantid Slot0 in
       let* ip_mask4 := split_of a in
       in_net (Net.del_address vxlan_name (split_ip ip_mask4)
                               (split_mask ip_mask4)) >>
       let* a := get_device_mgmtipv6 tenantid Slot0 in
       let* ip_mask6 := split_of a in
       in_net (Net.del_address vxlan_name (split_ip ip_mask6)
                               (split_mask ip_mask6)) >>
       (* Remove the VXLAN interface *)
       in_net (Net.remove_interface vxlan_name) >>
       (* Destroy tenant ID *)
       release_tenantid tenantid >>
       (* [self.initiated.remove(tenantid)] *)
       let* is_initiated :=
         gets (fun self => bool_decide (tenantid ∈ initiated self)) in
       if is_initiated : bool
       then modify (set_initiated (fun i => i ∖ {[tenantid]}))
       else raise KeyError
     else pure tt) >>
    (* Success *)
    pure STATUS_SUCCESS).

Definition update_tunnel_controller_endpoint (tunnel_info : TunnelInfo)
    : State -> result (status * TunnelInfo) * State :=
  def (
    let* res := call (destroy_tunnel_controller_endpoint tunnel_info) in
    if decide (res = STATUS_SUCCESS)
    then call (create_tunnel_controller_endpoint tunnel_info)
    else pure (res, tunnel_info)).

(** The calls a controller makes on a [TunnelVXLAN] object. *)
Inductive op : Type :=
| Create (tunnel_info : TunnelInfo)
| Destroy (tunnel_info : TunnelInfo).

Definition op_tenant (o : op) : string :=
  match o with
  | Create t => tenantid t
  | Destroy t => tenantid t
  end.

Definition run_op (o : op) (s : State) : State :=
  match o with
  | Create t => (create_tunnel_controller_endpoint t s).2
  | Destroy t => (destroy_tunnel_controller_endpoint t s).2
  end.

Definition run_op_status (o : op) (s : State) : result status :=
  match o with
  | Create t =>
      match (create_tunnel_controller_endpoint t s).1 with
      | Returned r => Returned r.1
      | Raised e => Raised e
      end
  | Destroy t => (destroy_tunnel_controller_endpoint t s).1
  end.

Definition run_ops (l : list op) (s : State) : State :=
  foldl (fun s o => run_op o s) s l.

(** What belongs to a tenant in a [TunnelVXLAN] object: its address maps,
    its address pools, and whether its shared network object (the VTEP
    interface with the controller's addresses) has been set up. *)
Record TenantView : Type := {
  v_mgmt_ipv4 : option (gmap slot mgmt_addr);
  v_mgmt_ipv6 : option (gmap slot mgmt_addr);
  v_next4 : option N;
  v_next6 : option N;
  v_free4 : option (list N);
  v_free6 : option (list N);
  v_initiated : bool
}.

Definition tenant_view (t : string) (s : State) : TenantView :=
  {| v_mgmt_ipv4 := device_to_mgmt_ipv4 s !! t;
     v_mgmt_ipv6 := device_to_mgmt_ipv6 s !! t;
     v_next4 := next_host (ipv4_address_allocator s) !! t;
     v_next6 := next_host (ipv6_address_allocator s) !! t;
     v_free4 := reusable (ipv4_address_allocator s) !! t;
     v_free6 := reusable (ipv6_address_allocator s) !! t;
     v_initiated := bool_decide (t ∈ initiated s) |}.

(** The object without anything kept for tenant [t]. *)
Definition erase (t : string) (s : State) : State :=
  {| info := info s; controller_ip := controller_ip s;
     initiated := initiated s ∖ {[t]};
     device_to_mac_addr := device_to_mac_addr s;
     device_to_mgmt_ipv4 := delete t (device_to_mgmt_ipv4 s);
     device_to_mgmt_ipv6 := delete t (device_to_mgmt_ipv6 s);
     ipv4_address_allocator := release_pool t (ipv4_address_allocator s);
     ipv6_address_allocator := release_pool t (ipv6_address_allocator s);
     net := net s |}.

(** A fresh [TunnelVXLAN] object on a host without interfaces. *)
Definition new (name : string) (priority : Z) (controller_ip : string)
    (prefixlen6 prefixlen4 : Z) : State :=
  {| info := __init__ name priority;
     controller_ip := controller_ip;
     initiated := ∅;
     device_to_mac_addr := ∅;
     device_to_mgmt_ipv4 := ∅;
     device_to_mgmt_ipv6 := ∅;
     ipv4_address_allocator :=
       {| prefixlen := prefixlen4; next_host := ∅; reusable := ∅ |};
     ipv6_address_allocator :=
       {| prefixlen := prefixlen6; next_host := ∅; reusable := ∅ |};
     net := {| Net.links := ∅; Net.fdb := []; Net.neigh := [];
               Net.kernel_mac := fun ifname => "mac-of-" +:+ ifname |} |}.

End TunnelVXLAN.

(** The device has no management address of the family in the pool
    ['0']. *)
Definition no_address (f : family) (device_id : string)
    (s : TunnelVXLAN.State) : Prop :=
  forall m, TunnelVXLAN.mgmt_map f s !! "0" = Some m ->
            m !! SlotDev device_id = None.

(** The object after the first endpoint has been created on it, for a
    device whose external address has family [f] (see
    [create_first_endpoint]). *)
Definition first_endpoint (ti : TunnelVXLAN.TunnelInfo) (f : family)
    (s : TunnelVXLAN.State) : TunnelVXLAN.State :=
  let vxlan_name := TunnelVXLAN.vxlan_name_of s TunnelVXLAN.MGMT_VNI in
  let host (f' : family) (h : N) :=
    {| addr_family := f'; addr_host := h;
       addr_mask := TunnelVXLAN.prefixlen (TunnelVXLAN.allocator f' s) |} in
  let pool (f' : family) : gmap slot mgmt_addr :=
    if decide (f' = f)
    then <[SlotDev (TunnelVXLAN.device_id ti) := host f' 2%N]>
           (<[Slot0 := host f' 1%N]> ∅)
    else <[Slot0 := host f' 1%N]> ∅ in
  let alloc (f' : family) : TunnelVXLAN.Allocator :=
    let a := TunnelVXLAN.allocator f' s in
    {| TunnelVXLAN.prefixlen := TunnelVXLAN.prefixlen a;
       TunnelVXLAN.next_host :=
         <["0" := if decide (f' = f) then 3%N else 2%N]>
           (TunnelVXLAN.next_host a);
       TunnelVXLAN.reusable := <["0" := []]> (TunnelVXLAN.reusable a) |} in
  {| TunnelVXLAN.info := TunnelVXLAN.info s;
     TunnelVXLAN.controller_ip := TunnelVXLAN.controller_ip s;
     TunnelVXLAN.initiated := TunnelVXLAN.initiated s ∪ {["0"]};
     TunnelVXLAN.device_to_mac_addr :=
       <[TunnelVXLAN.device_id ti := TunnelVXLAN.device_vtep_mac ti]>
         (TunnelVXLAN.device_to_mac_addr s);
     TunnelVXLAN.device_to_mgmt_ipv4 :=
       <["0" := pool AF_INET]> (TunnelVXLAN.device_to_mgmt_ipv4 s);
     TunnelVXLAN.device_to_mgmt_ipv6 :=
       <["0" := pool AF_INET6]> (TunnelVXLAN.device_to_mgmt_ipv6 s);
     TunnelVXLAN.ipv4_address_allocator := alloc AF_INET;
     TunnelVXLAN.ipv6_address_allocator := alloc AF_INET6;
     TunnelVXLAN.net :=
       {| Net.links :=
            <[vxlan_name :=
                {| Net.link_vxlan :=
                     {| Net.vni := TunnelVXLAN.MGMT_VNI;
                        Net.local := Some (TunnelVXLAN.controller_ip s);
                        Net.dstport := TunnelVXLAN.VXLAN_DSTPORT;
                        Net.srcport_min := TunnelVXLAN.VXLAN_DSTPORT;
                        Net.srcport_max := TunnelVXLAN.VXLAN_DSTPORT + 1;
                        Net.udpcsum := true;
                        Net.udp6zerocsumtx := true;
                        Net.udp6zerocsumrx := false;
                        Net.learning := false |};
                   Net.link_up := true;
                   Net.link_addrs :=
                     [(AF_INET6, 1%N,
                       TunnelVXLAN.prefixlen
                         (TunnelVXLAN.ipv6_address_allocator s));
                      (AF_INET, 1%N,
                       TunnelVXLAN.prefixlen
                         (TunnelVXLAN.ipv4_address_allocator s))];
                   Net.link_mac :=
                     Net.kernel_mac (TunnelVXLAN.net s) vxlan_name |}]>
              (Net.links (TunnelVXLAN.net s));
          Net.fdb :=
            Net.fdb (TunnelVXLAN.net s) ++
            [(vxlan_name, Some (TunnelVXLAN.device_vtep_mac ti),
              TunnelVXLAN.device_external_ip ti, TunnelVXLAN.vxlan_port ti)];
          Net.neigh :=
            Net.neigh (TunnelVXLAN.net s) ++
            [(vxlan_name, (f, 2%N), Some (TunnelVXLAN.device_vtep_mac ti))];
          Net.kernel_mac := Net.kernel_mac (TunnelVXLAN.net s) |} |}.

(** ** [etherws_utils.TunnelEtherWs] *)

Module TunnelEtherWs.

(** [TunnelEtherWs.__init__]: the capability metadata passed to the base
    class. *)
Definition __init__ (name : string) (priority : Z) : TunnelModeInfo :=
  {| name := name;
     require_keep_alive_messages := true;
     supported_nat_types :=
       [OPEN; FULL_CONE; RESTRICTED_CONE; RESTRICTED_PORT; SYMMETRIC;
        UDP_FIREWALL];
     priority := priority |}.

End TunnelEtherWs.

(** ** The storage collaborator ([srv6_sdn_controller_state]) *)

(** Modelled from the spec: the storage package is an external collaborator
    and is not among the sources.  The model is the contract the controller
    consumes (section 6 of the specification) over the device record of
    section 3: a table of devices keyed by tenant and device id, the tenant
    configurations and the authentication tokens.  A write succeeds exactly
    when the device it addresses exists. *)
Module srv6_sdn_controller_state.

Inductive DeviceState : Type :=
| UNKNOWN
| REGISTERED
| WORKING
| REBOOT_REQUIRED
| REBOOTING
| FAILURE.

#[global] Instance DeviceState_eq_dec : EqDecision DeviceState.
Proof. solve_decision. Defined.

Record Interface : Type := {
  if_name : string;
  mac_addr : string;
  ipv4_addrs : list string;
  ipv6_addrs : list string;
  ipv4_subnets : list (string * option string);
  ipv6_subnets : list (string * option string)
}.

(** What a device declares when it registers. *)
Record Registration : Type := {
  features : list (string * Z);
  interfaces : list Interface;
  sid_prefix : option string;
  public_prefix_length : option Z;
  enable_proxy_ndp : bool;
  force_ip6tnl : bool;
  force_srh : bool;
  incoming_sr_transparency : option string;
  outgoing_sr_transparency : option string
}.

(** What [update_mgmt_info] stores about the tunnel of a device. *)
Record MgmtInfo : Type := {
  ext_interfaces : gmap string (list string * list string);
  nat_type : string;
  external_ip : string;
  external_port : Z;
  mgmt_mac : string;
  vxlan_port : Z
}.

Record Device : Type := {
  registration : Registration;
  mgmtip : option string;
  state : DeviceState;
  connected : bool;
  tunnel_mode : option string;
  mgmt_info : option MgmtInfo;
  reconciliation_flag : bool;
  reconciliation_failures : Z;
  allow_reboot : bool
}.

Record TenantConfig : Type := {
  cfg_vxlan_port : option Z
}.

Record Storage : Type := {
  devices : gmap (string * string) Device;
  tenants : gmap string TenantConfig;
  tokens : gmap string string
}.

Definition set_devices
    (f : gmap (string * string) Device -> gmap (string * string) Device)
    (db : Storage) : Storage :=
  {| devices := f (devices db); tenants := tenants db; tokens := tokens db |}.

Definition set_mgmtip (v : option string) (d : Device) : Device :=
  {| registration := registration d; mgmtip := v; state := state d;
     connected := connected d; tunnel_mode := tunnel_mode d;
     mgmt_info := mgmt_info d; reconciliation_flag := reconciliation_flag d;
     reconciliation_failures := reconciliation_failures d;
     allow_reboot := allow_reboot d |}.

Definition set_state (v : DeviceState) (d : Device) : Device :=
  {| registration := registration d; mgmtip := mgmtip d; state := v;
     connected := connected d; tunnel_mode := tunnel_mode d;
     mgmt_info := mgmt_info d; reconciliation_flag := reconciliation_flag d;
     reconciliation_failures := reconciliation_failures d;
     allow_reboot := allow_reboot d |}.

Definition set_connected (v : bool) (d : Device) : Device :=
  {| registration := registration d; mgmtip := mgmtip d; state := state d;
     connected := v; tunnel_mode := tunnel_mode d;
     mgmt_info := mgmt_info d; reconciliation_flag := reconciliation_flag d;
     reconciliation_failures := reconciliation_failures d;
     allow_reboot := allow_reboot d |}.

Definition set_tunnel_mode_field (v : option string) (d : Device) : Device :=
  {| registration := registration d; mgmtip := mgmtip d; state := state d;
     connected := connected d; tunnel_mode := v;
     mgmt_info := mgmt_info d; reconciliation_flag := reconciliation_flag d;
     reconciliation_failures := reconciliation_failures d;
     allow_reboot := allow_reboot d |}.

Definition set_mgmt_info (v : option MgmtInfo) (d : Device) : Device :=
  {| registration := registration d; mgmtip := mgmtip d; state := state d;
     connected := connected d; tunnel_mode := tunnel_mode d;
     mgmt_info := v; reconciliation_flag := reconciliation_flag d;
     reconciliation_failures := reconciliation_failures d;
     allow_reboot := allow_reboot d |}.

Definition set_reconciliation_flag (v : bool) (d : Device) : Device :=
  {| registration := registration d; mgmtip := mgmtip d; state := state d;
     connected := connected d; tunnel_mode := tunnel_mode d;
     mgmt_info := mgmt_info d; reconciliation_flag := v;
     reconciliation_failures := reconciliation_failures d;
     allow_reboot := allow_reboot d |}.

Definition set_reconciliation_failures (v : Z) (d : Device) : Device :=
  {| registration := registration d; mgmtip := mgmtip d; state := state d;
     connected := connected d; tunnel_mode := tunnel_mode d;
     mgmt_info := mgmt_info d; reconciliation_flag := reconciliation_flag d;
     reconciliation_failures := v;
     allow_reboot := allow_reboot d |}.

(** A write to one device: [true] and the device changed when it exists,
    [false] and nothing changed when it does not. *)
Definition update_device (deviceid tenantid : string) (f : Device -> Device)
    (db : Storage) : bool * Storage :=
  match devices db !! (tenantid, deviceid) with
  | Some d => (true, set_devices <[(tenantid, deviceid) := f d]> db)
  | None => (false, db)
  end.

Definition get_device (deviceid tenantid : string) (db : Storage)
    : option Device :=
  devices db !! (tenantid, deviceid).

Definition device_exists (deviceid tenantid : string) (db : Storage) : bool :=
  bool_decide (is_Some (devices db !! (tenantid, deviceid))).

Definition authenticate_device (token : string) (db : Storage)
    : bool * option string :=
  match tokens db !! token with
  | Some tenantid => (true, Some tenantid)
  | None => (false, None)
  end.

Definition register_device (deviceid : string) (r : Registration)
    (mgmtip : string) (tenantid : string) (db : Storage) : Storage :=
  set_devices
    <[(tenantid, deviceid) :=
        {| registration := r; mgmtip := Some mgmtip; state := REGISTERED;
           connected := false; tunnel_mode := None; mgmt_info := None;
           reconciliation_flag := false; reconciliation_failures := 0;
           allow_reboot := false |}]> db.

Definition get_tenant_config (tenantid : string) (db : Storage)
    : option TenantConfig :=
  tenants db !! tenantid.

Definition get_tunnel_mode (deviceid tenantid : string) (db : Storage)
    : option string :=
  match get_device deviceid tenantid db with
  | Some d => tunnel_mode d
  | None => None
  end.

Definition set_tunnel_mode (deviceid tenantid : string)
    (mode : option string) : Storage -> bool * Storage :=
  update_device deviceid tenantid (set_tunnel_mode_field mode).

Definition get_device_mgmtip (tenantid deviceid : string) (db : Storage)
    : option string :=
  match get_device deviceid tenantid db with
  | Some d => mgmtip d
  | None => None
  end.

Definition update_mgmt_info (deviceid tenantid : string) (mgmtip : string)
    (interfaces : gmap string (list string * list string))
    (tunnel_name nat_type device_external_ip : string)
    (device_external_port : Z) (device_vtep_mac : string) (vxlan_port : Z)
    : Storage -> bool * Storage :=
  update_device deviceid tenantid
    (fun d =>
       set_mgmt_info
         (Some {| ext_interfaces := interfaces; nat_type := nat_type;
                  external_ip := device_external_ip;
                  external_port := device_external_port;
                  mgmt_mac := device_vtep_mac; vxlan_port := vxlan_port |})
         (set_tunnel_mode_field (Some tunnel_name)
            (set_mgmtip (Some mgmtip) d))).

Definition clear_mgmt_info (deviceid tenantid : string)
    : Storage -> bool * Storage :=
  update_device deviceid tenantid
    (fun d => set_mgmt_info None (set_mgmtip None d)).

Definition set_device_connected_flag (deviceid tenantid : string)
    (connected : bool) : Storage -> bool * Storage :=
  update_device deviceid tenantid (set_connected connected).

Definition change_device_state (deviceid tenantid : string)
    (new_state : DeviceState) : Storage -> bool * Storage :=
  update_device deviceid tenantid (set_state new_state).

Definition get_device_reconciliation_flag (deviceid tenantid : string)
    (db : Storage) : option bool :=
  reconciliation_flag <$> get_device deviceid tenantid db.

Definition set_device_reconciliation_flag (deviceid tenantid : string)
    (flag : bool) : Storage -> bool * Storage :=
  update_device deviceid tenantid (set_reconciliation_flag flag).

Definition inc_and_get_reconciliation_failures (deviceid tenantid : string)
    (db : Storage) : option Z * Storage :=
  match get_device deviceid tenantid db with
  | Some d =>
      (Some (reconciliation_failures d + 1),
       (update_device deviceid tenantid
          (set_reconciliation_failures (reconciliation_failures d + 1)) db).2)
  | None => (None, db)
  end.

Definition reset_reconciliation_failures (deviceid tenantid : string)
    : Storage -> bool * Storage :=
  update_device deviceid tenantid (set_reconciliation_failures 0).

Definition can_reboot_device (deviceid tenantid : string) (db : Storage)
    : bool :=
  match get_device deviceid tenantid db with
  | Some d => allow_reboot d
  | None => false
  end.

(** [get_devices()]: the devices, each with its tenant and its id. *)
Definition get_devices (db : Storage)
    : option (list (string * string * Device)) :=
  Some (map_to_list (devices db)).

End srv6_sdn_controller_state.

(** ** [rollbackcontext.RollbackContext] *)

(** The context manager of the [rollbackcontext] library: the functions
    pushed on it are run when the [with] block is left, however it is left
    (end of block, [return], exception), unless [commitAll] emptied the
    list before.  The state of a block under [with] is the pair of the
    pushed functions and the state outside. *)
Module RollbackContext.

Definition undo (W : Type) : Type := W -> option exn * W.

Definition push {W R R'} (func : W -> result R' * W)
    : M (list (undo W) * W) R unit :=
  modify (fun p =>
    ((fun w => match func w with
               | (Returned _, w') => (None, w')
               | (Raised e, w') => (Some e, w')
               end) :: p.1, p.2)).

Definition commitAll {W R} : M (list (undo W) * W) R unit :=
  modify (fun p => ([], p.2)).

(** A statement of the enclosing function, run inside the block. *)
Definition lift {W R A} (m : M W R A) : M (list (undo W) * W) R A :=
  fun p => let (o, w') := m p.2 in (o, (p.1, w')).

(** [__exit__]: run what is still on the list; the first exception wins. *)
Fixpoint run_undo {W} (l : list (undo W)) (w : W) : option exn * W :=
  match l with
  | [] => (None, w)
  | f :: l' =>
      let (e, w') := f w in
      let (e', w'') := run_undo l' w' in
      (match e with Some _ => e | None => e' end, w'')
  end.

(** [with RollbackContext() as rollback: body] *)
Definition with_ {W R A} (body : M (list (undo W) * W) R A) : M W R A :=
  fun w =>
    let (o, p) := body ([], w) in
    let (e, w') := run_undo p.1 p.2 in
    (match o, e with
     | Exc x, _ => Exc x
     | _, Some x => Exc x
     | _, None => o
     end, w').

End RollbackContext.

(** ** [pymerang_server.PymerangController] *)

Module PymerangController.
Import srv6_sdn_controller_state.

(** Default VXLAN port. *)
Definition DEFAULT_VXLAN_PORT : Z := 4789.

Definition MAX_ALLOWED_RECONCILIATION_FAILURES : Z := 10000000.

(** The four VTEP fields of a reply. *)
Record Vteps : Type := {
  controller_vtep_mac : option string;
  controller_vtep_ip : option string;
  device_vtep_ip : option string;
  vtep_mask : option Z
}.

Definition no_vteps : Vteps :=
  {| controller_vtep_mac := None; controller_vtep_ip := None;
     device_vtep_ip := None; vtep_mask := None |}.

(** What [exec_reconciliation] returns: the HTTP-style code of a failed
    northbound step, or a status code. *)
Inductive reconciliation_result : Type :=
| Http (code : Z)
| Status (s : status).

(** A keep-alive thread: [Thread(target=utils.start_keep_alive_icmp,
    args=(mgmtip, interval, max_lost, stop_event, callback))].  The callback
    is [device_disconnected(deviceid, tenantid)]; [ka_alive] tells whether
    the thread is still running. *)
Record KeepAlive : Type := {
  ka_tenantid : string;
  ka_deviceid : string;
  ka_mgmtip : string;
  ka_interval : Z;
  ka_max_lost : Z;
  ka_stop_event : nat;
  ka_alive : bool
}.

(** What the controller does that is visible from outside, in order. *)
Inductive event : Type :=
| EvPrepareDb (deviceid tenantid : string)
| EvDeviceReconciliation (deviceid tenantid : string)
| EvOverlayReconciliation (deviceid tenantid : string)
| EvReconciliationFailed (deviceid tenantid : string)
| EvDestroyEndpoint (mode deviceid tenantid : string)
| EvCreateEndpoint (mode deviceid tenantid : string)
| EvStopEventSet (stop_event : nat)
| EvSessionRegistered (thread_id : string) (stop_event : nat)
| EvThreadStarted (thread_id : string) (stop_event : nat)
| EvSessionDeleted (thread_id : string).

#[global] Instance event_eq_dec : EqDecision event.
Proof. solve_decision. Defined.

(** The northbound interface: three reconciliation steps, each returning an
    HTTP-style status code; they work on the storage. *)
Record Northbound : Type := {
  prepare_db_for_device_reconciliation :
    string -> string -> Storage -> Z * Storage;
  device_reconciliation : string -> string -> Storage -> Z * Storage;
  overlay_reconciliation : string -> string -> Storage -> Z * Storage
}.

Section Controller.

(** The state of the tunnel modes (their objects and the network objects
    they manage). *)
Variable T : Type.

(** The interface of a tunnel mode, as the controller calls it. *)
Record TunnelMode : Type := {
  require_keep_alive_messages : bool;
  create_tunnel_controller_endpoint :
    forall (deviceid tenantid device_external_ip : string)
           (device_external_port vxlan_port : Z) (device_vtep_mac : string),
      T -> result (status * Vteps) * T;
  destroy_tunnel_controller_endpoint :
    forall (deviceid tenantid : string), T -> result status * T
}.

(** The controller object: what [__init__] and [serve] set and no call
    changes. *)
Record Controller : Type := {
  tunnel_modes : gmap string TunnelMode;
  nb_interface_ref : option Northbound;
  keep_alive_interval : Z;
  max_keep_alive_lost : Z
}.

(** Everything a call of the controller can read or change: the storage,
    the STAMP nodes kept by the northbound interface, the state of the
    tunnel modes, the table of keep-alive sessions ([connected_devices],
    thread id to stop event), the [Event] objects (event [i] is set when
    [events !! i = Some true]), the threads started, and the trace. *)
Record World : Type := {
  db : Storage;
  stamp_nodes : gmap (string * string) string;
  tunnel_state : T;
  connected_devices : gmap string nat;
  events : list bool;
  threads : list KeepAlive;
  trace : list event
}.

Definition set_db (v : Storage) (w : World) : World :=
  {| db := v; stamp_nodes := stamp_nodes w; tunnel_state := tunnel_state w;
     connected_devices := connected_devices w; events := events w;
     threads := threads w; trace := trace w |}.

Definition set_stamp_nodes (v : gmap (string * string) string) (w : World)
    : World :=
  {| db := db w; stamp_nodes := v; tunnel_state := tunnel_state w;
     connected_devices := connected_devices w; events := events w;
     threads := threads w; trace := trace w |}.

Definition set_tunnel_state (v : T) (w : World) : World :=
  {| db := db w; stamp_nodes := stamp_nodes w; tunnel_state := v;
     connected_devices := connected_devices w; events := events w;
     threads := threads w; trace := trace w |}.

Definition set_connected_devices (v : gmap string nat) (w : World) : World :=
  {| db := db w; stamp_nodes := stamp_nodes w; tunnel_state := tunnel_state w;
     connected_devices := v; events := events w;
     threads := threads w; trace := trace w |}.

Definition set_events (v : list bool) (w : World) : World :=
  {| db := db w; stamp_nodes := stamp_nodes w; tunnel_state := tunnel_state w;
     connected_devices := connected_devices w; events := v;
     threads := threads w; trace := trace w |}.

Definition set_threads (v : list KeepAlive) (w : World) : World :=
  {| db := db w; stamp_nodes := stamp_nodes w; tunnel_state := tunnel_state w;
     connected_devices := connected_devices w; events := events w;
     threads := v; trace := trace w |}.

Definition set_trace (v : list event) (w : World) : World :=
  {| db := db w; stamp_nodes := stamp_nodes w; tunnel_state := tunnel_state w;
     connected_devices := connected_devices w; events := events w;
     threads := threads w; trace := v |}.

Definition log {R} (e : event) : M World R unit :=
  modify (fun w => set_trace (trace w ++ [e]) w).

(** A read of the storage, and a call of the storage that may write. *)
Definition storage_read {R A} (f : Storage -> A) : M World R A :=
  gets (fun w => f (db w)).

Definition storage {R A} (f : Storage -> A * Storage) : M World R A :=
  fun w => let (a, db') := f (db w) in (Val a, set_db db' w).

(** [self.tunnel_state.tunnel_modes[name]] *)
Definition lookup_tunnel_mode {R} (self : Controller) (name : string)
    : M World R TunnelMode :=
  match tunnel_modes self !! name with
  | Some m => pure m
  | None => raise KeyError
  end.

(** A call of a method of a tunnel mode. *)
Definition tunnel {R A} (f : T -> result A * T) : M World R A :=
  call_in tunnel_state set_tunnel_state f.

(** [threading.Event()], [event.set()] and [Thread(...).start()]. *)
Definition Event_new {R} : M World R nat :=
  let* w := get in
  modify (set_events (events w ++ [false])) >>
  pure (length (events w)).

Definition Event_set {R} (e : nat) : M World R unit :=
  modify (fun w => set_events (<[e := true]> (events w)) w) >>
  log (EvStopEventSet e).

Definition Thread_start {R} (th : KeepAlive) : M World R unit :=
  modify (fun w => set_threads (threads w ++ [th]) w) >>
  log (EvThreadStarted (ka_tenantid th +:+ "/" +:+ ka_deviceid th)
                       (ka_stop_event th)).

(** [s.split('/')[0]] *)
Fixpoint split_slash_0 (s : string) : string :=
  match s with
  | EmptyString => EmptyString
  | String c s' =>
      if decide (c = "/"%char) then EmptyString
      else String c (split_slash_0 s')
  end.

(** A call of a step of the northbound interface. *)
Definition northbound {R} (self : Controller) (e : event)
    (step : Northbound -> Storage -> Z * Storage) : M World R Z :=
  match nb_interface_ref self with
  | None => raise AttributeError
  | Some nb => log e >> storage (step nb)
  end.

(** Authenticate a device: [auth_data.token] is checked by the storage. *)
Definition authenticate_device (self : Controller) (deviceid : string)
    (token : string) : World -> result (bool * option string) * World :=
  def (
    let* r :=
      storage_read (srv6_sdn_controller_state.authenticate_device token) in
    let '(authenticated, tenantid) := r in
    if negb authenticated then return_ (false, None)
    else
      (* Return the tenant ID *)
      pure (true, tenantid)).

(** Register a device. *)
Definition register_device (self : Controller) (deviceid : string)
    (r : Registration) (mgmtip : string) (token : string)
    : World -> result (status * option Z * option string) * World :=
  def (
    (* Device authentication *)
    let* a := call (authenticate_device self deviceid token) in
    let '(authenticated, tenantid) := a in
    (if negb authenticated
     then return_ (STATUS_UNAUTHORIZED, None, None) else pure tt) >>
    match tenantid with
    | None =>
        (* does not arise: the storage names the tenant of every token it
           accepts *)
        raise TypeError
    | Some tenantid =>
        (* If the device is already registered, send it the configuration
           and create tunnels *)
        let* exists_ := storage_read (device_exists deviceid tenantid) in
        (if exists_ : bool then
           storage (set_device_reconciliation_flag deviceid tenantid true) >>
           pure tt
         else
           (* Update controller state *)
           modify (fun w =>
             set_db (srv6_sdn_controller_state.register_device
                       deviceid r mgmtip tenantid (db w)) w)) >>
        (* Get the tenant configuration *)
        let* config := storage_read (get_tenant_config tenantid) in
        match config with
        | None => return_ (STATUS_INTERNAL_ERROR, None, None)
        | Some config =>
            (* Set the port *)
            let vxlan_port := default DEFAULT_VXLAN_PORT (cfg_vxlan_port config) in
            (* Success *)
            pure (STATUS_SUCCESS, Some vxlan_port, Some tenantid)
        end
    end).

Definition reconciliation_failed (self : Controller)
    (deviceid tenantid : string) : World -> result (option status) * World :=
  def (
    log (EvReconciliationFailed deviceid tenantid) >>
    (* Change device state to reboot required *)
    let* success :=
      storage (change_device_state deviceid tenantid REBOOT_REQUIRED) in
    (if negb success then return_ (Some STATUS_INTERNAL_ERROR) else pure tt) >>
    (* Increase reconciliation failures counter *)
    let* failures :=
      storage (inc_and_get_reconciliation_failures deviceid tenantid) in
    match failures with
    | None => raise TypeError
    | Some failures =>
        if decide (failures >= MAX_ALLOWED_RECONCILIATION_FAILURES) then
          (* Change device state to failure state *)
          let* success :=
            storage (change_device_state deviceid tenantid FAILURE) in
          if negb success then return_ (Some STATUS_INTERNAL_ERROR)
          else pure None
        else
          let* can := storage_read (can_reboot_device deviceid tenantid) in
          if can : bool then
            (* Reboot is required for the device (only logged) *)
            pure None
          else
            (* Reboot is disabled for the device (only logged) *)
            pure None
    end).

(** *** [update_mgmt_info] (update tunnel mode)

    The body of the method is given block by block, in the order of the
    source; a [return] in a block leaves the method. *)

(** If a tunnel already exists, we need to destroy it before creating the
    new tunnel. *)
Definition destroy_old_tunnel (self : Controller) (deviceid tenantid : string)
    : M World (status * Vteps) unit :=
  let* old_tunnel_mode := storage_read (get_tunnel_mode deviceid tenantid) in
  match old_tunnel_mode with
  | Some old_name =>
      let* old_tunnel_mode := lookup_tunnel_mode self old_name in
      log (EvDestroyEndpoint old_name deviceid tenantid) >>
      let* res :=
        tunnel (destroy_tunnel_controller_endpoint old_tunnel_mode
                  deviceid tenantid) in
      (if decide (res ≠ STATUS_SUCCESS)
       then return_ (res, no_vteps) else pure tt) >>
      storage (set_tunnel_mode deviceid tenantid None) >>
      pure tt
  | None => pure tt
  end.

(** Get the tunnel mode requested by the device and create the tunnel. *)
Definition create_tunnel (self : Controller) (deviceid tenantid : string)
    (tunnel_name device_external_ip : string) (device_external_port : Z)
    (device_vtep_mac : string) (vxlan_port : Z)
    : M World (status * Vteps) (TunnelMode * Vteps) :=
  let* tunnel_mode := lookup_tunnel_mode self tunnel_name in
  log (EvCreateEndpoint tunnel_name deviceid tenantid) >>
  let* r :=
    tunnel (create_tunnel_controller_endpoint tunnel_mode deviceid tenantid
              device_external_ip device_external_port vxlan_port
              device_vtep_mac) in
  let '(res, vteps) := r in
  (if decide (res ≠ STATUS_SUCCESS)
   then return_ (res, no_vteps) else pure tt) >>
  pure (tunnel_mode, vteps).

(** If a private IP address is present, use it as mgmt address. *)
Definition private_mgmtip {R} (deviceid tenantid mgmtip : string)
    : M World R string :=
  let* res := storage_read (get_device_mgmtip tenantid deviceid) in
  match res with
  | Some _ =>
      let* again := storage_read (get_device_mgmtip tenantid deviceid) in
      match again with
      | Some ip => pure (split_slash_0 ip)
      | None => raise AttributeError
      end
  | None => pure mgmtip
  end.

(** If a keep alive thread for the device is already running, we need to
    stop it before starting new keep alive thread, to prevent race
    conditions; then a new stop event is created and registered, and the
    thread is started if the tunnel mode requires keep-alive messages. *)
Definition restart_keep_alive {R} (self : Controller)
    (tunnel_mode : TunnelMode) (deviceid tenantid mgmtip : string)
    : M World R unit :=
  let thread_id := tenantid +:+ "/" +:+ deviceid in
  let* w := get in
  (match connected_devices w !! thread_id with
   | Some prior => Event_set prior
   | None => pure tt
   end) >>
  (* Create a new event, used to stop the Keep Alive procedure *)
  let* stop_event := Event_new in
  modify (fun w =>
    set_connected_devices (<[thread_id := stop_event]> (connected_devices w))
                          w) >>
  log (EvSessionRegistered thread_id stop_event) >>
  (* Send keep-alive messages, if required for the tunnel mode *)
  if require_keep_alive_messages tunnel_mode then
    Thread_start {| ka_tenantid := tenantid; ka_deviceid := deviceid;
                    ka_mgmtip := mgmtip;
                    ka_interval := keep_alive_interval self;
                    ka_max_lost := max_keep_alive_lost self;
                    ka_stop_event := stop_event; ka_alive := true |}
  else pure tt.

(** Update controller state: the management information, the connected
    flag, the gRPC address used by STAMP, and the device state. *)
Definition update_controller_state (self : Controller)
    (deviceid tenantid : string)
    (interfaces : gmap string (list string * list string))
    (mgmtip tunnel_name nat_type device_external_ip : string)
    (device_external_port : Z) (device_vtep_mac : string) (vxlan_port : Z)
    : M World (status * Vteps) unit :=
  let* success :=
    storage (srv6_sdn_controller_state.update_mgmt_info
               deviceid tenantid mgmtip interfaces tunnel_name nat_type
               device_external_ip device_external_port device_vtep_mac
               vxlan_port) in
  (if negb success
   then return_ (STATUS_INTERNAL_ERROR, no_vteps) else pure tt) >>
  (* Mark the device as "connected" *)
  let* success :=
    storage (set_device_connected_flag deviceid tenantid true) in
  (if negb success
   then return_ (STATUS_INTERNAL_ERROR, no_vteps) else pure tt) >>
  (* Update gRPC IP used by STAMP *)
  (match nb_interface_ref self with
   | None => raise AttributeError
   | Some _ =>
       let* w := get in
       match stamp_nodes w !! (tenantid, deviceid) with
       | Some _ =>
           modify (fun w =>
             set_stamp_nodes
               (<[(tenantid, deviceid) := mgmtip]> (stamp_nodes w)) w)
       | None => pure tt
       end
   end) >>
  (* Device registration and authentication completed successfully,
     now it is working *)
  let* success := storage (change_device_state deviceid tenantid WORKING) in
  if negb success
  then return_ (STATUS_INTERNAL_ERROR, no_vteps) else pure tt.

Definition update_mgmt_info (self : Controller) (deviceid tenantid : string)
    (interfaces : gmap string (list string * list string))
    (mgmtip tunnel_name nat_type device_external_ip : string)
    (device_external_port : Z) (device_vtep_mac : string) (vxlan_port : Z)
    : World -> result (status * Vteps) * World :=
  def (
    destroy_old_tunnel self deviceid tenantid >>
    let* created :=
      create_tunnel self deviceid tenantid tunnel_name device_external_ip
                    device_external_port device_vtep_mac vxlan_port in
    let '(tunnel_mode, vteps) := created in
    let* mgmtip := private_mgmtip deviceid tenantid mgmtip in
    restart_keep_alive self tunnel_mode deviceid tenantid mgmtip >>
    update_controller_state self deviceid tenantid interfaces mgmtip
                            tunnel_name nat_type device_external_ip
                            device_external_port device_vtep_mac
                            vxlan_port >>
    (* Success *)
    pure (STATUS_SUCCESS, vteps)).

Definition unregister_device (self : Controller) (deviceid tenantid : string)
    : World -> result status * World :=
  def (
    (* Get the device *)
    let* device := storage_read (get_device deviceid tenantid) in
    match device with
    | None => return_ STATUS_INTERNAL_ERROR
    | Some device =>
        (* Get tunnel mode *)
        (match tunnel_mode device with
         | Some mode_name =>
             let* tunnel_mode := lookup_tunnel_mode self mode_name in
             (* Destroy the tunnel *)
             log (EvDestroyEndpoint mode_name deviceid tenantid) >>
             let* res :=
               tunnel (destroy_tunnel_controller_endpoint tunnel_mode
                         deviceid tenantid) in
             if decide (res ≠ STATUS_SUCCESS) then return_ res else pure tt
         | None => pure tt
         end) >>
        (* Success *)
        pure STATUS_SUCCESS
    end).

Definition device_disconnected (self : Controller)
    (deviceid tenantid : string) : World -> result status * World :=
  def (
    (* Get the device *)
    let* device := storage_read (get_device deviceid tenantid) in
    match device with
    | None => return_ STATUS_INTERNAL_ERROR
    | Some device =>
        (* Mark the device as "not connected" *)
        let* success :=
          storage (set_device_connected_flag deviceid tenantid false) in
        (if negb success then return_ STATUS_INTERNAL_ERROR else pure tt) >>
        (* Get tunnel mode *)
        (match tunnel_mode device with
         | Some mode_name =>
             let* tunnel_mode := lookup_tunnel_mode self mode_name in
             (* Destroy the tunnel *)
             log (EvDestroyEndpoint mode_name deviceid tenantid) >>
             let* res :=
               tunnel (destroy_tunnel_controller_endpoint tunnel_mode
                         deviceid tenantid) in
             (if decide (res ≠ STATUS_SUCCESS)
              then return_ res else pure tt) >>
             storage (set_tunnel_mode deviceid tenantid None) >>
             pure tt
         | None => pure tt
         end) >>
        (* Clear management information on the database *)
        storage (clear_mgmt_info deviceid tenantid) >>
        (* Remove keep alive stop event *)
        let thread_id := tenantid +:+ "/" +:+ deviceid in
        let* w := get in
        (match connected_devices w !! thread_id with
         | Some _ =>
             modify (fun w =>
               set_connected_devices (delete thread_id (connected_devices w))
                                     w) >>
             log (EvSessionDeleted thread_id)
         | None => raise KeyError
         end) >>
        (* Success *)
        pure STATUS_SUCCESS
    end).

Definition exec_reconciliation (self : Controller)
    (deviceid tenantid : string)
    : World -> result reconciliation_result * World :=
  def (
    let* flag :=
      storage_read (get_device_reconciliation_flag deviceid tenantid) in
    (if bool_decide (flag = Some true) then
       RollbackContext.with_ (
         RollbackContext.push (reconciliation_failed self deviceid tenantid) >>
         let* res :=
           RollbackContext.lift
             (northbound self (EvPrepareDb deviceid tenantid)
                (fun nb => prepare_db_for_device_reconciliation nb
                             deviceid tenantid)) in
         (if decide (res ≠ 200) then return_ (Http res) else pure tt) >>
         let* res :=
           RollbackContext.lift
             (northbound self (EvDeviceReconciliation deviceid tenantid)
                (fun nb => device_reconciliation nb deviceid tenantid)) in
         (if decide (res ≠ 200) then return_ (Http res) else pure tt) >>
         let* res :=
           RollbackContext.lift
             (northbound self (EvOverlayReconciliation deviceid tenantid)
                (fun nb => overlay_reconciliation nb deviceid tenantid)) in
         (if decide (res ≠ 200) then return_ (Http res) else pure tt) >>
         RollbackContext.lift
           (storage (set_device_reconciliation_flag deviceid tenantid false)) >>
         (* Success, commit all performed operations *)
         RollbackContext.commitAll)
     else pure tt) >>
    (* Reconciliation successful, reset the failures counter *)
    let* success :=
      storage (reset_reconciliation_failures deviceid tenantid) in
    if negb success then return_ (Status STATUS_INTERNAL_ERROR)
    else pure (Status STATUS_SUCCESS)).

(** *** Keep-alive sessions *)

Definition thread_id_of (th : KeepAlive) : string :=
  ka_tenantid th +:+ "/" +:+ ka_deviceid th.

Definition is_set (w : World) (e : nat) : bool :=
  default false (events w !! e).

(** Modelled from the spec: the monitor ([utils.start_keep_alive_icmp]) is
    not among the sources.  Cancellation is cooperative: a running monitor
    terminates when it finds, between two probes, that its stop event is
    set.  [monitor_checks_stop i] is that check by the [i]-th thread. *)
Definition monitor_checks_stop (i : nat) (w : World) : World :=
  match threads w !! i with
  | Some th =>
      if ka_alive th && is_set w (ka_stop_event th) then
        set_threads
          (<[i := {| ka_tenantid := ka_tenantid th;
                     ka_deviceid := ka_deviceid th;
                     ka_mgmtip := ka_mgmtip th;
                     ka_interval := ka_interval th;
                     ka_max_lost := ka_max_lost th;
                     ka_stop_event := ka_stop_event th;
                     ka_alive := false |}]> (threads w)) w
      else w
  | None => w
  end.

(** The sessions of a key that are live (their thread runs), and those that
    are live and have not been told to stop. *)
Definition live_sessions (key : string) (w : World) : list KeepAlive :=
  filter (fun th => ka_alive th = true ∧ thread_id_of th = key) (threads w).

Definition uncancelled_sessions (key : string) (w : World) : list KeepAlive :=
  filter (fun th => ka_alive th = true ∧ thread_id_of th = key
                    ∧ is_set w (ka_stop_event th) = false) (threads w).

(** The keep-alive bookkeeping of the controller: the session table, the
    stop events and the threads. *)
Definition sessions (w : World)
    : gmap string nat * list bool * list KeepAlive :=
  (connected_devices w, events w, threads w).

(** The arguments of one [update_mgmt_info] call. *)
Record UpdateCall : Type := {
  u_deviceid : string;
  u_tenantid : string;
  u_interfaces : gmap string (list string * list string);
  u_mgmtip : string;
  u_tunnel_name : string;
  u_nat_type : string;
  u_device_external_ip : string;
  u_device_external_port : Z;
  u_device_vtep_mac : string;
  u_vxlan_port : Z
}.

(** What happens to the keep-alive sessions of a controller: devices call
    [update_mgmt_info], and monitors check their stop events. *)
Inductive session_step : Type :=
| StepUpdate (c : UpdateCall)
| StepMonitorCheck (i : nat).

Definition run_step (self : Controller) (st : session_step) (w : World)
    : World :=
  match st with
  | StepUpdate c =>
      (update_mgmt_info self (u_deviceid c) (u_tenantid c) (u_interfaces c)
         (u_mgmtip c) (u_tunnel_name c) (u_nat_type c)
         (u_device_external_ip c) (u_device_external_port c)
         (u_device_vtep_mac c) (u_vxlan_port c) w).2
  | StepMonitorCheck i => monitor_checks_stop i w
  end.

Definition run_steps (self : Controller) (l : list session_step) (w : World)
    : World :=
  foldl (fun w st => run_step self st w) w l.

(** The keep-alive bookkeeping is consistent: a running monitor that has
    not been told to stop is the one registered for its device, every stop
    event in use exists, and no two threads share a stop event. *)
Definition sessions_wf (w : World) : Prop :=
  (forall th, th ∈ threads w -> ka_alive th = true ->
              is_set w (ka_stop_event th) = false ->
              connected_devices w !! thread_id_of th
              = Some (ka_stop_event th))
  /\ (forall th, th ∈ threads w ->
                 (ka_stop_event th < length (events w))%nat)
  /\ NoDup (ka_stop_event <$> threads w)
  /\ (forall k e, connected_devices w !! k = Some e ->
                  (e < length (events w))%nat).

(** *** Repeated reconciliation failures *)

(** [k] failed reconciliation attempts in a row. *)
Definition failed_attempts (self : Controller) (deviceid tenantid : string)
    (k : nat) (w : World) : World :=
  Nat.iter k (fun w => (reconciliation_failed self deviceid tenantid w).2) w.

(** The record [reconciliation_failed] leaves for a device that exists. *)
Definition failed_record (dev : Device) : Device :=
  let n := reconciliation_failures dev + 1 in
  let counted :=
    set_reconciliation_failures n (set_state REBOOT_REQUIRED dev) in
  if decide (n >= MAX_ALLOWED_RECONCILIATION_FAILURES)
  then set_state FAILURE counted else counted.

End Controller.

Arguments require_keep_alive_messages {T} _.
Arguments create_tunnel_controller_endpoint {T} _ _ _ _ _ _ _ _.
Arguments destroy_tunnel_controller_endpoint {T} _ _ _ _.
Arguments tunnel_modes {T} _.
Arguments nb_interface_ref {T} _.
Arguments keep_alive_interval {T} _.
Arguments max_keep_alive_lost {T} _.
Arguments db {T} _.
Arguments stamp_nodes {T} _.
Arguments tunnel_state {T} _.
Arguments connected_devices {T} _.
Arguments events {T} _.
Arguments threads {T} _.
Arguments trace {T} _.
Arguments register_device {T} _ _ _ _ _ _.
Arguments authenticate_device {T} _ _ _ _.
Arguments reconciliation_failed {T} _ _ _ _.
Arguments update_mgmt_info {T} _ _ _ _ _ _ _ _ _ _ _ _.
Arguments unregister_device {T} _ _ _ _.
Arguments destroy_old_tunnel {T} _ _ _ _.
Arguments create_tunnel {T} _ _ _ _ _ _ _ _ _.
Arguments private_mgmtip {T R} _ _ _ _.
Arguments restart_keep_alive {T R} _ _ _ _ _ _.
Arguments update_controller_state {T} _ _ _ _ _ _ _ _ _ _ _ _.
Arguments device_disconnected {T} _ _ _ _.
Arguments exec_reconciliation {T} _ _ _ _.
Arguments monitor_checks_stop {T} _ _.
Arguments live_sessions {T} _ _.
Arguments uncancelled_sessions {T} _ _.
Arguments is_set {T} _ _.
Arguments sessions {T} _.
Arguments run_step {T} _ _ _.
Arguments run_steps {T} _ _ _.
Arguments sessions_wf {T} _.
Arguments failed_attempts {T} _ _ _ _ _.
Arguments set_db {T} _ _.
Arguments set_stamp_nodes {T} _ _.
Arguments set_tunnel_state {T} _ _.
Arguments set_connected_devices {T} _ _.
Arguments set_events {T} _ _.
Arguments set_threads {T} _ _.
Arguments set_trace {T} _ _.
Arguments log {T R} _ _.
Arguments storage_read {T R A} _ _.
Arguments storage {T R A} _ _.
Arguments lookup_tunnel_mode {T R} _ _ _.
Arguments tunnel {T R A} _ _.
Arguments Event_new {T R} _.
Arguments Event_set {T R} _ _.
Arguments Thread_start {T R} _ _.
Arguments northbound {T R} _ _ _ _.

(** *** [restore_mgmt_interfaces] (restore management interfaces, if any)

    The four parameters of a tunnel are assigned to local variables only
    when the device record has them, and the variables live across the
    iterations of the loop: [None] is a variable that is not bound yet. *)
Record RestoreLocals : Type := {
  l_device_external_ip : option string;
  l_device_external_port : option Z;
  l_device_vtep_mac : option string;
  l_vxlan_port : option Z
}.

Definition no_locals : RestoreLocals :=
  {| l_device_external_ip := None; l_device_external_port := None;
     l_device_vtep_mac := None; l_vxlan_port := None |}.

(** The four conditional assignments at the head of an iteration. *)
Definition assign_locals (device : Device) (l : RestoreLocals)
    : RestoreLocals :=
  {| l_device_external_ip :=
       match external_ip <$> mgmt_info device with
       | Some v => Some v
       | None => l_device_external_ip l
       end;
     l_device_external_port :=
       match external_port <$> mgmt_info device with
       | Some v => Some v
       | None => l_device_external_port l
       end;
     l_device_vtep_mac :=
       match mgmt_mac <$> mgmt_info device with
       | Some v => Some v
       | None => l_device_vtep_mac l
       end;
     l_vxlan_port :=
       match srv6_sdn_controller_state.vxlan_port <$> mgmt_info device with
       | Some v => Some v
       | None => l_vxlan_port l
       end |}.

(** How the method ends: with a value ([None] for a bare [return]), with
    one of the exceptions of the model, or with the [UnboundLocalError] of
    a local variable read before it is bound. *)
Inductive restore_result : Type :=
| RestoreReturned (r : option status)
| RestoreRaised (e : exn)
| RestoreUnboundLocalError (name : string).

Section Restore.
Variable T : Type.

(** The loop over the devices list. *)
Fixpoint restore_devices (self : Controller T)
    (devices : list (string * string * Device)) (locals : RestoreLocals)
    (w : World T) : restore_result * World T :=
  match devices with
  | [] =>
      (* Success *)
      (RestoreReturned (Some STATUS_SUCCESS), w)
  | (tenantid, deviceid, device) :: devices =>
      (* Get the tunnel mode used for this device *)
      match tunnel_mode device with
      | None => restore_devices self devices locals w
      | Some mode_name =>
          (* If tunnel mode is valid, restore the tunnel endpoint *)
          let locals := assign_locals device locals in
          match tunnel_modes self !! mode_name with
          | None => (RestoreRaised KeyError, w)
          | Some tm =>
              match l_device_external_ip locals,
                    l_device_external_port locals,
                    l_vxlan_port locals,
                    l_device_vtep_mac locals with
              | None, _, _, _ =>
                  (RestoreUnboundLocalError "device_external_ip", w)
              | Some _, None, _, _ =>
                  (RestoreUnboundLocalError "device_external_port", w)
              | Some _, Some _, None, _ =>
                  (RestoreUnboundLocalError "vxlan_port", w)
              | Some _, Some _, Some _, None =>
                  (RestoreUnboundLocalError "device_vtep_mac", w)
              | Some device_external_ip, Some device_external_port,
                Some vxlan_port, Some device_vtep_mac =>
                  (* Create tunnel controller endpoint *)
                  let w1 :=
                    set_trace
                      (trace w ++ [EvCreateEndpoint mode_name deviceid tenantid])
                      w in
                  match create_tunnel_controller_endpoint tm deviceid tenantid
                          device_external_ip device_external_port vxlan_port
                          device_vtep_mac (tunnel_state w) with
                  | (Raised e, ts) => (RestoreRaised e, set_tunnel_state ts w1)
                  | (Returned (res, _), ts) =>
                      if decide (res ≠ STATUS_SUCCESS)
                      then (RestoreReturned (Some res), set_tunnel_state ts w1)
                      else restore_devices self devices locals
                             (set_tunnel_state ts w1)
                  end
              end
          end
      end
  end.

Definition restore_mgmt_interfaces (self : Controller T) (w : World T)
    : restore_result * World T :=
  (* Get all the devices *)
  match get_devices (db w) with
  | None => (RestoreReturned None, w)
  | Some devices =>
      (* Iterate on the devices list *)
      restore_devices self devices no_locals w
  end.

(** The endpoint creations [restore_mgmt_interfaces] has to make for a
    list of devices, in order. *)
Definition endpoints_to_restore (devices : list (string * string * Device))
    : list event :=
  omap (fun x : string * string * Device =>
          (fun mode_name => EvCreateEndpoint mode_name x.1.2 x.1.1)
            <$> tunnel_mode x.2) devices.

End Restore.

Arguments restore_devices {T} _ _ _ _.
Arguments restore_mgmt_interfaces {T} _ _.

(** The record [update_mgmt_info] stores for a device on success. *)
Definition working_record
    (interfaces : gmap string (list string * list string))
    (mgmtip tunnel_name nat_type device_external_ip : string)
    (device_external_port : Z) (device_vtep_mac : string) (vxlan_port : Z)
    (dev : Device) : Device :=
  {| registration := registration dev;
     srv6_sdn_controller_state.mgmtip :=
       Some (match srv6_sdn_controller_state.mgmtip dev with
             | Some a => split_slash_0 a
             | None => mgmtip
             end);
     state := WORKING; connected := true;
     tunnel_mode := Some tunnel_name;
     mgmt_info :=
       Some {| ext_interfaces := interfaces;
               srv6_sdn_controller_state.nat_type := nat_type;
               external_ip := device_external_ip;
               external_port := device_external_port;
               mgmt_mac := device_vtep_mac;
               srv6_sdn_controller_state.vxlan_port := vxlan_port |};
     reconciliation_flag := reconciliation_flag dev;
     reconciliation_failures := reconciliation_failures dev;
     allow_reboot := allow_reboot dev |}.

(** The storage [db1] differs from [db0] at most by the tunnel mode of the
    device under [key], which may have been cleared. *)
Definition mode_cleared (key : string * string) (db0 db1 : Storage)
    : Prop :=
  tenants db1 = tenants db0
  /\ tokens db1 = tokens db0
  /\ (forall d, <[key := d]> (devices db1) = <[key := d]> (devices db0))
  /\ (forall k, k <> key -> devices db1 !! k = devices db0 !! k)
  /\ match devices db1 !! key with
     | Some dev1 =>
         exists dev0, devices db0 !! key = Some dev0
                      /\ (dev1 = dev0 \/ dev1 = set_tunnel_mode_field None dev0)
     | None => devices db0 !! key = None
     end.

End PymerangController.

(** ** [pymerang_server.PymerangServicer] *)

Module PymerangServicer.
Import srv6_sdn_controller_state PymerangController.

(** [pymerang_pb2.SRTransparency] *)
Inductive SRTransparency : Type := T0 | T1 | OP.

(** Modelled from the spec: the messages of [pymerang_pb2] are not among
    the sources.  A request has the fields the handlers read, a reply the
    fields they set; a field of a reply that no statement sets is
    [None]. *)
Record Feature : Type := {
  feature_name : string;
  feature_port : Z
}.

Record Subnet : Type := {
  subnet : string;
  gateway : string
}.

Record InterfaceMsg : Type := {
  interface_name : string;
  interface_mac_addr : string;
  interface_ipv4_addrs : list string;
  interface_ipv6_addrs : list string;
  interface_ipv4_subnets : list Subnet;
  interface_ipv6_subnets : list Subnet;
  interface_ext_ipv4_addrs : list string;
  interface_ext_ipv6_addrs : list string
}.

Record MgmtInfoMsg : Type := {
  msg_tunnel_mode : string;
  msg_nat_type : string;
  msg_device_external_ip : string;
  msg_device_external_port : Z;
  msg_device_vtep_mac : string;
  msg_vxlan_port : Z
}.

Record Request : Type := {
  request_device_id : string;
  request_device_features : list Feature;
  request_auth_data_token : string;
  request_sid_prefix : string;
  request_enable_proxy_ndp : bool;
  request_force_ip6tnl : bool;
  request_force_srh : bool;
  request_incoming_sr_transparency : SRTransparency;
  request_outgoing_sr_transparency : SRTransparency;
  request_public_prefix_length : Z;
  request_interfaces : list InterfaceMsg;
  request_tenantid : string;
  request_mgmt_info : MgmtInfoMsg
}.

(** [pymerang_pb2.RegisterDeviceReply].  The status field holds what the
    handler puts there: a status code, or, in [ExecReconciliation], the
    HTTP-style code of a northbound step. *)
Record RegisterDeviceReply : Type := {
  reply_status : reconciliation_result;
  reply_device_state : option DeviceState;
  reply_vxlan_port : option Z;
  reply_controller_vtep_mac : option string;
  reply_controller_vtep_ip : option string;
  reply_device_vtep_ip : option string;
  reply_vtep_mask : option Z;
  reply_tenantid : option string
}.

(** [RegisterDeviceReply(status=..., device_state=...)] *)
Definition reply_with (st : reconciliation_result)
    (device_state : option DeviceState) : RegisterDeviceReply :=
  {| reply_status := st; reply_device_state := device_state;
     reply_vxlan_port := None; reply_controller_vtep_mac := None;
     reply_controller_vtep_ip := None; reply_device_vtep_ip := None;
     reply_vtep_mask := None; reply_tenantid := None |}.

(** What a handler returns: a reply message or, on some error paths, a
    bare status code. *)
Inductive response : Type :=
| Reply (reply : RegisterDeviceReply)
| BareStatus (s : status).

(** The transparency sent to the controller: [t0] unless T1 or OP. *)
Definition sr_transparency (t : SRTransparency) : string :=
  match t with
  | T1 => "t1"
  | OP => "op"
  | T0 => "t0"
  end.

(** A subnet of an interface: the gateway is kept only when the message
    names one. *)
Definition subnet_of (s : Subnet) : string * option string :=
  (subnet s, if decide (gateway s ≠ "") then Some (gateway s) else None).

(** An interface as [RegisterDevice] passes it on.  The three entries that
    are the same for every interface (no external addresses yet, type
    UNKNOWN) have no field in the record of the storage model. *)
Definition interface_of (i : InterfaceMsg) : Interface :=
  {| if_name := interface_name i;
     mac_addr := interface_mac_addr i;
     ipv4_addrs := interface_ipv4_addrs i;
     ipv6_addrs := interface_ipv6_addrs i;
     ipv4_subnets := subnet_of <$> interface_ipv4_subnets i;
     ipv6_subnets := subnet_of <$> interface_ipv6_subnets i |}.

(** What [RegisterDevice] extracts from the registration request. *)
Definition registration_of (request : Request) : Registration :=
  {| features :=
       (fun f => (feature_name f, feature_port f))
         <$> request_device_features request;
     interfaces := interface_of <$> request_interfaces request;
     sid_prefix :=
       if decide (request_sid_prefix request ≠ "")
       then Some (request_sid_prefix request) else None;
     public_prefix_length :=
       Some (if decide (request_public_prefix_length request ≠ 0)
             then request_public_prefix_length request else 128);
     enable_proxy_ndp := request_enable_proxy_ndp request;
     force_ip6tnl := request_force_ip6tnl request;
     force_srh := request_force_srh request;
     incoming_sr_transparency :=
       Some (sr_transparency (request_incoming_sr_transparency request));
     outgoing_sr_transparency :=
       Some (sr_transparency (request_outgoing_sr_transparency request)) |}.

(** The dictionary of interfaces [UpdateMgmtInfo] builds, by name: an
    assignment for each interface of the request, in order. *)
Definition external_addresses (l : list InterfaceMsg)
    : gmap string (list string * list string) :=
  foldl (fun m i =>
           <[interface_name i :=
               (interface_ext_ipv4_addrs i, interface_ext_ipv6_addrs i)]> m)
        ∅ l.

(** [srv6_sdn_controller_state.get_device] with the tenant the controller
    returned, which is [None] when the registration did not succeed: no
    device has the tenant [None]. *)
Definition get_device_of (deviceid : string) (tenantid : option string)
    (db : Storage) : option Device :=
  match tenantid with
  | Some tenantid => get_device deviceid tenantid db
  | None => None
  end.

Section Servicer.

Variable T : Type.

(** [utils.parse_ip_port(peer)[0].__str__()]: the address part of the peer
    the RPC framework reports. *)
Variable parse_ip_port : string -> string.

Definition RegisterDevice (controller : Controller T) (request : Request)
    (peer : string) : World T -> result response * World T :=
  def (
    (* Get the IP address seen by the gRPC server *)
    let mgmtip := parse_ip_port peer in
    (* Extract the parameters from the registration request *)
    let deviceid := request_device_id request in
    let auth_data := request_auth_data_token request in
    (* Register the device *)
    let* r :=
      call (register_device controller deviceid (registration_of request)
              mgmtip auth_data) in
    let '(response, vxlan_port, tenantid) := r in
    (if decide (response = STATUS_UNAUTHORIZED)
     then return_ (Reply (reply_with (Status STATUS_UNAUTHORIZED) None))
     else pure tt) >>
    (if decide (response ≠ STATUS_SUCCESS) then
       (* Get the device *)
       let* device := storage_read (get_device_of deviceid tenantid) in
       match device with
       | None => return_ (BareStatus STATUS_INTERNAL_ERROR)
       | Some device =>
           return_ (Reply (reply_with (Status response)
                                      (Some (state device))))
       end
     else pure tt) >>
    match vxlan_port, tenantid with
    | Some vxlan_port, Some tenantid =>
        (* Get the device *)
        let* device := storage_read (get_device deviceid tenantid) in
        match device with
        | None => return_ (BareStatus STATUS_INTERNAL_ERROR)
        | Some device =>
            (* Send the reply *)
            pure (Reply {| reply_status := Status STATUS_SUCCESS;
                           reply_device_state := Some (state device);
                           reply_vxlan_port := Some vxlan_port;
                           reply_controller_vtep_mac := None;
                           reply_controller_vtep_ip := None;
                           reply_device_vtep_ip := None;
                           reply_vtep_mask := None;
                           reply_tenantid := Some tenantid |})
        end
    | _, _ =>
        (* does not arise: the controller returns both with SUCCESS *)
        raise TypeError
    end).

Definition UpdateMgmtInfo (controller : Controller T) (request : Request)
    (peer : string) : World T -> result response * World T :=
  def (
    (* Get the IP address seen by the gRPC server *)
    let mgmtip := parse_ip_port peer in
    (* Extract the parameters from the registration request *)
    let deviceid := request_device_id request in
    let tenantid := request_tenantid request in
    let interfaces := external_addresses (request_interfaces request) in
    let mgmt_info := request_mgmt_info request in
    (* Update management information *)
    let* r :=
      call (update_mgmt_info controller deviceid tenantid interfaces mgmtip
              (msg_tunnel_mode mgmt_info) (msg_nat_type mgmt_info)
              (msg_device_external_ip mgmt_info)
              (msg_device_external_port mgmt_info)
              (msg_device_vtep_mac mgmt_info) (msg_vxlan_port mgmt_info)) in
    let '(response, vteps) := r in
    if decide (response ≠ STATUS_SUCCESS)
    then return_ (Reply (reply_with (Status response) None))
    else
      (* Create the response: a VTEP field is set when it is not None *)
      pure (Reply {| reply_status := Status STATUS_SUCCESS;
                     reply_device_state := None;
                     reply_vxlan_port := None;
                     reply_controller_vtep_mac := controller_vtep_mac vteps;
                     reply_controller_vtep_ip := controller_vtep_ip vteps;
                     reply_device_vtep_ip := device_vtep_ip vteps;
                     reply_vtep_mask := vtep_mask vteps;
                     reply_tenantid := None |})).

Definition UnregisterDevice (controller : Controller T) (request : Request)
    : World T -> result response * World T :=
  def (
    let deviceid := request_device_id request in
    let tenantid := request_tenantid request in
    (* Unregister the device *)
    let* response := call (unregister_device controller deviceid tenantid) in
    if decide (response ≠ STATUS_SUCCESS)
    then return_ (Reply (reply_with (Status response) None))
    else
      (* Send the reply *)
      pure (Reply (reply_with (Status STATUS_SUCCESS) None))).

Definition KeepAlive (request : Request)
    : World T -> result response * World T :=
  def (
    let deviceid := request_device_id request in
    let tenantid := request_tenantid request in
    (* Get the device *)
    let* device := storage_read (get_device deviceid tenantid) in
    match device with
    | None => return_ (BareStatus STATUS_INTERNAL_ERROR)
    | Some device =>
        (* Report the status to the device *)
        pure (Reply (reply_with (Status STATUS_SUCCESS)
                                (Some (state device))))
    end).

Definition ExecReconciliation (controller : Controller T) (request : Request)
    : World T -> result response * World T :=
  def (
    let deviceid := request_device_id request in
    let tenantid := request_tenantid request in
    (* Execute reconciliation; a failure is only logged *)
    let* res := call (exec_reconciliation controller deviceid tenantid) in
    (* Get the device *)
    let* device := storage_read (get_device deviceid tenantid) in
    match device with
    | None => return_ (BareStatus STATUS_INTERNAL_ERROR)
    | Some device =>
        (* Report the status to the device *)
        pure (Reply (reply_with res (Some (state device))))
    end).

End Servicer.

Arguments RegisterDevice {T} _ _ _ _ _.
Arguments UpdateMgmtInfo {T} _ _ _ _ _.
Arguments UnregisterDevice {T} _ _ _.
Arguments KeepAlive {T} _ _.
Arguments ExecReconciliation {T} _ _ _.

End PymerangServicer.

(** ** A concrete controller, for the examples *)

Module Scenario.
Import srv6_sdn_controller_state PymerangController.

(** The state of the example tunnel modes: the endpoints that exist, by
    tenant and device. *)
Definition Endpoints : Type := gset (string * string).

(** A tunnel mode that answers like [TunnelVXLAN]: creating an endpoint
    fails with INTERNAL_ERROR for an external address without a family. *)
Definition mode (keep_alive : bool) : TunnelMode Endpoints :=
  {| require_keep_alive_messages := keep_alive;
     create_tunnel_controller_endpoint :=
       fun deviceid tenantid device_external_ip _ _ _ ts =>
         match getAddressFamily device_external_ip with
         | None => (Returned (STATUS_INTERNAL_ERROR, no_vteps), ts)
         | Some _ =>
             (Returned (STATUS_SUCCESS,
                        {| controller_vtep_mac := Some "02:00:00:00:00:01";
                           controller_vtep_ip := Some "10.255.0.1";
                           device_vtep_ip := Some "10.255.0.2";
                           vtep_mask := Some 16 |}),
              ts ∪ {[(tenantid, deviceid)]})
         end;
     destroy_tunnel_controller_endpoint :=
       fun deviceid tenantid ts =>
         (Returned STATUS_SUCCESS, ts ∖ {[(tenantid, deviceid)]}) |}.

(** A northbound interface whose steps answer [c1], [c2] and [c3] and
    leave the storage alone. *)
Definition nb (c1 c2 c3 : Z) : Northbound :=
  {| prepare_db_for_device_reconciliation := fun _ _ db => (c1, db);
     device_reconciliation := fun _ _ db => (c2, db);
     overlay_reconciliation := fun _ _ db => (c3, db) |}.

Definition controller (c1 c2 c3 : Z) : Controller Endpoints :=
  {| tunnel_modes := {[ "vxlan" := mode true; "no_nat" := mode false ]};
     nb_interface_ref := Some (nb c1 c2 c3);
     keep_alive_interval := 5;
     max_keep_alive_lost := 4 |}.

Definition registration : Registration :=
  {| features := [("gRPC", 12345)];
     interfaces := [];
     sid_prefix := None;
     public_prefix_length := Some 128;
     enable_proxy_ndp := true;
     force_ip6tnl := false;
     force_srh := false;
     incoming_sr_transparency := Some "t0";
     outgoing_sr_transparency := Some "t0" |}.

(** A device record: state, persisted tunnel mode, reconciliation flag and
    failure counter are given, the rest is as after registration. *)
Definition device (st : DeviceState) (mode : option string) (flag : bool)
    (failures : Z) : Device :=
  {| srv6_sdn_controller_state.registration := registration;
     mgmtip := None; state := st; connected := false;
     tunnel_mode := mode; mgmt_info := None;
     reconciliation_flag := flag; reconciliation_failures := failures;
     allow_reboot := false |}.

(** A storage with tenant [t1] (token [token-t1]) and the given devices. *)
Definition storage_with (ds : gmap (string * string) Device) : Storage :=
  {| devices := ds;
     tenants := {[ "t1" := {| cfg_vxlan_port := Some 4789 |} ]};
     tokens := {[ "token-t1" := "t1" ]} |}.

(** A controller that has just started: no endpoint, no session. *)
Definition world (ds : gmap (string * string) Device) : World Endpoints :=
  {| db := storage_with ds; stamp_nodes := ∅; tunnel_state := ∅;
     connected_devices := ∅; events := []; threads := []; trace := [] |}.

(** [UpdateMgmtInfo(d1, t1, mode, nat=Open, ext_ip, ext_port=51000)] *)
Definition update (c : Controller Endpoints) (mode_name ext_ip : string)
    : World Endpoints -> result (status * Vteps) * World Endpoints :=
  update_mgmt_info c "d1" "t1" ∅ "198.51.100.7" mode_name "Open" ext_ip 51000
                   "aa:bb:cc:00:00:01" 4789.

End Scenario.

Definition ti_example (d t ip : string) : TunnelVXLAN.TunnelInfo :=
  {| TunnelVXLAN.device_id := d; TunnelVXLAN.tenantid := t;
     TunnelVXLAN.device_external_ip := ip;
     TunnelVXLAN.device_external_port := 51000;
     TunnelVXLAN.device_vtep_mac := "aa:bb:cc:00:00:01";
     TunnelVXLAN.vxlan_port := 4789;
     TunnelVXLAN.controller_vtep_mac := None;
     TunnelVXLAN.controller_vtep_ip := None;
     TunnelVXLAN.device_vtep_ip := None;
     TunnelVXLAN.vtep_mask := None |}.

(** ** Further example objects *)

Module Examples.
Import srv6_sdn_controller_state PymerangController PymerangServicer Scenario.

(** The controller as the entry point of the module constructs it: no
    northbound interface is passed ([nb_interface_ref=None]). *)
Definition standalone : Controller Endpoints :=
  {| tunnel_modes := {[ "vxlan" := mode true; "no_nat" := mode false ]};
     nb_interface_ref := None;
     keep_alive_interval := 5;
     max_keep_alive_lost := 4 |}.

(** A tunnel mode whose teardown is refused with INTERNAL_ERROR. *)
Definition stuck_mode : TunnelMode Endpoints :=
  {| require_keep_alive_messages := true;
     create_tunnel_controller_endpoint :=
       create_tunnel_controller_endpoint (mode true);
     destroy_tunnel_controller_endpoint :=
       fun deviceid tenantid ts => (Returned STATUS_INTERNAL_ERROR, ts) |}.

Definition stuck_controller : Controller Endpoints :=
  {| tunnel_modes := {[ "vxlan" := stuck_mode ]};
     nb_interface_ref := Some (nb 200 200 200);
     keep_alive_interval := 5;
     max_keep_alive_lost := 4 |}.

(** A request of device [d1] of tenant [t1]. *)
Definition request_d1 : Request :=
  {| request_device_id := "d1";
     request_device_features := [];
     request_auth_data_token := "token-t1";
     request_sid_prefix := "";
     request_enable_proxy_ndp := true;
     request_force_ip6tnl := false;
     request_force_srh := false;
     request_incoming_sr_transparency := T0;
     request_outgoing_sr_transparency := T0;
     request_public_prefix_length := 0;
     request_interfaces := [];
     request_tenantid := "t1";
     request_mgmt_info :=
       {| msg_tunnel_mode := "vxlan"; msg_nat_type := "Open";
          msg_device_external_ip := "203.0.113.5";
          msg_device_external_port := 51000;
          msg_device_vtep_mac := "aa:bb:cc:00:00:01";
          msg_vxlan_port := 4789 |} |}.

(** The management information of a device, as stored. *)
Definition mgmt_info_d1 : MgmtInfo :=
  {| ext_interfaces := ∅;
     srv6_sdn_controller_state.nat_type := "Open";
     external_ip := "203.0.113.5";
     external_port := 51000;
     mgmt_mac := "aa:bb:cc:00:00:01";
     srv6_sdn_controller_state.vxlan_port := 4789 |}.

End Examples.


(* ===================================================================== *)
(** * Part II: the properties                                             *)
(* ===================================================================== *)

(** ** Mode capability filtering *)

(** C9: VXLAN supports exactly Open, FullCone, RestrictedCone and
    RestrictedPort (so never Symmetric); Ethernet-over-websocket supports
    every NAT classification except Blocked; Open is supported by both. *)
Theorem C9_supported_nat_types (vname ename : string) (vprio eprio : Z) :
  let vxlan := TunnelVXLAN.__init__ vname vprio in
  let etherws := TunnelEtherWs.__init__ ename eprio in
  (forall n, supports vxlan n = true <->
             n = OPEN \/ n = FULL_CONE \/ n = RESTRICTED_CONE
             \/ n = RESTRICTED_PORT)
  /\ supports vxlan SYMMETRIC = false
  /\ (forall n, supports etherws n = true <-> n <> BLOCKED)
  /\ supports vxlan OPEN = true /\ supports etherws OPEN = true
  /\ NoDup (supported_nat_types vxlan)
  /\ NoDup (supported_nat_types etherws).
Proof.
  cbn zeta. repeat split.
  - destruct n; vm_compute; intros H; try discriminate; tauto.
  - intros H. destruct n; try reflexivity;
      destruct H as [H|[H|[H|H]]]; discriminate.
  - destruct n; vm_compute; intros H; congruence.
  - destruct n; vm_compute; intros H; congruence.
  - apply (bool_decide_unpack _). vm_compute. exact I.
  - apply (bool_decide_unpack _). vm_compute. exact I.
Qed.

(** ** Symbolic execution of method bodies *)

Ltac unfold_monad :=
  unfold def, call, call_in, bind, pure, return_, raise, get, gets, modify in *.

Ltac unfold_world :=
  unfold PymerangController.northbound, PymerangController.Event_set,
    PymerangController.Thread_start, PymerangController.Event_new,
    PymerangController.lookup_tunnel_mode, PymerangController.tunnel in *;
  unfold PymerangController.storage, PymerangController.storage_read,
    PymerangController.log in *.

(** ** Facts about the storage model *)

Section StorageFacts.
Import srv6_sdn_controller_state.

Lemma update_device_Some deviceid tenantid f db d :
  devices db !! (tenantid, deviceid) = Some d ->
  update_device deviceid tenantid f db
  = (true, set_devices <[(tenantid, deviceid) := f d]> db).
Proof. intros H. unfold update_device. by rewrite H. Qed.

Lemma update_device_None deviceid tenantid f db :
  devices db !! (tenantid, deviceid) = None ->
  update_device deviceid tenantid f db = (false, db).
Proof. intros H. unfold update_device. by rewrite H. Qed.

Lemma update_device_tenants deviceid tenantid f db :
  tenants (update_device deviceid tenantid f db).2 = tenants db
  /\ tokens (update_device deviceid tenantid f db).2 = tokens db.
Proof. unfold update_device. by destruct (devices db !! _). Qed.

End StorageFacts.

(** ** Registration *)

Section Registration.
Import srv6_sdn_controller_state PymerangController.

Context {T : Type}.
Variables (self : Controller T) (deviceid : string) (r : Registration)
          (mgmtip token : string).

(** C8: when the storage rejects the authentication token, [register_device]
    returns UNAUTHORIZED and the whole state (device records, reconciliation
    flags, tenant configurations and everything else) is what it was. *)
Theorem C8_register_device_unauthorized (w : World T) :
  (srv6_sdn_controller_state.authenticate_device token (db w)).1 = false ->
  register_device self deviceid r mgmtip token w
  = (Returned (STATUS_UNAUTHORIZED, None, None), w).
Proof.
  intros Hrej.
  unfold register_device, authenticate_device.
  unfold_world. unfold_monad. cbn.
  destruct (srv6_sdn_controller_state.authenticate_device token (db w))
    as [a t] eqn:E.
  cbn in Hrej. subst a. reflexivity.
Qed.

(** C7: with a token the storage accepts, [register_device] sets the
    reconciliation flag of a device that exists for the resolved tenant and
    leaves the rest of its record as it is, and creates the record
    otherwise; it returns SUCCESS with the VXLAN port of the tenant's
    configuration (the default port when the configuration names none), or
    INTERNAL_ERROR when the tenant has no readable configuration. *)
Theorem C7_register_device (w : World T) (tenantid : string) :
  srv6_sdn_controller_state.authenticate_device token (db w)
  = (true, Some tenantid) ->
  let key := (tenantid, deviceid) in
  let res := (register_device self deviceid r mgmtip token w).1 in
  let w' := (register_device self deviceid r mgmtip token w).2 in
  match devices (db w) !! key with
  | Some d =>
      devices (db w')
      = <[key := set_reconciliation_flag true d]> (devices (db w))
      /\ (forall d', devices (db w') !! key = Some d' ->
                     reconciliation_flag d' = true
                     /\ registration d' = registration d
                     /\ state d' = state d
                     /\ tunnel_mode d' = tunnel_mode d)
  | None =>
      db w' = srv6_sdn_controller_state.register_device
                deviceid r mgmtip tenantid (db w)
      /\ (exists d', devices (db w') !! key = Some d'
                     /\ registration d' = r)
  end
  /\ tenants (db w') = tenants (db w)
  /\ res = match tenants (db w) !! tenantid with
           | Some config =>
               Returned (STATUS_SUCCESS,
                         Some (default DEFAULT_VXLAN_PORT
                                       (cfg_vxlan_port config)),
                         Some tenantid)
           | None => Returned (STATUS_INTERNAL_ERROR, None, None)
           end.
Proof.
  intros Hauth key.
  unfold register_device, authenticate_device.
  unfold_world. unfold_monad. cbn. rewrite Hauth. cbn.
  unfold device_exists, get_tenant_config.
  destruct (devices (db w) !! key) as [d|] eqn:Hd; fold key.
  - rewrite bool_decide_eq_true_2 by (fold key; rewrite Hd; eauto).
    unfold set_device_reconciliation_flag.
    rewrite (update_device_Some _ _ _ _ _ Hd). cbn.
    destruct (tenants (db w) !! tenantid) eqn:Ht; cbn; fold key;
      (split; [split; [reflexivity|]|split; reflexivity]);
      intros d'; rewrite lookup_insert_eq; intros [= <-]; done.
  - rewrite bool_decide_eq_false_2
      by (fold key; rewrite Hd; intros [? ?]; discriminate).
    cbn.
    destruct (tenants (db w) !! tenantid) eqn:Ht; cbn; fold key;
      (split; [split; [reflexivity|]|split; reflexivity]);
      eexists; (split; [apply lookup_insert_eq|reflexivity]).
Qed.

End Registration.

(** ** Reconciliation *)

Section Reconciliation.
Import srv6_sdn_controller_state PymerangController.

Context {T : Type}.
Variables (self : Controller T) (deviceid tenantid : string).

Lemma reconciliation_failed_exists (w : World T) (dev : Device) :
  devices (db w) !! (tenantid, deviceid) = Some dev ->
  reconciliation_failed self deviceid tenantid w
  = (Returned None,
     set_db (set_devices <[(tenantid, deviceid) := failed_record dev]> (db w))
            (set_trace (trace w ++ [EvReconciliationFailed deviceid tenantid])
                       w)).
Proof.
  intros Hd.
  unfold reconciliation_failed, failed_record.
  unfold_world. unfold_monad. cbn.
  unfold change_device_state, inc_and_get_reconciliation_failures, get_device,
    can_reboot_device.
  rewrite (update_device_Some _ _ _ _ _ Hd). cbn.
  rewrite lookup_insert_eq. cbn.
  erewrite update_device_Some by (cbn; apply lookup_insert_eq). cbn.
  case_decide as Hmax; cbn.
  - erewrite update_device_Some by (cbn; apply lookup_insert_eq). cbn.
    unfold set_db, set_devices, set_trace. cbn.
    by rewrite !insert_insert_eq.
  - unfold get_device. cbn. rewrite lookup_insert_eq. cbn.
    unfold set_db, set_devices, set_trace. cbn.
    rewrite !insert_insert_eq.
    by destruct (allow_reboot dev).
Qed.

Lemma reconciliation_failed_missing (w : World T) :
  devices (db w) !! (tenantid, deviceid) = None ->
  reconciliation_failed self deviceid tenantid w
  = (Returned (Some STATUS_INTERNAL_ERROR),
     set_trace (trace w ++ [EvReconciliationFailed deviceid tenantid]) w).
Proof.
  intros Hd.
  unfold reconciliation_failed.
  unfold_world. unfold_monad. cbn.
  unfold change_device_state.
  rewrite (update_device_None _ _ _ _ Hd). cbn.
  by destruct w.
Qed.

Lemma failed_attempts_stay_failed (k : nat) : forall (w : World T) (dev : Device),
  devices (db w) !! (tenantid, deviceid) = Some dev ->
  reconciliation_failures dev >= MAX_ALLOWED_RECONCILIATION_FAILURES ->
  state dev = FAILURE ->
  exists dev', devices (db (failed_attempts self deviceid tenantid k w)) !! (tenantid, deviceid)
               = Some dev'
               /\ reconciliation_failures dev'
                  = reconciliation_failures dev + Z.of_nat k
               /\ state dev' = FAILURE.
Proof.
  induction k as [|k IH]; intros w dev Hd Hmax Hst.
  - exists dev. cbn. rewrite Z.add_0_r. done.
  - destruct (IH w dev Hd Hmax Hst) as (dev1 & Hd1 & Hn1 & Hs1).
    unfold failed_attempts in *. rewrite Nat.iter_succ.
    rewrite (reconciliation_failed_exists _ _ Hd1). cbn.
    rewrite lookup_insert_eq. eexists; split; [reflexivity|].
    unfold failed_record. case_decide; cbn; [split; [lia|reflexivity]|lia].
Qed.

(** C4: on a device that exists, [reconciliation_failed] increments the
    failure counter and leaves the device REBOOT_REQUIRED while the
    incremented counter is below MAX_ALLOWED_RECONCILIATION_FAILURES; once
    the incremented counter has reached the ceiling the device is in state
    FAILURE after the call, and after every further failed attempt. *)
Theorem C4_reconciliation_failed (w : World T) (dev : Device) :
  devices (db w) !! (tenantid, deviceid) = Some dev ->
  let n := reconciliation_failures dev + 1 in
  let w' := (reconciliation_failed self deviceid tenantid w).2 in
  (reconciliation_failed self deviceid tenantid w).1 = Returned None
  /\ (exists dev', devices (db w') !! (tenantid, deviceid) = Some dev'
                   /\ reconciliation_failures dev' = n
                   /\ (n < MAX_ALLOWED_RECONCILIATION_FAILURES ->
                       state dev' = REBOOT_REQUIRED)
                   /\ (n >= MAX_ALLOWED_RECONCILIATION_FAILURES ->
                       state dev' = FAILURE))
  /\ (n >= MAX_ALLOWED_RECONCILIATION_FAILURES ->
      forall k, exists dev',
        devices (db (failed_attempts self deviceid tenantid k w')) !! (tenantid, deviceid) = Some dev'
        /\ reconciliation_failures dev' = n + Z.of_nat k
        /\ state dev' = FAILURE).
Proof.
  intros Hd n w'. subst w'.
  rewrite (reconciliation_failed_exists _ _ Hd). cbn.
  split; [reflexivity|]. split.
  - exists (failed_record dev). rewrite lookup_insert_eq.
    split; [reflexivity|]. unfold failed_record. fold n.
    case_decide; cbn; repeat split; intros; try reflexivity; lia.
  - intros Hmax k.
    assert (Hrec : reconciliation_failures (failed_record dev) = n
                   /\ state (failed_record dev) = FAILURE).
    { unfold failed_record. fold n. case_decide; cbn; [done|lia]. }
    destruct Hrec as [Hn Hs].
    match goal with
    | |- context [failed_attempts _ _ _ k ?w1] =>
        destruct (failed_attempts_stay_failed k w1 (failed_record dev))
          as (dev' & H1 & H2 & H3);
          [ cbn; apply lookup_insert_eq | lia | exact Hs | ]
    end.
    exists dev'. rewrite <- Hn. eauto.
Qed.


Lemma reconciliation_failed_returns (w : World T) :
  exists r db',
    reconciliation_failed self deviceid tenantid w
    = (Returned r,
       set_db db'
         (set_trace (trace w ++ [EvReconciliationFailed deviceid tenantid]) w)).
Proof.
  destruct (devices (db w) !! (tenantid, deviceid)) as [dev|] eqn:Hd.
  - rewrite (reconciliation_failed_exists _ _ Hd). eauto.
  - rewrite (reconciliation_failed_missing _ Hd). exists (Some STATUS_INTERNAL_ERROR), (db w).
    by destruct w.
Qed.

Ltac run_failed :=
  match goal with
  | |- context [reconciliation_failed _ _ _ ?w1] =>
      let r := fresh "r" in
      let dbf := fresh "dbf" in
      let Hf := fresh "Hf" in
      destruct (reconciliation_failed_returns w1) as (r & dbf & Hf);
      rewrite Hf; clear Hf
  end.

(** C3: with the reconciliation flag set, [exec_reconciliation] runs
    [prepare_db_for_device_reconciliation], [device_reconciliation] and
    [overlay_reconciliation] in that order, each only after the ones before
    it have returned 200; [reconciliation_failed] is invoked exactly when one
    of them fails, after it, and is not invoked when the three succeed; on
    success the flag is cleared and the failure counter reset.  With the
    flag unset the call only resets the failure counter. *)
Theorem C3_exec_reconciliation (w : World T) (nb : Northbound) :
  nb_interface_ref self = Some nb ->
  let flag := get_device_reconciliation_flag deviceid tenantid (db w) in
  let s1 := prepare_db_for_device_reconciliation nb deviceid tenantid (db w) in
  let s2 := device_reconciliation nb deviceid tenantid s1.2 in
  let s3 := overlay_reconciliation nb deviceid tenantid s2.2 in
  let r := (exec_reconciliation self deviceid tenantid w).1 in
  let w' := (exec_reconciliation self deviceid tenantid w).2 in
  let P := EvPrepareDb deviceid tenantid in
  let D := EvDeviceReconciliation deviceid tenantid in
  let O := EvOverlayReconciliation deviceid tenantid in
  let F := EvReconciliationFailed deviceid tenantid in
  (flag = Some true ->
   (s1.1 <> 200 ->
    trace w' = trace w ++ [P; F] /\ r = Returned (Http s1.1))
   /\ (s1.1 = 200 -> s2.1 <> 200 ->
       trace w' = trace w ++ [P; D; F] /\ r = Returned (Http s2.1))
   /\ (s1.1 = 200 -> s2.1 = 200 -> s3.1 <> 200 ->
       trace w' = trace w ++ [P; D; O; F] /\ r = Returned (Http s3.1))
   /\ (s1.1 = 200 -> s2.1 = 200 -> s3.1 = 200 ->
       trace w' = trace w ++ [P; D; O]
       /\ db w' = (reset_reconciliation_failures deviceid tenantid
                     (set_device_reconciliation_flag deviceid tenantid false
                        s3.2).2).2
       /\ forall dev, devices s3.2 !! (tenantid, deviceid) = Some dev ->
            r = Returned (Status STATUS_SUCCESS)
            /\ exists dev', devices (db w') !! (tenantid, deviceid) = Some dev'
                            /\ reconciliation_flag dev' = false
                            /\ reconciliation_failures dev' = 0))
  /\ (flag <> Some true ->
      w' = set_db (reset_reconciliation_failures deviceid tenantid (db w)).2 w).
Proof.
  intros Hnb. cbn zeta.
  unfold exec_reconciliation, RollbackContext.with_, RollbackContext.push,
    RollbackContext.lift, RollbackContext.commitAll.
  unfold_world. unfold_monad. rewrite Hnb. cbn.
  destruct (prepare_db_for_device_reconciliation nb deviceid tenantid (db w))
    as [c1 db1] eqn:E1.
  destruct (device_reconciliation nb deviceid tenantid db1)
    as [c2 db2] eqn:E2.
  destruct (overlay_reconciliation nb deviceid tenantid db2)
    as [c3 db3] eqn:E3.
  cbn. split.
  - intros Hflag. rewrite bool_decide_eq_true_2 by done. cbn.
    rewrite E1. cbn.
    destruct (decide (c1 ≠ 200)) as [H1|H1]; cbn.
    { run_failed. cbn. rewrite <- !app_assoc. cbn.
      repeat split; intros; try reflexivity; try contradiction; congruence. }
    rewrite E2. cbn.
    destruct (decide (c2 ≠ 200)) as [H2|H2]; cbn.
    { run_failed. cbn. rewrite <- !app_assoc. cbn.
      repeat split; intros; try reflexivity; try contradiction; congruence. }
    rewrite E3. cbn.
    destruct (decide (c3 ≠ 200)) as [H3|H3]; cbn.
    { run_failed. cbn. rewrite <- !app_assoc. cbn.
      repeat split; intros; try reflexivity; try contradiction; congruence. }
    assert (c1 = 200) by (destruct (decide (c1 = 200)); [done|contradiction]).
    assert (c2 = 200) by (destruct (decide (c2 = 200)); [done|contradiction]).
    assert (c3 = 200) by (destruct (decide (c3 = 200)); [done|contradiction]).
    unfold set_device_reconciliation_flag, reset_reconciliation_failures.
    destruct (devices db3 !! (tenantid, deviceid)) as [dev|] eqn:Hd.
    + rewrite (update_device_Some _ _ _ _ _ Hd). cbn.
      erewrite update_device_Some by (cbn; apply lookup_insert_eq). cbn.
      rewrite <- !app_assoc. cbn.
      repeat split; intros; try reflexivity; try contradiction.
      rewrite lookup_insert_eq. eexists; split; [reflexivity|]. done.
    + rewrite (update_device_None _ _ _ _ Hd). cbn.
      rewrite (update_device_None _ _ _ _ Hd). cbn.
      rewrite <- !app_assoc. cbn.
      repeat split; intros; try reflexivity; try contradiction; discriminate.
  - intros Hflag. rewrite bool_decide_eq_false_2 by done. cbn.
    destruct (reset_reconciliation_failures deviceid tenantid (db w))
      as [[] dbr]; reflexivity.
Qed.

End Reconciliation.

(** ** Disconnection *)

Section Disconnection.
Import srv6_sdn_controller_state PymerangController.

Context {T : Type}.
Variables (self : Controller T) (deviceid tenantid : string).

(** C10: [device_disconnected] deletes the entry of the device from
    [connected_devices] without checking that there is one.  When there is
    none the call never returns SUCCESS; and when the steps before the
    deletion succeed (the device exists, its tunnel, if it has one, is torn
    down), the call ends in an uncaught [KeyError], with the connected flag
    already cleared, the tunnel destroyed and the management information
    cleared. *)
Theorem C10_device_disconnected_no_session (w : World T) :
  connected_devices w !! (tenantid +:+ "/" +:+ deviceid) = None ->
  let r := (device_disconnected self deviceid tenantid w).1 in
  let w' := (device_disconnected self deviceid tenantid w).2 in
  let cleared :=
    exists dev', devices (db w') !! (tenantid, deviceid) = Some dev'
                 /\ connected dev' = false /\ tunnel_mode dev' = None
                 /\ mgmt_info dev' = None in
  r <> Returned STATUS_SUCCESS
  /\ forall dev, devices (db w) !! (tenantid, deviceid) = Some dev ->
       match tunnel_mode dev with
       | None => r = Raised KeyError /\ cleared
       | Some mode_name =>
           forall tm,
             tunnel_modes self !! mode_name = Some tm ->
             (destroy_tunnel_controller_endpoint tm deviceid tenantid
                (tunnel_state w)).1 = Returned STATUS_SUCCESS ->
             r = Raised KeyError /\ cleared
             /\ tunnel_state w'
                = (destroy_tunnel_controller_endpoint tm deviceid tenantid
                     (tunnel_state w)).2
             /\ trace w'
                = trace w ++ [EvDestroyEndpoint mode_name deviceid tenantid]
       end.
Proof.
  intros Hnone. cbn zeta.
  unfold device_disconnected.
  unfold_world. unfold_monad. cbn.
  unfold get_device, set_device_connected_flag, set_tunnel_mode,
    clear_mgmt_info.
  destruct (devices (db w) !! (tenantid, deviceid)) as [dev|] eqn:Hd; cbn.
  2: { split; [discriminate|]. intros ? ?; congruence. }
  rewrite (update_device_Some _ _ _ _ _ Hd). cbn.
  destruct (tunnel_mode dev) as [mode_name|] eqn:Hmode; cbn.
  - destruct (tunnel_modes self !! mode_name) as [tm|] eqn:Htm; cbn.
    2: { split; [discriminate|]. intros dev' Hdev'. simplify_eq.
         rewrite Hmode. intros ? ?; congruence. }
    destruct (destroy_tunnel_controller_endpoint tm deviceid tenantid
                (tunnel_state w)) as [[res|e] ts] eqn:Hdestroy; cbn.
    2: { split; [discriminate|]. intros dev' Hdev'. simplify_eq.
         rewrite Hmode. intros tm' Htm' Hok. simplify_eq.
         rewrite Hdestroy in Hok. discriminate Hok. }
    destruct (decide (res ≠ STATUS_SUCCESS)) as [Hres|Hres]; cbn.
    { split; [congruence|]. intros dev' Hdev'. simplify_eq.
      rewrite Hmode. intros tm' Htm' Hok. simplify_eq.
      rewrite Hdestroy in Hok. cbn in Hok. congruence. }
    erewrite update_device_Some by (cbn; apply lookup_insert_eq). cbn.
    erewrite update_device_Some by (cbn; apply lookup_insert_eq). cbn.
    rewrite Hnone. cbn.
    split; [discriminate|]. intros dev' Hdev'. simplify_eq.
    rewrite Hmode. intros tm' Htm' Hok. simplify_eq.
    rewrite Hdestroy. cbn.
    repeat split; try reflexivity.
    eexists. rewrite lookup_insert_eq. split; [reflexivity|done].
  - erewrite update_device_Some by (cbn; apply lookup_insert_eq). cbn.
    rewrite Hnone. cbn.
    split; [discriminate|]. intros dev' Hdev'. simplify_eq.
    rewrite Hmode.
    split; [reflexivity|].
    eexists. rewrite lookup_insert_eq. split; [reflexivity|done].
Qed.

End Disconnection.

(** ** Tunnel establishment ([update_mgmt_info]) *)

Section UpdateMgmtInfo.
Import srv6_sdn_controller_state PymerangController.

Context {T : Type}.
Variables (self : Controller T) (deviceid tenantid : string)
          (interfaces : gmap string (list string * list string))
          (mgmtip tunnel_name nat_type device_external_ip : string)
          (device_external_port : Z) (device_vtep_mac : string)
          (vxlan_port : Z).

Let thread_id : string := tenantid +:+ "/" +:+ deviceid.

(** What each block of the method does, case by case. *)

Lemma destroy_old_tunnel_run (w : World T) :
  destroy_old_tunnel self deviceid tenantid w
  = match get_tunnel_mode deviceid tenantid (db w) with
    | None => (Val tt, w)
    | Some old_name =>
        match tunnel_modes self !! old_name with
        | None => (Exc KeyError, w)
        | Some tm =>
            let w1 :=
              set_trace (trace w ++ [EvDestroyEndpoint old_name deviceid tenantid])
                        w in
            match destroy_tunnel_controller_endpoint tm deviceid tenantid
                    (tunnel_state w) with
            | (Raised e, ts) => (Exc e, set_tunnel_state ts w1)
            | (Returned res, ts) =>
                if decide (res ≠ STATUS_SUCCESS)
                then (Ret (res, no_vteps), set_tunnel_state ts w1)
                else (Val tt,
                      set_db (set_tunnel_mode deviceid tenantid None (db w)).2
                             (set_tunnel_state ts w1))
            end
        end
    end.
Proof.
  unfold destroy_old_tunnel. unfold_world. unfold_monad. cbn.
  destruct (get_tunnel_mode deviceid tenantid (db w)) as [old|]; [|done].
  destruct (tunnel_modes self !! old) as [tm|]; [|done]. cbn.
  destruct (destroy_tunnel_controller_endpoint tm deviceid tenantid
              (tunnel_state w)) as [[res|e] ts]; [|done]. cbn.
  case_decide; [done|]. cbn.
  by destruct (set_tunnel_mode deviceid tenantid None (db w)).
Qed.

Lemma create_tunnel_run (w : World T) :
  create_tunnel self deviceid tenantid tunnel_name device_external_ip
                device_external_port device_vtep_mac vxlan_port w
  = match tunnel_modes self !! tunnel_name with
    | None => (Exc KeyError, w)
    | Some tm =>
        let w1 :=
          set_trace (trace w ++ [EvCreateEndpoint tunnel_name deviceid tenantid])
                    w in
        match create_tunnel_controller_endpoint tm deviceid tenantid
                device_external_ip device_external_port vxlan_port
                device_vtep_mac (tunnel_state w) with
        | (Raised e, ts) => (Exc e, set_tunnel_state ts w1)
        | (Returned (res, vteps), ts) =>
            if decide (res ≠ STATUS_SUCCESS)
            then (Ret (res, no_vteps), set_tunnel_state ts w1)
            else (Val (tm, vteps), set_tunnel_state ts w1)
        end
    end.
Proof.
  unfold create_tunnel. unfold_world. unfold_monad. cbn.
  destruct (tunnel_modes self !! tunnel_name) as [tm|]; [|done]. cbn.
  destruct (create_tunnel_controller_endpoint tm deviceid tenantid
              device_external_ip device_external_port vxlan_port
              device_vtep_mac (tunnel_state w)) as [[[res v]|e] ts]; [|done].
  cbn. by case_decide.
Qed.

Lemma private_mgmtip_run {R} (w : World T) :
  @private_mgmtip T R deviceid tenantid mgmtip w
  = (Val (match get_device_mgmtip tenantid deviceid (db w) with
          | Some ip => split_slash_0 ip
          | None => mgmtip
          end), w).
Proof.
  unfold private_mgmtip. unfold_world. unfold_monad. cbn.
  destruct (get_device_mgmtip tenantid deviceid (db w)) eqn:E; cbn; rewrite ?E; reflexivity.
Qed.

(** The world after the keep-alive session of the device is replaced. *)
Lemma restart_keep_alive_run {R} (tm : TunnelMode T) (ip : string)
    (w : World T) :
  let stop_event := length (events w) in
  let prior := connected_devices w !! thread_id in
  @restart_keep_alive T R self tm deviceid tenantid ip w
  = (Val tt,
     {| db := db w; stamp_nodes := stamp_nodes w;
        tunnel_state := tunnel_state w;
        connected_devices := <[thread_id := stop_event]> (connected_devices w);
        events :=
          match prior with
          | Some p => <[p := true]> (events w)
          | None => events w
          end ++ [false];
        threads :=
          threads w ++
          (if require_keep_alive_messages tm
           then [{| ka_tenantid := tenantid; ka_deviceid := deviceid;
                    ka_mgmtip := ip;
                    ka_interval := keep_alive_interval self;
                    ka_max_lost := max_keep_alive_lost self;
                    ka_stop_event := stop_event; ka_alive := true |}]
           else []);
        trace :=
          trace w ++
          match prior with
          | Some p => [EvStopEventSet p]
          | None => []
          end ++
          [EvSessionRegistered thread_id stop_event] ++
          (if require_keep_alive_messages tm
           then [EvThreadStarted thread_id stop_event] else []) |}).
Proof.
  unfold restart_keep_alive. unfold_world. unfold_monad. cbn.
  fold thread_id.
  destruct (connected_devices w !! thread_id) as [p|]; cbn;
    destruct (require_keep_alive_messages tm); cbn;
    unfold set_trace, set_events, set_connected_devices, set_threads; cbn;
    rewrite ?length_insert, <- ?app_assoc, ?app_nil_r; reflexivity.
Qed.

Lemma update_controller_state_run (ip : string) (w : World T) :
  update_controller_state self deviceid tenantid interfaces ip tunnel_name
    nat_type device_external_ip device_external_port device_vtep_mac
    vxlan_port w
  = match devices (db w) !! (tenantid, deviceid) with
    | None => (Ret (STATUS_INTERNAL_ERROR, no_vteps), w)
    | Some dev =>
        let info :=
          {| ext_interfaces := interfaces;
             srv6_sdn_controller_state.nat_type := nat_type;
             external_ip := device_external_ip;
             external_port := device_external_port;
             mgmt_mac := device_vtep_mac;
             srv6_sdn_controller_state.vxlan_port := vxlan_port |} in
        let stored :=
          set_mgmt_info (Some info)
            (set_tunnel_mode_field (Some tunnel_name)
               (set_mgmtip (Some ip) dev)) in
        let put (d : Device) :=
          set_db (set_devices <[(tenantid, deviceid) := d]> (db w)) w in
        match nb_interface_ref self with
        | None => (Exc AttributeError, put (set_connected true stored))
        | Some _ =>
            (Val tt,
             set_stamp_nodes
               (match stamp_nodes w !! (tenantid, deviceid) with
                | Some _ => <[(tenantid, deviceid) := ip]> (stamp_nodes w)
                | None => stamp_nodes w
                end)
               (put (set_state WORKING (set_connected true stored))))
        end
    end.
Proof.
  unfold update_controller_state. unfold_world. unfold_monad. cbn.
  unfold srv6_sdn_controller_state.update_mgmt_info,
    set_device_connected_flag, change_device_state.
  destruct (devices (db w) !! (tenantid, deviceid)) as [dev|] eqn:Hd.
  2: { rewrite (update_device_None _ _ _ _ Hd). cbn. by destruct w. }
  rewrite (update_device_Some _ _ _ _ _ Hd). cbn.
  erewrite update_device_Some by (cbn; apply lookup_insert_eq). cbn.
  destruct (nb_interface_ref self) as [nb|]; cbn.
  2: { unfold set_db, set_devices. cbn. by rewrite insert_insert_eq. }
  destruct (stamp_nodes w !! (tenantid, deviceid)); cbn;
    (erewrite update_device_Some by (cbn; apply lookup_insert_eq)); cbn;
    unfold set_db, set_devices, set_stamp_nodes; cbn;
    by rewrite !insert_insert_eq.
Qed.


Lemma bind_run {S R A B} (m : M S R A) (f : A -> M S R B) (s : S) :
  bind m f s
  = match m s with
    | (Val a, s') => f a s'
    | (Ret r, s') => (Ret r, s')
    | (Exc e, s') => (Exc e, s')
    end.
Proof. reflexivity. Qed.

Ltac no_create :=
  let Hin := fresh "Hin" in
  intros ? ? ? [?|Hin]%elem_of_app;
    [assumption | apply list_elem_of_singleton in Hin; discriminate Hin].

#[local] Abbreviation update_mgmt_info_here :=
  (update_mgmt_info self deviceid tenantid interfaces mgmtip tunnel_name
     nat_type device_external_ip device_external_port device_vtep_mac
     vxlan_port).

(** C6, as the code has it: with a tunnel-mode name that is not in the
    registry, [update_mgmt_info] never succeeds, creates no tunnel and
    touches no keep-alive session, but the unknown name itself produces no
    status: the lookup raises [KeyError], which nothing catches.  The call
    returns a status only when the teardown of the device's old endpoint
    fails before the lookup, and then it is the status of the teardown. *)
Theorem C6_unknown_tunnel_mode (w : World T) :
  tunnel_modes self !! tunnel_name = None ->
  let r := (update_mgmt_info_here w).1 in
  let w' := (update_mgmt_info_here w).2 in
  (forall v, r <> Returned (STATUS_SUCCESS, v))
  /\ (forall m d t, EvCreateEndpoint m d t ∈ trace w' ->
                    EvCreateEndpoint m d t ∈ trace w)
  /\ sessions w' = sessions w
  /\ (forall res v,
        r = Returned (res, v) ->
        exists old tm,
          get_tunnel_mode deviceid tenantid (db w) = Some old
          /\ tunnel_modes self !! old = Some tm
          /\ (destroy_tunnel_controller_endpoint tm deviceid tenantid
                (tunnel_state w)).1 = Returned res
          /\ res <> STATUS_SUCCESS /\ v = no_vteps)
  /\ (get_tunnel_mode deviceid tenantid (db w) = None ->
      r = Raised KeyError /\ w' = w)
  /\ (forall old tm,
        get_tunnel_mode deviceid tenantid (db w) = Some old ->
        tunnel_modes self !! old = Some tm ->
        (destroy_tunnel_controller_endpoint tm deviceid tenantid
           (tunnel_state w)).1 = Returned STATUS_SUCCESS ->
        r = Raised KeyError).
Proof.
  intros Hname. cbv zeta.
  unfold update_mgmt_info, def.
  rewrite bind_run, destroy_old_tunnel_run.
  destruct (get_tunnel_mode deviceid tenantid (db w)) as [old|] eqn:Hold.
  2: { rewrite bind_run, create_tunnel_run, Hname. cbn.
       split_and!; try done; intros; congruence. }
  destruct (tunnel_modes self !! old) as [tm|] eqn:Htm.
  2: { cbn. split_and!; try done; intros; congruence. }
  cbv zeta.
  destruct (destroy_tunnel_controller_endpoint tm deviceid tenantid
              (tunnel_state w)) as [[res|e] ts] eqn:Hdestroy.
  2: { cbn. split_and!; try done.
       - no_create.
       - intros old' tm' ? ? Hok. simplify_eq. rewrite Hdestroy in Hok.
         discriminate Hok. }
  destruct (decide (res ≠ STATUS_SUCCESS)) as [Hres|Hres].
  { cbn. split_and!; try done.
    - congruence.
    - no_create.
    - intros res' v' ?. simplify_eq. exists old, tm. by rewrite Hdestroy.
    - intros old' tm' ? ? Hok. simplify_eq. rewrite Hdestroy in Hok.
      cbn in Hok. congruence. }
  rewrite bind_run, create_tunnel_run. cbn. rewrite Hname. cbn.
  split_and!; try done. no_create.
Qed.




(** What a call does to the keep-alive sessions: nothing, when it ends
    before the session is replaced (and then it does not succeed), or the
    replacement of the device's session: the stop event registered for the
    device, if any, is set, then a new stop event is created and
    registered, then the thread is started if the mode asks for one. *)
Lemma update_mgmt_info_sessions (w : World T) :
  let r := (update_mgmt_info_here w).1 in
  let w' := (update_mgmt_info_here w).2 in
  let new := length (events w) in
  let prior := connected_devices w !! thread_id in
  (sessions w' = sessions w /\ forall v, r <> Returned (STATUS_SUCCESS, v))
  \/ (exists tm ip pre,
        tunnel_modes self !! tunnel_name = Some tm
        /\ connected_devices w' = <[thread_id := new]> (connected_devices w)
        /\ events w'
           = match prior with
             | Some p => <[p := true]> (events w)
             | None => events w
             end ++ [false]
        /\ threads w'
           = threads w ++
             (if require_keep_alive_messages tm
              then [{| ka_tenantid := tenantid; ka_deviceid := deviceid;
                       ka_mgmtip := ip;
                       ka_interval := keep_alive_interval self;
                       ka_max_lost := max_keep_alive_lost self;
                       ka_stop_event := new; ka_alive := true |}]
              else [])
        /\ trace w'
           = trace w ++ pre ++
             match prior with
             | Some p => [EvStopEventSet p]
             | None => []
             end ++
             [EvSessionRegistered thread_id new] ++
             (if require_keep_alive_messages tm
              then [EvThreadStarted thread_id new] else [])).
Proof.
  cbv zeta.
  unfold update_mgmt_info, def.
  rewrite bind_run, destroy_old_tunnel_run.
  assert (Hrest : forall (w1 : World T) o w2 pre1,
            sessions w1 = sessions w ->
            trace w1 = trace w ++ pre1 ->
            (let* created :=
               create_tunnel self deviceid tenantid tunnel_name
                 device_external_ip device_external_port device_vtep_mac
                 vxlan_port in
             let '(tunnel_mode, vteps) := created in
             let* mgmtip0 := private_mgmtip deviceid tenantid mgmtip in
             restart_keep_alive self tunnel_mode deviceid tenantid mgmtip0 >>
             update_controller_state self deviceid tenantid interfaces
               mgmtip0 tunnel_name nat_type device_external_ip
               device_external_port device_vtep_mac vxlan_port >>
             pure (STATUS_SUCCESS, vteps)) w1 = (o, w2) ->
            (sessions w2 = sessions w
             /\ forall v, match o with
                          | Val r' | Ret r' => Returned r'
                          | Exc e => Raised e
                          end <> Returned (STATUS_SUCCESS, v))
            \/ (exists tm ip pre,
                  tunnel_modes self !! tunnel_name = Some tm
                  /\ connected_devices w2
                     = <[thread_id := length (events w)]> (connected_devices w)
                  /\ events w2
                     = match connected_devices w !! thread_id with
                       | Some p => <[p := true]> (events w)
                       | None => events w
                       end ++ [false]
                  /\ threads w2
                     = threads w ++
                       (if require_keep_alive_messages tm
                        then [{| ka_tenantid := tenantid;
                                 ka_deviceid := deviceid;
                                 ka_mgmtip := ip;
                                 ka_interval := keep_alive_interval self;
                                 ka_max_lost := max_keep_alive_lost self;
                                 ka_stop_event := length (events w);
                                 ka_alive := true |}]
                        else [])
                  /\ trace w2
                     = trace w ++ pre ++
                       match connected_devices w !! thread_id with
                       | Some p => [EvStopEventSet p]
                       | None => []
                       end ++
                       [EvSessionRegistered thread_id (length (events w))] ++
                       (if require_keep_alive_messages tm
                        then [EvThreadStarted thread_id (length (events w))]
                        else []))).
  { intros w1 o w2 pre1 Hs Htr.
    injection Hs as Hcd Hev Hth.
    rewrite bind_run, create_tunnel_run.
    destruct (tunnel_modes self !! tunnel_name) as [tm|] eqn:Htm.
    2: { intros [= <- <-]. left. unfold sessions. split; [congruence|done]. }
    cbv zeta.
    destruct (create_tunnel_controller_endpoint tm deviceid tenantid
                device_external_ip device_external_port vxlan_port
                device_vtep_mac (tunnel_state w1))
      as [[[res' v']|e] ts] eqn:Hcreate.
    2: { intros [= <- <-]. left. unfold sessions. cbn.
         split; [congruence|done]. }
    destruct (decide (res' ≠ STATUS_SUCCESS)) as [Hres'|Hres'].
    { intros [= <- <-]. left. unfold sessions. cbn.
      split; [congruence|]. intros v [=]. congruence. }
    cbv beta iota.
    rewrite bind_run, private_mgmtip_run. cbv beta iota.
    rewrite bind_run, restart_keep_alive_run. cbv beta iota zeta.
    rewrite bind_run, update_controller_state_run. cbn.
    intros Hrun. right.
    exists tm, (match get_device_mgmtip tenantid deviceid (db w1) with
                | Some ip => split_slash_0 ip
                | None => mgmtip
                end),
           (pre1 ++ [EvCreateEndpoint tunnel_name deviceid tenantid]).
    split; [reflexivity|].
    rewrite <- Hcd, <- Hev, <- Hth.
    assert (Htr' : forall l, (trace w1 ++ [EvCreateEndpoint tunnel_name deviceid tenantid]) ++ l
                   = trace w ++ (pre1 ++ [EvCreateEndpoint tunnel_name deviceid tenantid]) ++ l).
    { intros l. rewrite Htr, <- !app_assoc. reflexivity. }
    rewrite <- Htr'. fold thread_id. clear Htr'.
    destruct (devices (db w1) !! (tenantid, deviceid)) as [dev|];
      [destruct (nb_interface_ref self)|];
      cbn in Hrun; injection Hrun as <- <-; cbn; done. }
  destruct (get_tunnel_mode deviceid tenantid (db w)) as [old|] eqn:Hold.
  2: { match goal with
       | |- context [bind ?m ?f ?w1] =>
           destruct (bind m f w1) as [o w2] eqn:Hrun
       end.
       specialize (Hrest w o w2 [] eq_refl (eq_sym (app_nil_r _)) Hrun).
       destruct o; exact Hrest. }
  destruct (tunnel_modes self !! old) as [tm|] eqn:Htm; [|left; done].
  cbv zeta.
  destruct (destroy_tunnel_controller_endpoint tm deviceid tenantid
              (tunnel_state w)) as [[res0|e] ts] eqn:Hdestroy; [|left; done].
  destruct (decide (res0 ≠ STATUS_SUCCESS)) as [Hres0|Hres0].
  { left. cbn. split; [done|]. intros v [=]. congruence. }
  match goal with
  | |- context [bind ?m ?f ?w1] =>
      destruct (bind m f w1) as [o w2] eqn:Hrun
  end.
  match type of Hrun with
  | _ ?w1 = _ =>
      specialize (Hrest w1 o w2 [EvDestroyEndpoint old deviceid tenantid]
                    eq_refl eq_refl Hrun)
  end.
  destruct o; exact Hrest.
Qed.

End UpdateMgmtInfo.

(** ** Keep-alive sessions *)

Section KeepAliveSessions.
Import srv6_sdn_controller_state PymerangController.

Context {T : Type}.
Variable self : Controller T.

Lemma at_most_one {A} (f : A -> nat) (l : list A) (e : nat) :
  NoDup (f <$> l) -> (forall x, x ∈ l -> f x = e) -> (length l <= 1)%nat.
Proof.
  destruct l as [|a [|b l]]; cbn; intros Hnd Hall; try lia.
  exfalso. apply NoDup_cons in Hnd as [Hnotin _].
  apply Hnotin. rewrite (Hall a), <- (Hall b) by (set_unfold; tauto).
  set_unfold; tauto.
Qed.

Lemma NoDup_fmap_filter {A} (f : A -> nat) (P : A -> Prop)
    `{forall x, Decision (P x)} (l : list A) :
  NoDup (f <$> l) -> NoDup (f <$> filter P l).
Proof.
  induction l as [|a l IH]; [done|].
  rewrite fmap_cons, filter_cons.
  intros [Hnotin Hnd]%NoDup_cons.
  destruct (decide (P a)); [|by apply IH].
  rewrite fmap_cons. apply NoDup_cons. split; [|by apply IH].
  intros (x & Hfx & Hx)%list_elem_of_fmap.
  apply list_elem_of_filter in Hx as [_ Hx].
  apply Hnotin. apply list_elem_of_fmap. eauto.
Qed.

Lemma sessions_wf_uncancelled (w : World T) (key : string) :
  sessions_wf w -> (length (uncancelled_sessions key w) <= 1)%nat.
Proof.
  intros (H1 & H2 & H3 & H4). unfold uncancelled_sessions.
  destruct (connected_devices w !! key) as [e|] eqn:He.
  - apply (at_most_one ka_stop_event _ e).
    + by apply NoDup_fmap_filter.
    + intros th (( Hal & Hid & Hset) & Hin)%list_elem_of_filter.
      specialize (H1 th Hin Hal Hset). rewrite Hid, He in H1. congruence.
  - destruct (filter _ (threads w)) as [|th l] eqn:Hf; cbn; [lia|].
    assert (Hin : th ∈ filter
              (fun th => ka_alive th = true ∧ thread_id_of th = key
                         ∧ is_set w (ka_stop_event th) = false) (threads w))
      by (rewrite Hf; set_unfold; tauto).
    apply list_elem_of_filter in Hin as ((Hal & Hid & Hset) & Hin).
    specialize (H1 th Hin Hal Hset). rewrite Hid, He in H1. discriminate H1.
Qed.

Lemma lookup_after_replacement (ev : list bool) (prior : option nat) (e : nat) :
  (forall p, prior = Some p -> (p < length ev)%nat) ->
  default false ((match prior with
                  | Some p => <[p := true]> ev
                  | None => ev
                  end ++ [false]) !! e)
  = if decide (prior = Some e) then true else default false (ev !! e).
Proof.
  intros Hp.
  set (ev0 := match prior with Some p => <[p := true]> ev | None => ev end).
  assert (Hlen : length ev0 = length ev).
  { unfold ev0. destruct prior; [apply length_insert|done]. }
  destruct (decide (e < length ev)%nat) as [Hlt|Hge].
  - rewrite lookup_app_l by lia. unfold ev0.
    destruct prior as [p|].
    + rewrite list_lookup_insert. specialize (Hp p eq_refl).
      repeat case_decide; simplify_eq; try done; try lia.
      all: naive_solver lia.
    + rewrite decide_False by done. done.
  - rewrite decide_False by (intros ->; specialize (Hp e eq_refl); lia).
    rewrite (lookup_ge_None_2 ev e) by lia. cbn.
    destruct (decide (e = length ev)) as [->|Hne].
    + rewrite lookup_app_r by lia. rewrite Hlen, Nat.sub_diag. done.
    + rewrite lookup_ge_None_2; [done|]. rewrite length_app. cbn. lia.
Qed.


Lemma sessions_wf_replaced (w w' : World T) (key : string) (ths : list KeepAlive) :
  sessions_wf w ->
  connected_devices w' = <[key := length (events w)]> (connected_devices w) ->
  events w' = match connected_devices w !! key with
              | Some p => <[p := true]> (events w)
              | None => events w
              end ++ [false] ->
  threads w' = threads w ++ ths ->
  (ths = [] \/ exists th, ths = [th] /\ thread_id_of th = key
                          /\ ka_stop_event th = length (events w)) ->
  sessions_wf w'.
Proof.
  intros (H1 & H2 & H3 & H4) Hcd Hev Hth Hths.
  assert (Hset : forall e, is_set w' e
            = if decide (connected_devices w !! key = Some e) then true
              else is_set w e).
  { intros e. unfold is_set. rewrite Hev.
    apply lookup_after_replacement. intros p Hp. eauto. }
  assert (Hlen : length (events w') = S (length (events w))).
  { rewrite Hev, length_app. cbn.
    destruct (connected_devices w !! key); rewrite ?length_insert; lia. }
  split_and!.
  - intros th Hin Hal Hns. rewrite Hth in Hin.
    apply elem_of_app in Hin as [Hin|Hin].
    + rewrite Hset in Hns. case_decide as Hp; [discriminate Hns|].
      specialize (H1 th Hin Hal Hns).
      rewrite Hcd. rewrite lookup_insert_ne; [done|].
      intros Heq. rewrite <- Heq in H1. congruence.
    + destruct Hths as [->|(th0 & -> & Hid & Hst)]; [set_unfold; tauto|].
      apply list_elem_of_singleton in Hin as ->.
      rewrite Hcd, Hid, Hst. apply lookup_insert_eq.
  - intros th Hin. rewrite Hth in Hin. rewrite Hlen.
    apply elem_of_app in Hin as [Hin|Hin].
    + specialize (H2 th Hin). lia.
    + destruct Hths as [->|(th0 & -> & Hid & Hst)]; [set_unfold; tauto|].
      apply list_elem_of_singleton in Hin as ->. lia.
  - rewrite Hth, fmap_app. apply NoDup_app. split_and!; [done| |].
    + intros e (th & -> & Hin)%list_elem_of_fmap Hin'.
      destruct Hths as [->|(th0 & -> & Hid & Hst)]; [set_unfold; tauto|].
      cbn in Hin'. apply list_elem_of_singleton in Hin'.
      specialize (H2 th Hin). lia.
    + destruct Hths as [->|(th0 & -> & Hid & Hst)]; cbn;
        [constructor|apply NoDup_singleton].
  - intros k e. rewrite Hcd, Hlen.
    destruct (decide (key = k)) as [->|Hne].
    + rewrite lookup_insert_eq. intros [= <-]. lia.
    + rewrite lookup_insert_ne by done. intros Hk.
      specialize (H4 k e Hk). lia.
Qed.

Lemma sessions_wf_update (c : UpdateCall) (w : World T) :
  sessions_wf w -> sessions_wf (run_step self (StepUpdate c) w).
Proof.
  intros Hwf. unfold run_step.
  destruct (update_mgmt_info_sessions self (u_deviceid c) (u_tenantid c)
              (u_interfaces c) (u_mgmtip c) (u_tunnel_name c) (u_nat_type c)
              (u_device_external_ip c) (u_device_external_port c)
              (u_device_vtep_mac c) (u_vxlan_port c) w)
    as [[Hs _]|(tm & ip & pre & _ & Hcd & Hev & Hth & _)].
  - injection Hs as Hcd Hev Hth.
    destruct Hwf as (H1 & H2 & H3 & H4). unfold sessions_wf, is_set in *.
    rewrite Hcd, Hev, Hth. done.
  - eapply sessions_wf_replaced; [exact Hwf|exact Hcd|exact Hev|exact Hth|].
    destruct (require_keep_alive_messages tm); [right|left; done].
    eexists; split; [reflexivity|done].
Qed.

Lemma sessions_wf_monitor (i : nat) (w : World T) :
  sessions_wf w -> sessions_wf (monitor_checks_stop i w).
Proof.
  intros Hwf. unfold monitor_checks_stop.
  destruct (threads w !! i) as [th|] eqn:Hi; [|done].
  destruct (ka_alive th && is_set w (ka_stop_event th)); [|done].
  destruct Hwf as (H1 & H2 & H3 & H4).
  unfold sessions_wf, is_set. cbn.
  assert (Hin : forall th', th' ∈ <[i := {| ka_tenantid := ka_tenantid th;
                     ka_deviceid := ka_deviceid th;
                     ka_mgmtip := ka_mgmtip th;
                     ka_interval := ka_interval th;
                     ka_max_lost := ka_max_lost th;
                     ka_stop_event := ka_stop_event th;
                     ka_alive := false |}]> (threads w) ->
                 ka_alive th' = false /\ ka_stop_event th' = ka_stop_event th
                 \/ th' ∈ threads w).
  { intros th' (j & Hj)%list_elem_of_lookup.
    apply list_lookup_insert_Some in Hj as [(-> & <- & _)|[_ Hj]].
    - left. done.
    - right. apply list_elem_of_lookup. eauto. }
  split_and!.
  - intros th' [[Hal _]|Hin']%Hin Hal' Hns; [congruence|].
    by apply H1.
  - intros th' [[_ ->]|Hin']%Hin.
    + apply H2. apply list_elem_of_lookup. eauto.
    + by apply H2.
  - rewrite list_fmap_insert. cbn.
    rewrite list_insert_id; [done|].
    rewrite list_lookup_fmap, Hi. done.
  - done.
Qed.

Lemma sessions_wf_steps (steps : list session_step) : forall w : World T,
  sessions_wf w -> sessions_wf (run_steps self steps w).
Proof.
  induction steps as [|st steps IH]; intros w Hwf; [done|].
  cbn. apply IH. destruct st.
  - by apply sessions_wf_update.
  - by apply sessions_wf_monitor.
Qed.



End KeepAliveSessions.

(** ** Frame conditions of blocks *)

Section Blocks.
Context {S R : Type}.

Lemma preserves_pure {A X} (f : S -> X) (a : A) : preserves f (@pure S R A a).
Proof. by intros s. Qed.

Lemma preserves_raise {A X} (f : S -> X) (e : exn) :
  preserves f (@raise S R A e).
Proof. by intros s. Qed.

Lemma preserves_return {A X} (f : S -> X) (r : R) :
  preserves f (@return_ S R A r).
Proof. by intros s. Qed.

Lemma preserves_gets {A X} (f : S -> X) (g : S -> A) :
  preserves f (@gets S R A g).
Proof. by intros s. Qed.

Lemma preserves_modify {X} (f : S -> X) (g : S -> S) :
  (forall s, f (g s) = f s) -> preserves f (@modify S R g).
Proof. intros H s. apply H. Qed.

Lemma preserves_bind {A B X} (f : S -> X) (m : M S R A) (k : A -> M S R B) :
  preserves f m -> (forall a, preserves f (k a)) -> preserves f (bind m k).
Proof.
  intros Hm Hk s. unfold bind. specialize (Hm s).
  destruct (m s) as [[a|r|e] s']; cbn in *; [|done..].
  by rewrite Hk.
Qed.

Lemma commutes_pure {A} (e : S -> S) (a : A) : commutes e (@pure S R A a).
Proof. by intros s. Qed.

Lemma commutes_raise {A} (e : S -> S) (x : exn) :
  commutes e (@raise S R A x).
Proof. by intros s. Qed.

Lemma commutes_return {A} (e : S -> S) (r : R) :
  commutes e (@return_ S R A r).
Proof. by intros s. Qed.

Lemma commutes_gets {A} (e : S -> S) (g : S -> A) :
  (forall s, g (e s) = g s) -> commutes e (@gets S R A g).
Proof. intros H s. unfold gets. by rewrite H. Qed.

Lemma commutes_modify (e : S -> S) (g : S -> S) :
  (forall s, g (e s) = e (g s)) -> commutes e (@modify S R g).
Proof. intros H s. unfold modify. by rewrite H. Qed.

Lemma commutes_bind {A B} (e : S -> S) (m : M S R A) (k : A -> M S R B) :
  commutes e m -> (forall a, commutes e (k a)) -> commutes e (bind m k).
Proof.
  intros Hm Hk s. unfold bind. rewrite Hm.
  destruct (m s) as [[a|r|x] s']; cbn; [|done..].
  apply Hk.
Qed.

End Blocks.

(** ** Tenants and the VXLAN tunnel mode *)

Section VXLANTenants.
Import TunnelVXLAN.

(** A tenant key other than ['0']. *)
Variable t : string.
Hypothesis t_not_0 : t <> "0".

Lemma tenant_view_set_pool f m a s :
  m !! t = mgmt_map f s !! t ->
  next_host a !! t = next_host (allocator f s) !! t ->
  reusable a !! t = reusable (allocator f s) !! t ->
  tenant_view t (set_pool f m a s) = tenant_view t s.
Proof.
  intros H1 H2 H3. unfold tenant_view. destruct f; cbn in *;
    by rewrite H1, H2, H3.
Qed.

Lemma erase_set_pool f m a s :
  erase t (set_pool f m a s)
  = set_pool f (delete t m) (release_pool t a) (erase t s).
Proof. by destruct f. Qed.

Lemma mgmt_map_erase f s : mgmt_map f (erase t s) = delete t (mgmt_map f s).
Proof. by destruct f. Qed.

Lemma allocator_erase f s :
  allocator f (erase t s) = release_pool t (allocator f s).
Proof. by destruct f. Qed.


Lemma delete_0_t {A} (m : gmap string A) :
  delete "0" (delete t m) = delete t (delete "0" m).
Proof. apply delete_delete. Qed.

Lemma lookup_release_pool (a : Allocator) :
  next_host (release_pool t a) !! "0" = next_host a !! "0"
  /\ reusable (release_pool t a) !! "0" = reusable a !! "0"
  /\ prefixlen (release_pool t a) = prefixlen a.
Proof.
  unfold release_pool. cbn. by rewrite !lookup_delete_ne.
Qed.

(** The network-object operations. *)
Lemma in_net_preserves {R A} (m : M Net.State R A) :
  preserves (tenant_view t) (in_net m).
Proof. intros s. unfold in_net. by destruct (m (net s)). Qed.

Lemma in_net_commutes {R A} (m : M Net.State R A) :
  commutes (erase t) (in_net m).
Proof. intros s. unfold in_net. cbn. by destruct (m (net s)). Qed.

(** The set of initiated tenants and the MAC addresses. *)
Lemma initiated_add_preserves {R} :
  preserves (tenant_view t)
    (@modify State R (set_initiated (fun i => i ∪ {["0"]}))).
Proof.
  apply preserves_modify. intros s. unfold tenant_view. cbn. f_equal.
  apply bool_decide_ext. set_solver.
Qed.

Lemma initiated_add_commutes {R} :
  commutes (erase t)
    (@modify State R (set_initiated (fun i => i ∪ {["0"]}))).
Proof.
  apply commutes_modify. intros s. unfold erase, set_initiated. cbn. f_equal.
  set_solver.
Qed.

Lemma initiated_remove_preserves {R} :
  preserves (tenant_view t)
    (@modify State R (set_initiated (fun i => i ∖ {["0"]}))).
Proof.
  apply preserves_modify. intros s. unfold tenant_view. cbn. f_equal.
  apply bool_decide_ext. set_solver.
Qed.

Lemma initiated_remove_commutes {R} :
  commutes (erase t)
    (@modify State R (set_initiated (fun i => i ∖ {["0"]}))).
Proof.
  apply commutes_modify. intros s. unfold erase, set_initiated. cbn. f_equal.
  set_solver.
Qed.

Lemma is_initiated_commutes {R} :
  commutes (erase t)
    (@gets State R _ (fun self => bool_decide ("0" ∈ initiated self))).
Proof.
  apply commutes_gets. intros s. cbn. apply bool_decide_ext. set_solver.
Qed.

Lemma mac_addr_preserves {R} f :
  preserves (tenant_view t) (@modify State R (set_device_to_mac_addr f)).
Proof. by apply preserves_modify. Qed.

Lemma mac_addr_commutes {R} f :
  commutes (erase t) (@modify State R (set_device_to_mac_addr f)).
Proof. by apply commutes_modify. Qed.

(** The methods inherited from the base class, called for tenant ['0']. *)
Lemma init_tenantid_preserves {R} :
  preserves (tenant_view t) (@init_tenantid R "0").
Proof.
  apply preserves_modify. intros s. unfold tenant_view, init_pool. cbn.
  by rewrite !lookup_insert_ne.
Qed.

Lemma init_tenantid_commutes {R} :
  commutes (erase t) (@init_tenantid R "0").
Proof.
  apply commutes_modify. intros s.
  unfold erase, set_pool, init_pool, release_pool. cbn.
  by rewrite !delete_insert_ne.
Qed.

Lemma release_tenantid_preserves {R} :
  preserves (tenant_view t) (@release_tenantid R "0").
Proof.
  apply preserves_modify. intros s. unfold tenant_view, release_pool. cbn.
  by rewrite !lookup_delete_ne.
Qed.

Lemma release_tenantid_commutes {R} :
  commutes (erase t) (@release_tenantid R "0").
Proof.
  apply commutes_modify. intros s.
  unfold erase, set_pool, release_pool. cbn.
  by rewrite !delete_0_t.
Qed.


Lemma get_new_mgmt_ip_preserves {R} f sl :
  preserves (tenant_view t) (@get_new_mgmt_ip R f sl "0").
Proof.
  intros s. unfold get_new_mgmt_ip. unfold_monad. cbn.
  destruct (mgmt_map f s !! "0") as [m|]; [|done].
  destruct (next_host (allocator f s) !! "0") as [n|]; [|done].
  destruct (reusable (allocator f s) !! "0") as [free|]; [|done].
  destruct (m !! sl); [done|]. cbn.
  apply tenant_view_set_pool; destruct free; cbn;
    by rewrite ?lookup_insert_ne.
Qed.

Lemma get_new_mgmt_ip_commutes {R} f sl :
  commutes (erase t) (@get_new_mgmt_ip R f sl "0").
Proof.
  intros s. unfold get_new_mgmt_ip. unfold_monad. cbn.
  rewrite mgmt_map_erase, allocator_erase.
  destruct (lookup_release_pool (allocator f s)) as (-> & -> & ->).
  rewrite lookup_delete_ne by done.
  destruct (mgmt_map f s !! "0") as [m|]; [|done].
  destruct (next_host (allocator f s) !! "0") as [n|]; [|done].
  destruct (reusable (allocator f s) !! "0") as [free|]; [|done].
  destruct (m !! sl); [done|]. cbn.
  rewrite erase_set_pool. unfold release_pool.
  destruct free; cbn; by rewrite !delete_insert_ne.
Qed.

Lemma release_ip_address_preserves {R} f sl :
  preserves (tenant_view t) (@release_ip_address R f sl "0").
Proof.
  intros s. unfold release_ip_address. unfold_monad. cbn.
  destruct (mgmt_map f s !! "0") as [m|]; [|done].
  destruct (reusable (allocator f s) !! "0") as [free|]; [|done].
  destruct (m !! sl); [|done]. cbn.
  apply tenant_view_set_pool; cbn; by rewrite ?lookup_insert_ne.
Qed.

Lemma release_ip_address_commutes {R} f sl :
  commutes (erase t) (@release_ip_address R f sl "0").
Proof.
  intros s. unfold release_ip_address. unfold_monad. cbn.
  rewrite mgmt_map_erase, allocator_erase.
  destruct (lookup_release_pool (allocator f s)) as (_ & -> & _).
  rewrite lookup_delete_ne by done.
  destruct (mgmt_map f s !! "0") as [m|]; [|done].
  destruct (reusable (allocator f s) !! "0") as [free|]; [|done].
  destruct (m !! sl); [|done]. cbn.
  rewrite erase_set_pool. unfold release_pool. cbn.
  by rewrite !delete_insert_ne.
Qed.

Lemma num_addresses_preserves {R} :
  preserves (tenant_view t) (@num_addresses R "0").
Proof.
  intros s. unfold num_addresses. unfold_monad. cbn.
  by destruct (device_to_mgmt_ipv4 s !! "0"),
              (device_to_mgmt_ipv6 s !! "0").
Qed.

Lemma num_addresses_commutes {R} :
  commutes (erase t) (@num_addresses R "0").
Proof.
  intros s. unfold num_addresses. unfold_monad. cbn.
  rewrite !lookup_delete_ne by done.
  by destruct (device_to_mgmt_ipv4 s !! "0"),
              (device_to_mgmt_ipv6 s !! "0").
Qed.

(** The getters of [TunnelVXLAN]. *)
Lemma get_device_mgmtipv4_preserves {R} sl :
  preserves (tenant_view t) (@get_device_mgmtipv4 R "0" sl).
Proof.
  intros s. unfold get_device_mgmtipv4. unfold_monad. cbn.
  by destruct (device_to_mgmt_ipv4 s !! "0").
Qed.

Lemma get_device_mgmtipv4_commutes {R} sl :
  commutes (erase t) (@get_device_mgmtipv4 R "0" sl).
Proof.
  intros s. unfold get_device_mgmtipv4. unfold_monad. cbn.
  rewrite lookup_delete_ne by done.
  by destruct (device_to_mgmt_ipv4 s !! "0").
Qed.

Lemma get_device_mgmtipv6_preserves {R} sl :
  preserves (tenant_view t) (@get_device_mgmtipv6 R "0" sl).
Proof.
  intros s. unfold get_device_mgmtipv6. unfold_monad. cbn.
  by destruct (device_to_mgmt_ipv6 s !! "0").
Qed.

Lemma get_device_mgmtipv6_commutes {R} sl :
  commutes (erase t) (@get_device_mgmtipv6 R "0" sl).
Proof.
  intros s. unfold get_device_mgmtipv6. unfold_monad. cbn.
  rewrite lookup_delete_ne by done.
  by destruct (device_to_mgmt_ipv6 s !! "0").
Qed.

Lemma get_device_mgmtip_preserves {R} tenantid sl :
  preserves (tenant_view t) (@get_device_mgmtip R tenantid sl).
Proof.
  unfold get_device_mgmtip.
  apply preserves_bind; [apply get_device_mgmtipv4_preserves|].
  intros [a|]; [apply preserves_pure|apply get_device_mgmtipv6_preserves].
Qed.

Lemma get_device_mgmtip_commutes {R} tenantid sl :
  commutes (erase t) (@get_device_mgmtip R tenantid sl).
Proof.
  unfold get_device_mgmtip.
  apply commutes_bind; [apply get_device_mgmtipv4_commutes|].
  intros [a|]; [apply commutes_pure|apply get_device_mgmtipv6_commutes].
Qed.

Lemma split_of_preserves {R} o : preserves (tenant_view t) (@split_of R o).
Proof. destruct o; [apply preserves_pure|apply preserves_raise]. Qed.

Lemma split_of_commutes {R} o : commutes (erase t) (@split_of R o).
Proof. destruct o; [apply commutes_pure|apply commutes_raise]. Qed.


(** The two methods, and the calls a controller makes. *)

Ltac frame_step :=
  lazymatch goal with
  | |- forall _, _ => intro
  | |- preserves _ (bind _ _) => apply preserves_bind
  | |- commutes _ (bind _ _) => apply commutes_bind
  | |- preserves _ (pure _) => apply preserves_pure
  | |- commutes _ (pure _) => apply commutes_pure
  | |- preserves _ (raise _) => apply preserves_raise
  | |- commutes _ (raise _) => apply commutes_raise
  | |- preserves _ (return_ _) => apply preserves_return
  | |- commutes _ (return_ _) => apply commutes_return
  | |- preserves _ (gets _) => apply preserves_gets
  | |- commutes _ (gets (fun self => bool_decide _)) =>
      apply is_initiated_commutes
  | |- commutes _ (gets _) => apply commutes_gets; reflexivity
  | |- preserves _ (in_net _) => apply in_net_preserves
  | |- commutes _ (in_net _) => apply in_net_commutes
  | |- preserves _ (modify (set_initiated (fun i => i ∪ _))) =>
      apply initiated_add_preserves
  | |- commutes _ (modify (set_initiated (fun i => i ∪ _))) =>
      apply initiated_add_commutes
  | |- preserves _ (modify (set_initiated (fun i => i ∖ _))) =>
      apply initiated_remove_preserves
  | |- commutes _ (modify (set_initiated (fun i => i ∖ _))) =>
      apply initiated_remove_commutes
  | |- preserves _ (modify (set_device_to_mac_addr _)) =>
      apply mac_addr_preserves
  | |- commutes _ (modify (set_device_to_mac_addr _)) =>
      apply mac_addr_commutes
  | |- preserves _ (init_tenantid _) => apply init_tenantid_preserves
  | |- commutes _ (init_tenantid _) => apply init_tenantid_commutes
  | |- preserves _ (release_tenantid _) => apply release_tenantid_preserves
  | |- commutes _ (release_tenantid _) => apply release_tenantid_commutes
  | |- preserves _ (get_new_mgmt_ip _ _ _) => apply get_new_mgmt_ip_preserves
  | |- commutes _ (get_new_mgmt_ip _ _ _) => apply get_new_mgmt_ip_commutes
  | |- preserves _ (release_ip_address _ _ _) =>
      apply release_ip_address_preserves
  | |- commutes _ (release_ip_address _ _ _) =>
      apply release_ip_address_commutes
  | |- preserves _ (num_addresses _) => apply num_addresses_preserves
  | |- commutes _ (num_addresses _) => apply num_addresses_commutes
  | |- preserves _ (get_device_mgmtipv4 _ _) =>
      apply get_device_mgmtipv4_preserves
  | |- commutes _ (get_device_mgmtipv4 _ _) =>
      apply get_device_mgmtipv4_commutes
  | |- preserves _ (get_device_mgmtipv6 _ _) =>
      apply get_device_mgmtipv6_preserves
  | |- commutes _ (get_device_mgmtipv6 _ _) =>
      apply get_device_mgmtipv6_commutes
  | |- preserves _ (get_device_mgmtip _ _) =>
      apply get_device_mgmtip_preserves
  | |- commutes _ (get_device_mgmtip _ _) => apply get_device_mgmtip_commutes
  | |- preserves _ (split_of _) => apply split_of_preserves
  | |- commutes _ (split_of _) => apply split_of_commutes
  | |- preserves _ (match ?x with _ => _ end) => destruct x
  | |- commutes _ (match ?x with _ => _ end) => destruct x
  end.

Ltac frame := repeat frame_step.

Lemma def_snd {S R} (body : M S R R) (s : S) : (def body s).2 = (body s).2.
Proof. unfold def. by destruct (body s) as [[]]. Qed.

Lemma def_commutes {S R} (e : S -> S) (body : M S R R) (s : S) :
  commutes e body -> def body (e s) = ((def body s).1, e (def body s).2).
Proof.
  intros H. unfold def. rewrite H. by destruct (body s) as [[]].
Qed.

Lemma create_preserves (ti : TunnelInfo) (s : State) :
  tenant_view t (create_tunnel_controller_endpoint ti s).2 = tenant_view t s.
Proof.
  unfold create_tunnel_controller_endpoint. rewrite def_snd.
  revert s.
  unfold get_device_vtep_mac, get_new_mgmt_ipv4, get_new_mgmt_ipv6.
  match goal with |- forall s, _ (?m s).2 = _ => change (preserves (tenant_view t) m) end.
  frame.
Qed.


Lemma create_commutes (ti : TunnelInfo) (s : State) :
  create_tunnel_controller_endpoint ti (erase t s)
  = ((create_tunnel_controller_endpoint ti s).1,
     erase t (create_tunnel_controller_endpoint ti s).2).
Proof.
  unfold create_tunnel_controller_endpoint. apply def_commutes.
  unfold get_device_vtep_mac, get_new_mgmt_ipv4, get_new_mgmt_ipv6.
  frame.
Qed.

Lemma destroy_preserves (ti : TunnelInfo) (s : State) :
  tenant_view t (destroy_tunnel_controller_endpoint ti s).2 = tenant_view t s.
Proof.
  unfold destroy_tunnel_controller_endpoint. rewrite def_snd.
  revert s.
  unfold get_device_vtep_mac, release_ipv4_address, release_ipv6_address.
  match goal with
  | |- forall s, _ (?m s).2 = _ => change (preserves (tenant_view t) m)
  end.
  frame.
Qed.

Lemma destroy_commutes (ti : TunnelInfo) (s : State) :
  destroy_tunnel_controller_endpoint ti (erase t s)
  = ((destroy_tunnel_controller_endpoint ti s).1,
     erase t (destroy_tunnel_controller_endpoint ti s).2).
Proof.
  unfold destroy_tunnel_controller_endpoint. apply def_commutes.
  unfold get_device_vtep_mac, release_ipv4_address, release_ipv6_address.
  frame.
Qed.

Lemma run_op_preserves (o : op) (s : State) :
  tenant_view t (run_op o s) = tenant_view t s.
Proof. destruct o; [apply create_preserves|apply destroy_preserves]. Qed.

Lemma run_op_commutes (o : op) (s : State) :
  run_op o (erase t s) = erase t (run_op o s)
  /\ run_op_status o (erase t s) = run_op_status o s.
Proof.
  destruct o as [ti|ti]; unfold run_op, run_op_status.
  - by rewrite create_commutes.
  - by rewrite destroy_commutes.
Qed.

Lemma run_ops_cons (o : op) (ops : list op) (s : State) :
  run_ops (o :: ops) s = run_ops ops (run_op o s).
Proof. reflexivity. Qed.

Lemma run_ops_preserves (ops : list op) : forall s : State,
  tenant_view t (run_ops ops s) = tenant_view t s.
Proof.
  induction ops as [|o ops IH]; intros s; [done|].
  rewrite run_ops_cons, IH. apply run_op_preserves.
Qed.

Lemma run_ops_commutes (ops : list op) : forall s : State,
  run_ops ops (erase t s) = erase t (run_ops ops s).
Proof.
  induction ops as [|o ops IH]; intros s; [done|].
  rewrite !run_ops_cons, (proj1 (run_op_commutes o s)). apply IH.
Qed.

End VXLANTenants.


(** ** The properties at work on the example controller *)

Section Witnesses.
Import srv6_sdn_controller_state PymerangController Scenario.

Lemma C8_witness :
  register_device (controller 200 200 200) "d1" registration "198.51.100.7"
                  "not-a-token" (world ∅)
  = (Returned (STATUS_UNAUTHORIZED, None, None), world ∅).
Proof. apply C8_register_device_unauthorized. reflexivity. Defined.

Lemma C7_witness :
  let w := world {[ ("t1", "d1") := device WORKING (Some "vxlan") false 0 ]} in
  let res := (register_device (controller 200 200 200) "d1" registration
                              "198.51.100.7" "token-t1" w).1 in
  let w' := (register_device (controller 200 200 200) "d1" registration
                             "198.51.100.7" "token-t1" w).2 in
  (forall d', devices (db w') !! ("t1", "d1") = Some d' ->
              reconciliation_flag d' = true /\ state d' = WORKING)
  /\ res = Returned (STATUS_SUCCESS, Some 4789, Some "t1").
Proof.
  intros w res w'.
  pose proof (C7_register_device (controller 200 200 200) "d1" registration
                "198.51.100.7" "token-t1" w "t1" eq_refl) as H.
  cbn zeta in H.
  change (devices (db w) !! ("t1", "d1"))
    with (Some (device WORKING (Some "vxlan") false 0)) in H.
  destruct H as [[_ Hd] [_ Hres]].
  split; [|exact Hres].
  intros d' Hl. destruct (Hd d' Hl) as (? & _ & ? & _). done.
Defined.

Lemma C4_witness :
  let w := world {[ ("t1", "d1") := device WORKING (Some "vxlan") true 9999999 ]} in
  let w' := (reconciliation_failed (controller 200 500 200) "d1" "t1" w).2 in
  exists dev', devices (db w') !! ("t1", "d1") = Some dev'
               /\ reconciliation_failures dev' = 10000000
               /\ state dev' = FAILURE.
Proof.
  intros w w'.
  destruct (C4_reconciliation_failed (controller 200 500 200) "d1" "t1" w
              (device WORKING (Some "vxlan") true 9999999) eq_refl)
    as (_ & (dev' & Hl & Hn & _ & Hs) & _).
  exists dev'. split; [exact Hl|]. split; [exact Hn|].
  apply Hs. vm_compute. discriminate.
Defined.

Lemma C3_witness :
  let w := world {[ ("t1", "d1") := device WORKING (Some "vxlan") true 3 ]} in
  let c := controller 200 500 200 in
  trace (exec_reconciliation c "d1" "t1" w).2
  = [EvPrepareDb "d1" "t1"; EvDeviceReconciliation "d1" "t1";
     EvReconciliationFailed "d1" "t1"]
  /\ (exec_reconciliation c "d1" "t1" w).1 = Returned (Http 500).
Proof.
  intros w c.
  destruct (C3_exec_reconciliation c "d1" "t1" w (nb 200 500 200) eq_refl)
    as [Hset _].
  destruct (Hset eq_refl) as (_ & H2 & _).
  apply H2; [reflexivity|discriminate].
Defined.


(** The examples below start from device [d1] of tenant [t1], registered
    and without a tunnel, and from the same device after a first
    successful [UpdateMgmtInfo] in VXLAN mode. *)

Lemma C10_witness :
  let c := controller 200 200 200 in
  let w := world {[ ("t1", "d1") := device REGISTERED None false 0 ]} in
  let w1 := (update c "vxlan" "203.0.113.5" w).2 in
  let w2 := (device_disconnected c "d1" "t1" w1).2 in
  (device_disconnected c "d1" "t1" w1).1 = Returned STATUS_SUCCESS
  /\ (device_disconnected c "d1" "t1" w2).1 = Raised KeyError.
Proof.
  intros c w w1 w2. split; [vm_compute; reflexivity|].
  destruct (C10_device_disconnected_no_session c "d1" "t1" w2 eq_refl)
    as [_ H].
  specialize (H (default (device UNKNOWN None false 0)
                         (devices (db w2) !! ("t1", "d1"))) eq_refl).
  apply H.
Defined.

Lemma C6_counterexample :
  let c := controller 200 200 200 in
  let w := world {[ ("t1", "d1") := device REGISTERED None false 0 ]} in
  tunnel_modes c !! "gre" = None
  /\ (update c "gre" "203.0.113.5" w).1 = Raised KeyError
  /\ ~ (exists st v, (update c "gre" "203.0.113.5" w).1 = Returned (st, v)).
Proof.
  cbv zeta. split; [reflexivity|]. split; [vm_compute; reflexivity|].
  intros (st & v & H). vm_compute in H. discriminate H.
Defined.

Lemma C6_witness :
  let c := controller 200 200 200 in
  let w := world {[ ("t1", "d1") := device REGISTERED None false 0 ]} in
  (update c "gre" "203.0.113.5" w).1 = Raised KeyError
  /\ (update c "gre" "203.0.113.5" w).2 = w.
Proof.
  intros c w.
  destruct (C6_unknown_tunnel_mode c "d1" "t1" ∅ "198.51.100.7" "gre" "Open"
              "203.0.113.5" 51000 "aa:bb:cc:00:00:01" 4789 w eq_refl)
    as (_ & _ & _ & _ & H & _).
  apply H. reflexivity.
Defined.






(** Two tenants, [t1] and [t2], each with a device called [d1]. *)




(** A tunnel mode that asks for no keep-alive messages still gets an entry
    in [connected_devices]: [update_mgmt_info] registers the stop event
    whatever the mode, and only the thread depends on it. *)
Example no_keep_alive_mode_is_registered :
  let c := controller 200 200 200 in
  let w := world {[ ("t1", "d1") := device REGISTERED None false 0 ]} in
  let w1 := (update c "no_nat" "203.0.113.5" w).2 in
  connected_devices w1 !! "t1/d1" = Some 0%nat
  /\ threads w1 = []
  /\ (device_disconnected c "d1" "t1" w1).1 = Returned STATUS_SUCCESS.
Proof. vm_compute. auto. Qed.

End Witnesses.


(** ** Unregistration *)

Section Unregistration.
Import srv6_sdn_controller_state PymerangController.

Context {T : Type}.
Variables (self : Controller T) (deviceid tenantid : string).

(** X1: [unregister_device] writes nothing to the storage and leaves the
    keep-alive bookkeeping alone: the record of the device stays as it is
    (its persisted tunnel mode included), its stop event is neither set nor
    removed from [connected_devices], and no thread is touched. *)
Theorem unregister_device_keeps_record_and_session (w : World T) :
  let w' := (unregister_device self deviceid tenantid w).2 in
  db w' = db w
  /\ stamp_nodes w' = stamp_nodes w
  /\ connected_devices w' = connected_devices w
  /\ events w' = events w
  /\ threads w' = threads w.
Proof.
  cbv zeta. unfold unregister_device.
  unfold_world. unfold_monad. cbn.
  destruct (get_device deviceid tenantid (db w)) as [device|]; [|done].
  destruct (tunnel_mode device) as [mode_name|]; [|done].
  destruct (tunnel_modes self !! mode_name) as [tm|]; [|done]. cbn.
  destruct (destroy_tunnel_controller_endpoint tm deviceid tenantid
              (tunnel_state w)) as [[res|e] ts]; [|done]. cbn.
  by case_decide.
Qed.

(** X2: what [unregister_device] returns.  INTERNAL_ERROR for a device the
    storage does not know, SUCCESS without any effect for a device without
    a persisted tunnel mode; otherwise the teardown of the controller-side
    endpoint is called once and its result is the result of the call,
    whatever it is (a status, or an exception); a persisted mode name that
    is not in the registry raises [KeyError]. *)
Theorem unregister_device_result (w : World T) :
  let r := (unregister_device self deviceid tenantid w).1 in
  let w' := (unregister_device self deviceid tenantid w).2 in
  match get_device deviceid tenantid (db w) with
  | None => r = Returned STATUS_INTERNAL_ERROR /\ w' = w
  | Some device =>
      match tunnel_mode device with
      | None => r = Returned STATUS_SUCCESS /\ w' = w
      | Some mode_name =>
          match tunnel_modes self !! mode_name with
          | None => r = Raised KeyError /\ w' = w
          | Some tm =>
              let d := destroy_tunnel_controller_endpoint tm deviceid tenantid
                         (tunnel_state w) in
              r = d.1
              /\ tunnel_state w' = d.2
              /\ trace w'
                 = trace w ++ [EvDestroyEndpoint mode_name deviceid tenantid]
          end
      end
  end.
Proof.
  cbv zeta. unfold unregister_device.
  unfold_world. unfold_monad. cbn.
  destruct (get_device deviceid tenantid (db w)) as [device|]; [|done].
  destruct (tunnel_mode device) as [mode_name|]; [|done].
  destruct (tunnel_modes self !! mode_name) as [tm|]; [|done]. cbn.
  destruct (destroy_tunnel_controller_endpoint tm deviceid tenantid
              (tunnel_state w)) as [[res|e] ts]; [|done]. cbn.
  case_decide as Hres; cbn; [done|].
  split; [|done]. f_equal.
  destruct (decide (res = STATUS_SUCCESS)); [done|contradiction].
Qed.

End Unregistration.


(** ** Disconnection: what is touched and what is not *)

Section DisconnectionEffects.
Import srv6_sdn_controller_state PymerangController.

Context {T : Type}.
Variables (self : Controller T) (deviceid tenantid : string).

Let key : string * string := (tenantid, deviceid).
Let thread_id : string := tenantid +:+ "/" +:+ deviceid.

Ltac frame_done :=
  split_and!; try done;
    try (intros ? ?; cbn;
         by rewrite ?lookup_insert_ne, ?lookup_delete_ne by done);
    try (intros ? [= <-]; cbn; rewrite lookup_insert_eq;
         eexists; split; [reflexivity|done]).

(** X3: whatever its outcome, [device_disconnected] sets no stop event and
    touches no thread, changes neither the record of another device nor
    the session of another key, and leaves the state of the device (and
    what it registered with, its reconciliation flag and counter) as it
    is: a device that was WORKING is still WORKING after it is found
    disconnected. *)
Theorem device_disconnected_frame (w : World T) :
  let w' := (device_disconnected self deviceid tenantid w).2 in
  events w' = events w
  /\ threads w' = threads w
  /\ stamp_nodes w' = stamp_nodes w
  /\ tenants (db w') = tenants (db w)
  /\ tokens (db w') = tokens (db w)
  /\ (forall k, k <> key -> devices (db w') !! k = devices (db w) !! k)
  /\ (forall k, k <> thread_id ->
                connected_devices w' !! k = connected_devices w !! k)
  /\ (forall d, devices (db w) !! key = Some d ->
        exists d', devices (db w') !! key = Some d'
                   /\ state d' = state d
                   /\ registration d' = registration d
                   /\ reconciliation_flag d' = reconciliation_flag d
                   /\ reconciliation_failures d' = reconciliation_failures d).
Proof.
  cbv zeta. unfold device_disconnected.
  unfold_world. unfold_monad. cbn.
  unfold get_device, set_device_connected_flag, set_tunnel_mode,
    clear_mgmt_info.
  fold key thread_id.
  destruct (devices (db w) !! key) as [dev|] eqn:Hd; cbn.
  2: { split_and!; done. }
  rewrite (update_device_Some _ _ _ _ _ Hd). cbn. fold key.
  destruct (tunnel_mode dev) as [mode_name|] eqn:Hmode; cbn.
  - destruct (tunnel_modes self !! mode_name) as [tm|] eqn:Htm; cbn.
    2: { frame_done. }
    destruct (destroy_tunnel_controller_endpoint tm deviceid tenantid
                (tunnel_state w)) as [[res|e] ts] eqn:Hdestroy; cbn.
    2: { frame_done. }
    destruct (decide (res ≠ STATUS_SUCCESS)) as [Hres|Hres]; cbn.
    { frame_done. }
    erewrite update_device_Some by (cbn; apply lookup_insert_eq). cbn.
    erewrite update_device_Some by (cbn; apply lookup_insert_eq). cbn.
    fold key.
    destruct (connected_devices w !! thread_id) as [e|] eqn:He; cbn;
      frame_done.
  - erewrite update_device_Some by (cbn; apply lookup_insert_eq). cbn.
    fold key.
    destruct (connected_devices w !! thread_id) as [e|] eqn:He; cbn;
      frame_done.
Qed.

(** The successful disconnection. *)
Lemma device_disconnected_success_run (w : World T) (dev : Device) (e : nat) :
  devices (db w) !! key = Some dev ->
  connected_devices w !! thread_id = Some e ->
  (forall mode_name, tunnel_mode dev = Some mode_name ->
     exists tm, tunnel_modes self !! mode_name = Some tm
                /\ (destroy_tunnel_controller_endpoint tm deviceid tenantid
                      (tunnel_state w)).1 = Returned STATUS_SUCCESS) ->
  let r := (device_disconnected self deviceid tenantid w).1 in
  let w' := (device_disconnected self deviceid tenantid w).2 in
  r = Returned STATUS_SUCCESS
  /\ devices (db w')
     = <[key := {| registration := registration dev; mgmtip := None;
                   state := state dev; connected := false;
                   tunnel_mode := None; mgmt_info := None;
                   reconciliation_flag := reconciliation_flag dev;
                   reconciliation_failures := reconciliation_failures dev;
                   allow_reboot := allow_reboot dev |}]> (devices (db w))
  /\ connected_devices w' = delete thread_id (connected_devices w)
  /\ events w' = events w
  /\ threads w' = threads w.
Proof.
  intros Hd He Hmode. cbv zeta. unfold device_disconnected.
  unfold_world. unfold_monad. cbn.
  unfold get_device, set_device_connected_flag, set_tunnel_mode,
    clear_mgmt_info.
  fold key thread_id. rewrite Hd. cbn.
  rewrite (update_device_Some _ _ _ _ _ Hd). cbn. fold key.
  destruct (tunnel_mode dev) as [mode_name|] eqn:Hm; cbn.
  - destruct (Hmode mode_name eq_refl) as (tm & Htm & Hok).
    rewrite Htm. cbn.
    destruct (destroy_tunnel_controller_endpoint tm deviceid tenantid
                (tunnel_state w)) as [[res|x] ts]; cbn in Hok; simplify_eq.
    cbn. rewrite decide_False by (intros H; by apply H). cbn.
    erewrite update_device_Some by (cbn; apply lookup_insert_eq). cbn.
    erewrite update_device_Some by (cbn; apply lookup_insert_eq). cbn.
    fold key thread_id. rewrite He. cbn.
    rewrite !insert_insert_eq. done.
  - erewrite update_device_Some by (cbn; apply lookup_insert_eq). cbn.
    fold key thread_id. rewrite He. cbn.
    rewrite !insert_insert_eq.
    unfold set_mgmt_info, set_mgmtip, set_connected. cbn. rewrite Hm. done.
Qed.

(** X4: when the device exists, has a registered session and the teardown
    of its tunnel (if it has one) succeeds, [device_disconnected] returns
    SUCCESS; the device is then stored as not connected, without tunnel
    mode and without management information or address, and its entry in
    [connected_devices] is gone. *)
Theorem device_disconnected_success (w : World T) (dev : Device) (e : nat) :
  devices (db w) !! key = Some dev ->
  connected_devices w !! thread_id = Some e ->
  (forall mode_name, tunnel_mode dev = Some mode_name ->
     exists tm, tunnel_modes self !! mode_name = Some tm
                /\ (destroy_tunnel_controller_endpoint tm deviceid tenantid
                      (tunnel_state w)).1 = Returned STATUS_SUCCESS) ->
  let r := (device_disconnected self deviceid tenantid w).1 in
  let w' := (device_disconnected self deviceid tenantid w).2 in
  r = Returned STATUS_SUCCESS
  /\ devices (db w')
     = <[key := {| registration := registration dev; mgmtip := None;
                   state := state dev; connected := false;
                   tunnel_mode := None; mgmt_info := None;
                   reconciliation_flag := reconciliation_flag dev;
                   reconciliation_failures := reconciliation_failures dev;
                   allow_reboot := allow_reboot dev |}]> (devices (db w))
  /\ connected_devices w' = delete thread_id (connected_devices w).
Proof.
  intros Hd He Hmode.
  destruct (device_disconnected_success_run w dev e Hd He Hmode)
    as (? & ? & ? & _).
  done.
Qed.

(** X5: when the teardown of the tunnel fails with a status, that status
    is returned and nothing done before is undone: the device is already
    stored as not connected, while its tunnel mode and management
    information are still persisted and its session is still registered. *)
Theorem device_disconnected_teardown_fails (w : World T) (dev : Device)
    (mode_name : string) (tm : TunnelMode T) (res : status) :
  devices (db w) !! key = Some dev ->
  tunnel_mode dev = Some mode_name ->
  tunnel_modes self !! mode_name = Some tm ->
  (destroy_tunnel_controller_endpoint tm deviceid tenantid
     (tunnel_state w)).1 = Returned res ->
  res <> STATUS_SUCCESS ->
  let r := (device_disconnected self deviceid tenantid w).1 in
  let w' := (device_disconnected self deviceid tenantid w).2 in
  r = Returned res
  /\ devices (db w') = <[key := set_connected false dev]> (devices (db w))
  /\ get_tunnel_mode deviceid tenantid (db w') = Some mode_name
  /\ connected_devices w' = connected_devices w.
Proof.
  intros Hd Hm Htm Hdestroy Hres. cbv zeta. unfold device_disconnected.
  unfold_world. unfold_monad. cbn.
  unfold get_tunnel_mode, get_device, set_device_connected_flag.
  fold key. rewrite Hd. cbn.
  rewrite (update_device_Some _ _ _ _ _ Hd). cbn. fold key.
  rewrite Hm. cbn. rewrite Htm. cbn.
  destruct (destroy_tunnel_controller_endpoint tm deviceid tenantid
              (tunnel_state w)) as [[res'|x] ts]; cbn in Hdestroy;
    simplify_eq.
  cbn. rewrite decide_True by done. cbn.
  rewrite lookup_insert_eq. cbn. done.
Qed.

End DisconnectionEffects.


(** ** Tunnel establishment: the successful call, and what no call touches *)

Section UpdateMgmtInfoEffects.
Import srv6_sdn_controller_state PymerangController.

Context {T : Type}.
Variables (self : Controller T) (deviceid tenantid : string)
          (interfaces : gmap string (list string * list string))
          (mgmtip tunnel_name nat_type device_external_ip : string)
          (device_external_port : Z) (device_vtep_mac : string)
          (vxlan_port : Z).

Let key : string * string := (tenantid, deviceid).
Let thread_id : string := tenantid +:+ "/" +:+ deviceid.

#[local] Abbreviation update_here :=
  (update_mgmt_info self deviceid tenantid interfaces mgmtip tunnel_name
     nat_type device_external_ip device_external_port device_vtep_mac
     vxlan_port).

(** The rest of the method, after the teardown of the old tunnel. *)
#[local] Abbreviation after_teardown :=
  (let* created :=
     create_tunnel self deviceid tenantid tunnel_name device_external_ip
                   device_external_port device_vtep_mac vxlan_port in
   let '(tunnel_mode, vteps) := created in
   let* mgmtip0 := private_mgmtip deviceid tenantid mgmtip in
   restart_keep_alive self tunnel_mode deviceid tenantid mgmtip0 >>
   update_controller_state self deviceid tenantid interfaces mgmtip0
     tunnel_name nat_type device_external_ip device_external_port
     device_vtep_mac vxlan_port >>
   pure (STATUS_SUCCESS, vteps)).

Lemma mode_cleared_refl (db0 : Storage) : mode_cleared key db0 db0.
Proof.
  unfold mode_cleared. split_and!; try done.
  destruct (devices db0 !! key) eqn:E; eauto.
Qed.

Lemma mode_cleared_set_tunnel_mode (db0 : Storage) :
  mode_cleared key db0 (set_tunnel_mode deviceid tenantid None db0).2.
Proof.
  unfold mode_cleared.
  unfold set_tunnel_mode, update_device. fold key.
  destruct (devices db0 !! key) as [dev0|] eqn:E; cbn.
  - split_and!; try done.
    + intros d. fold key. by rewrite insert_insert_eq.
    + intros k Hk. fold key. by rewrite lookup_insert_ne.
    + fold key. rewrite lookup_insert_eq. eauto.
  - rewrite E. done.
Qed.

Lemma destroy_old_tunnel_mode_cleared (w w1 : World T) (o : outcome _ unit) :
  destroy_old_tunnel self deviceid tenantid w = (o, w1) ->
  mode_cleared key (db w) (db w1)
  /\ stamp_nodes w1 = stamp_nodes w
  /\ sessions w1 = sessions w.
Proof.
  rewrite destroy_old_tunnel_run.
  destruct (get_tunnel_mode deviceid tenantid (db w)) as [old|].
  2: { intros [= <- <-]. split; [apply mode_cleared_refl|done]. }
  destruct (tunnel_modes self !! old) as [tm|].
  2: { intros [= <- <-]. split; [apply mode_cleared_refl|done]. }
  cbv zeta.
  destruct (destroy_tunnel_controller_endpoint tm deviceid tenantid
              (tunnel_state w)) as [[res|e] ts].
  2: { intros [= <- <-]. split; [apply mode_cleared_refl|done]. }
  case_decide.
  { intros [= <- <-]. split; [apply mode_cleared_refl|done]. }
  intros [= <- <-]. split; [apply mode_cleared_set_tunnel_mode|done].
Qed.

(** The successful call. *)
Lemma update_mgmt_info_success_state (w : World T) (v : Vteps) :
  (update_here w).1 = Returned (STATUS_SUCCESS, v) ->
  let w' := (update_here w).2 in
  exists tm ts dev0,
    tunnel_modes self !! tunnel_name = Some tm
    /\ create_tunnel_controller_endpoint tm deviceid tenantid
         device_external_ip device_external_port vxlan_port device_vtep_mac
         ts = (Returned (STATUS_SUCCESS, v), tunnel_state w')
    /\ devices (db w) !! key = Some dev0
    /\ devices (db w') = <[key := working_record interfaces mgmtip tunnel_name nat_type
                        device_external_ip device_external_port
                        device_vtep_mac vxlan_port dev0]> (devices (db w))
    /\ connected_devices w' !! thread_id = Some (length (events w)).
Proof.
  cbv zeta. unfold update_mgmt_info, def.
  rewrite bind_run.
  destruct (destroy_old_tunnel self deviceid tenantid w) as [o1 w1] eqn:H1.
  destruct (destroy_old_tunnel_mode_cleared _ _ _ H1)
    as ((_ & _ & Hins & _ & Hdev) & _ & Hs).
  injection Hs as Hcd Hev Hth.
  destruct o1 as [[]|r|e]; [|cbn..].
  2: { intros [= ->]. exfalso.
       rewrite destroy_old_tunnel_run in H1.
       destruct (get_tunnel_mode deviceid tenantid (db w)); [|done].
       destruct (tunnel_modes self !! s); [|done]. cbv zeta in H1.
       destruct (destroy_tunnel_controller_endpoint _ _ _ _) as [[res|x] ts];
         [|done].
       case_decide; [|done]. simplify_eq. }
  2: { discriminate. }
  rewrite bind_run, create_tunnel_run.
  destruct (tunnel_modes self !! tunnel_name) as [tm|] eqn:Htm; [|discriminate].
  cbv zeta.
  destruct (create_tunnel_controller_endpoint tm deviceid tenantid
              device_external_ip device_external_port vxlan_port
              device_vtep_mac (tunnel_state w1))
    as [[[res' v']|e] ts] eqn:Hcreate; [|discriminate].
  destruct (decide (res' ≠ STATUS_SUCCESS)) as [Hres'|Hres'].
  { cbn. intros [= ? ?]. congruence. }
  assert (res' = STATUS_SUCCESS) as ->
    by (destruct (decide (res' = STATUS_SUCCESS)); [done|contradiction]).
  cbv beta iota.
  rewrite bind_run, private_mgmtip_run. cbv beta iota.
  rewrite bind_run, restart_keep_alive_run. cbv beta iota zeta.
  rewrite bind_run, update_controller_state_run. cbn.
  fold key in Hdev |- *.
  destruct (devices (db w1) !! key) as [dev1|] eqn:Hdev1; [|discriminate].
  destruct Hdev as (dev0 & Hdev0 & Hsame).
  destruct (nb_interface_ref self); cbn; [|discriminate].
  intros [= <-].
  exists tm, (tunnel_state w1), dev0.
  split_and!; try done.
  - rewrite Hins. f_equal.
    unfold get_device_mgmtip, get_device. fold key. rewrite Hdev1.
    unfold working_record.
    destruct Hsame as [->| ->]; reflexivity.
  - fold thread_id. rewrite lookup_insert_eq. by rewrite Hev.
Qed.

(** X6: a call of [update_mgmt_info] that returns SUCCESS has created the
    endpoint with the tunnel mode registered under the given name and
    returns the VTEP fields of that creation; the device, which was known
    to the storage, is stored as WORKING and connected, with the given
    tunnel mode and management information; what it registered with, its
    reconciliation flag and counter are kept.  The management address
    stored (and probed by the keep-alive thread) is the address the
    storage already had for the device, cut at the first slash, and the
    address passed to the call only when the storage had none. *)
Theorem update_mgmt_info_success (w : World T) (v : Vteps) :
  (update_here w).1 = Returned (STATUS_SUCCESS, v) ->
  let w' := (update_here w).2 in
  exists tm ts dev0,
    tunnel_modes self !! tunnel_name = Some tm
    /\ create_tunnel_controller_endpoint tm deviceid tenantid
         device_external_ip device_external_port vxlan_port device_vtep_mac
         ts = (Returned (STATUS_SUCCESS, v), tunnel_state w')
    /\ devices (db w) !! key = Some dev0
    /\ devices (db w') = <[key := working_record interfaces mgmtip tunnel_name nat_type
                        device_external_ip device_external_port
                        device_vtep_mac vxlan_port dev0]> (devices (db w))
    /\ connected_devices w' !! thread_id = Some (length (events w)).
Proof. apply update_mgmt_info_success_state. Qed.

(** X7: the controller started by the module itself is constructed without
    a northbound interface ([nb_interface_ref=None]).  On such a controller
    no call of [update_mgmt_info] returns SUCCESS; and in the plain case of
    a known device without an old tunnel, whose endpoint is created, the
    call ends in [AttributeError], raised at the update of the STAMP node,
    after the session was registered and the device stored as connected
    with the new tunnel mode, and before its state is changed. *)
Theorem update_mgmt_info_without_northbound (w : World T) :
  nb_interface_ref self = None ->
  let r := (update_here w).1 in
  let w' := (update_here w).2 in
  (forall v, r <> Returned (STATUS_SUCCESS, v))
  /\ (forall tm v dev,
        get_tunnel_mode deviceid tenantid (db w) = None ->
        tunnel_modes self !! tunnel_name = Some tm ->
        (create_tunnel_controller_endpoint tm deviceid tenantid
           device_external_ip device_external_port vxlan_port
           device_vtep_mac (tunnel_state w)).1
        = Returned (STATUS_SUCCESS, v) ->
        devices (db w) !! key = Some dev ->
        r = Raised AttributeError
        /\ connected_devices w' !! thread_id = Some (length (events w))
        /\ exists dev', devices (db w') !! key = Some dev'
                        /\ connected dev' = true
                        /\ tunnel_mode dev' = Some tunnel_name
                        /\ state dev' = state dev).
Proof.
  intros Hnb. cbv zeta. split.
  - intros v Hr.
    revert Hr. unfold update_mgmt_info, def.
    rewrite bind_run.
    destruct (destroy_old_tunnel self deviceid tenantid w) as [o1 w1] eqn:H1.
    destruct o1 as [[]|r|e]; [|cbn..].
    2: { intros [= ->].
         rewrite destroy_old_tunnel_run in H1.
         destruct (get_tunnel_mode deviceid tenantid (db w)); [|done].
         destruct (tunnel_modes self !! s); [|done]. cbv zeta in H1.
         destruct (destroy_tunnel_controller_endpoint _ _ _ _)
           as [[res|x] ts']; [|done].
         case_decide; [|done]. simplify_eq. }
    2: { discriminate. }
    rewrite bind_run, create_tunnel_run.
    destruct (tunnel_modes self !! tunnel_name) as [tm'|]; [|discriminate].
    cbv zeta.
    destruct (create_tunnel_controller_endpoint tm' deviceid tenantid
                device_external_ip device_external_port vxlan_port
                device_vtep_mac (tunnel_state w1))
      as [[[res' v']|e] ts']; [|discriminate].
    destruct (decide (res' ≠ STATUS_SUCCESS)) as [Hres'|Hres'].
    { cbn. intros [= ? ?]. congruence. }
    cbv beta iota.
    rewrite bind_run, private_mgmtip_run. cbv beta iota.
    rewrite bind_run, restart_keep_alive_run. cbv beta iota zeta.
    rewrite bind_run, update_controller_state_run. cbn.
    rewrite Hnb.
    destruct (devices (db w1) !! (tenantid, deviceid)); cbn; discriminate.
  - intros tm v dev Hold Htm Hcreate Hdev.
    unfold update_mgmt_info, def.
    rewrite bind_run, destroy_old_tunnel_run, Hold.
    rewrite bind_run, create_tunnel_run, Htm. cbv zeta.
    destruct (create_tunnel_controller_endpoint tm deviceid tenantid
                device_external_ip device_external_port vxlan_port
                device_vtep_mac (tunnel_state w))
      as [[[res' v']|e] ts']; cbn in Hcreate; simplify_eq.
    rewrite decide_False by (intros H; by apply H).
    cbv beta iota.
    rewrite bind_run, private_mgmtip_run. cbv beta iota.
    rewrite bind_run, restart_keep_alive_run. cbv beta iota zeta.
    rewrite bind_run, update_controller_state_run. cbn.
    fold key. rewrite Hdev, Hnb. cbn. fold key thread_id.
    split_and!; [done|by rewrite lookup_insert_eq|].
    rewrite lookup_insert_eq. eexists; split; [reflexivity|done].
Qed.

(** X8: whatever its outcome, [update_mgmt_info] leaves the tenants and the
    tokens of the storage alone, changes neither the record of another
    device, nor the session or the STAMP node of another key, removes no
    thread, and creates or deletes no device record: a record that is
    there stays, with what the device registered with and its
    reconciliation flag and counter, and a device the storage does not
    know is still unknown after the call. *)
Theorem update_mgmt_info_frame (w : World T) :
  let w' := (update_here w).2 in
  tenants (db w') = tenants (db w)
  /\ tokens (db w') = tokens (db w)
  /\ (forall k, k <> key -> devices (db w') !! k = devices (db w) !! k)
  /\ (forall k, k <> thread_id ->
                connected_devices w' !! k = connected_devices w !! k)
  /\ (forall k, k <> key -> stamp_nodes w' !! k = stamp_nodes w !! k)
  /\ (exists started, threads w' = threads w ++ started)
  /\ match devices (db w) !! key with
     | Some dev =>
         exists dev', devices (db w') !! key = Some dev'
                      /\ registration dev' = registration dev
                      /\ reconciliation_flag dev' = reconciliation_flag dev
                      /\ reconciliation_failures dev'
                         = reconciliation_failures dev
     | None => devices (db w') !! key = None
     end.
Proof.
  cbv zeta. unfold update_mgmt_info. rewrite def_snd.
  rewrite bind_run.
  destruct (destroy_old_tunnel self deviceid tenantid w) as [o1 w1] eqn:H1.
  destruct (destroy_old_tunnel_mode_cleared _ _ _ H1)
    as ((Hten & Htok & Hins & Hother & Hdev) & Hst & Hs).
  injection Hs as Hcd Hev Hth.
  assert (Hkept : match devices (db w) !! key with
     | Some dev =>
         exists dev', devices (db w1) !! key = Some dev'
                      /\ registration dev' = registration dev
                      /\ reconciliation_flag dev' = reconciliation_flag dev
                      /\ reconciliation_failures dev'
                         = reconciliation_failures dev
     | None => devices (db w1) !! key = None
     end).
  { destruct (devices (db w1) !! key) as [dev1|].
    - destruct Hdev as (dev0 & -> & [->| ->]); eauto.
    - by rewrite Hdev. }
  assert (Hbase : tenants (db w1) = tenants (db w)
  /\ tokens (db w1) = tokens (db w)
  /\ (forall k, k <> key -> devices (db w1) !! k = devices (db w) !! k)
  /\ (forall k, k <> thread_id ->
                connected_devices w1 !! k = connected_devices w !! k)
  /\ (forall k, k <> key -> stamp_nodes w1 !! k = stamp_nodes w !! k)
  /\ (exists started, threads w1 = threads w ++ started)
  /\ match devices (db w) !! key with
     | Some dev =>
         exists dev', devices (db w1) !! key = Some dev'
                      /\ registration dev' = registration dev
                      /\ reconciliation_flag dev' = reconciliation_flag dev
                      /\ reconciliation_failures dev'
                         = reconciliation_failures dev
     | None => devices (db w1) !! key = None
     end).
  { split_and!; try done; try (intros; congruence).
    exists []. by rewrite app_nil_r. }
  destruct o1 as [[]|r|e]; [|exact Hbase..].
  rewrite bind_run, create_tunnel_run.
  destruct (tunnel_modes self !! tunnel_name) as [tm|] eqn:Htm;
    [|exact Hbase].
  cbv zeta.
  destruct (create_tunnel_controller_endpoint tm deviceid tenantid
              device_external_ip device_external_port vxlan_port
              device_vtep_mac (tunnel_state w1))
    as [[[res' v']|e] ts] eqn:Hcreate; [|exact Hbase].
  destruct (decide (res' ≠ STATUS_SUCCESS)) as [Hres'|Hres'];
    [exact Hbase|].
  cbv beta iota.
  rewrite bind_run, private_mgmtip_run. cbv beta iota.
  rewrite bind_run, restart_keep_alive_run. cbv beta iota zeta.
  rewrite bind_run, update_controller_state_run. cbn.
  fold key thread_id in Hkept |- *.
  assert (Hsess : forall k, k <> thread_id ->
            <[thread_id := length (events w1)]> (connected_devices w1) !! k
            = connected_devices w !! k).
  { intros k Hk. rewrite lookup_insert_ne by done. by rewrite Hcd. }
  assert (Hthreads : forall l, exists started,
            threads w1 ++ l = threads w ++ started).
  { intros l. exists l. by rewrite Hth. }
  destruct (devices (db w1) !! key) as [dev1|] eqn:Hdev1.
  2: { cbn. rewrite Hdev1. split_and!; try done.
       intros; congruence. }
  assert (Hrec : forall d : Device,
            registration d = registration dev1 ->
            reconciliation_flag d = reconciliation_flag dev1 ->
            reconciliation_failures d = reconciliation_failures dev1 ->
            match devices (db w) !! key with
            | Some dev =>
                exists dev', <[key := d]> (devices (db w1)) !! key = Some dev'
                      /\ registration dev' = registration dev
                      /\ reconciliation_flag dev' = reconciliation_flag dev
                      /\ reconciliation_failures dev'
                         = reconciliation_failures dev
            | None => False
            end).
  { intros d E1 E2 E3. destruct (devices (db w) !! key) as [dev|].
    - destruct Hkept as (dev' & [= <-] & ? & ? & ?).
      exists d. rewrite lookup_insert_eq. split_and!; congruence.
    - congruence. }
  destruct (nb_interface_ref self) as [nb|]; cbn.
  - split_and!; try done.
    + intros k Hk. rewrite lookup_insert_ne by done. by apply Hother.
    + intros k Hk.
      destruct (stamp_nodes w1 !! key);
        rewrite ?lookup_insert_ne by done; congruence.
    + specialize (Hrec (set_state WORKING (set_connected true
                   (set_mgmt_info (Some {| ext_interfaces := interfaces;
               srv6_sdn_controller_state.nat_type := nat_type;
               external_ip := device_external_ip;
               external_port := device_external_port;
               mgmt_mac := device_vtep_mac;
               srv6_sdn_controller_state.vxlan_port := vxlan_port |})
            (set_tunnel_mode_field (Some tunnel_name)
               (set_mgmtip (Some (match get_device_mgmtip tenantid deviceid (db w1) with
          | Some ip => split_slash_0 ip
          | None => mgmtip
          end)) dev1))))) eq_refl eq_refl eq_refl).
      destruct (devices (db w) !! key); [exact Hrec|done].
  - split_and!; try done.
    + intros k Hk. rewrite lookup_insert_ne by done. by apply Hother.
    + intros; congruence.
    + specialize (Hrec (set_connected true
                   (set_mgmt_info (Some {| ext_interfaces := interfaces;
               srv6_sdn_controller_state.nat_type := nat_type;
               external_ip := device_external_ip;
               external_port := device_external_port;
               mgmt_mac := device_vtep_mac;
               srv6_sdn_controller_state.vxlan_port := vxlan_port |})
            (set_tunnel_mode_field (Some tunnel_name)
               (set_mgmtip (Some (match get_device_mgmtip tenantid deviceid (db w1) with
          | Some ip => split_slash_0 ip
          | None => mgmtip
          end)) dev1)))) eq_refl eq_refl eq_refl).
      destruct (devices (db w) !! key); [exact Hrec|done].
Qed.

End UpdateMgmtInfoEffects.


(** ** Reconciliation: the calls that reach no northbound step *)

Section ReconciliationEdges.
Import srv6_sdn_controller_state PymerangController.

Context {T : Type}.
Variables (self : Controller T) (deviceid tenantid : string).

Let key : string * string := (tenantid, deviceid).

(** X9: on a controller without a northbound interface, as the module
    constructs it, [exec_reconciliation] for a device whose reconciliation
    flag is set ends in [AttributeError] at the first northbound step; the
    rollback pushed before it still runs, so the attempt is counted as a
    failed reconciliation: the device is left REBOOT_REQUIRED (FAILURE once
    the counter has reached the ceiling), its counter incremented and its
    flag still set. *)
Theorem exec_reconciliation_without_northbound (w : World T) (dev : Device) :
  nb_interface_ref self = None ->
  devices (db w) !! key = Some dev ->
  reconciliation_flag dev = true ->
  let r := (exec_reconciliation self deviceid tenantid w).1 in
  let w' := (exec_reconciliation self deviceid tenantid w).2 in
  r = Raised AttributeError
  /\ trace w' = trace w ++ [EvReconciliationFailed deviceid tenantid]
  /\ devices (db w') = <[key := failed_record dev]> (devices (db w))
  /\ get_device_reconciliation_flag deviceid tenantid (db w') = Some true.
Proof.
  intros Hnb Hd Hflag. cbv zeta.
  unfold exec_reconciliation, RollbackContext.with_, RollbackContext.push,
    RollbackContext.lift, RollbackContext.commitAll.
  unfold_world. unfold_monad. rewrite Hnb. cbn.
  unfold get_device_reconciliation_flag, get_device. fold key.
  rewrite Hd. cbn. rewrite Hflag. cbn.
  rewrite bool_decide_eq_true_2 by done. cbv beta iota.
  rewrite (reconciliation_failed_exists self deviceid tenantid w dev Hd).
  cbn. fold key. rewrite lookup_insert_eq. cbn.
  split_and!; try done.
  unfold failed_record. case_decide; cbn; by rewrite Hflag.
Qed.

(** X10: without the reconciliation flag, [exec_reconciliation] calls no
    northbound step and runs no rollback: it only resets the failure
    counter.  For a device the storage does not know, the reset fails and
    the call returns INTERNAL_ERROR with nothing changed; for a known
    device it returns SUCCESS with the counter at 0. *)
Theorem exec_reconciliation_not_flagged (w : World T) :
  get_device_reconciliation_flag deviceid tenantid (db w) <> Some true ->
  let r := (exec_reconciliation self deviceid tenantid w).1 in
  let w' := (exec_reconciliation self deviceid tenantid w).2 in
  trace w' = trace w
  /\ match devices (db w) !! key with
     | None => r = Returned (Status STATUS_INTERNAL_ERROR) /\ w' = w
     | Some dev =>
         r = Returned (Status STATUS_SUCCESS)
         /\ devices (db w')
            = <[key := set_reconciliation_failures 0 dev]> (devices (db w))
     end.
Proof.
  intros Hflag. cbv zeta.
  unfold exec_reconciliation.
  unfold_world. unfold_monad. cbn.
  rewrite bool_decide_eq_false_2 by done. cbn.
  unfold reset_reconciliation_failures. fold key.
  destruct (devices (db w) !! key) as [dev|] eqn:Hd.
  - rewrite (update_device_Some _ _ _ _ _ Hd). cbn. done.
  - rewrite (update_device_None _ _ _ _ Hd). cbn. by destruct w.
Qed.

(** X11: [reconciliation_failed] touches nothing but the state and the
    failure counter of the device: the other devices, the tenants and the
    tokens, the tunnel modes, the sessions and the STAMP nodes are what
    they were, and so are the other fields of the device; in particular
    its reconciliation flag stays as it was, so that a flagged device is
    reconciled again at its next request. *)
Theorem reconciliation_failed_frame (w : World T) :
  let w' := (reconciliation_failed self deviceid tenantid w).2 in
  tenants (db w') = tenants (db w)
  /\ tokens (db w') = tokens (db w)
  /\ stamp_nodes w' = stamp_nodes w
  /\ tunnel_state w' = tunnel_state w
  /\ sessions w' = sessions w
  /\ (forall k, k <> key -> devices (db w') !! k = devices (db w) !! k)
  /\ match devices (db w) !! key with
     | None => devices (db w') !! key = None
     | Some dev =>
         exists dev', devices (db w') !! key = Some dev'
                      /\ registration dev' = registration dev
                      /\ mgmtip dev' = mgmtip dev
                      /\ connected dev' = connected dev
                      /\ tunnel_mode dev' = tunnel_mode dev
                      /\ mgmt_info dev' = mgmt_info dev
                      /\ reconciliation_flag dev' = reconciliation_flag dev
                      /\ allow_reboot dev' = allow_reboot dev
     end.
Proof.
  cbv zeta. fold key.
  destruct (devices (db w) !! key) as [dev|] eqn:Hd.
  - rewrite (reconciliation_failed_exists self deviceid tenantid w dev Hd).
    cbn. fold key. split_and!; try done.
    + intros k Hk. by rewrite lookup_insert_ne.
    + rewrite lookup_insert_eq. eexists; split; [reflexivity|].
      unfold failed_record. by case_decide.
  - rewrite (reconciliation_failed_missing self deviceid tenantid w Hd).
    cbn. done.
Qed.

End ReconciliationEdges.

(** ** Registration, twice *)

Section RegistrationTwice.
Import srv6_sdn_controller_state PymerangController.

Context {T : Type}.
Variables (self : Controller T) (deviceid token : string).

(** X12: a device that registers a second time is not registered anew.
    After a first registration of a device the storage did not know and a
    second one with the same token, the record is the one the first call
    created, with its reconciliation flag set: what the second call
    declares (features, interfaces, options, management address) is not
    stored. *)
Theorem register_device_twice (w : World T) (tenantid : string)
    (r1 r2 : Registration) (mgmtip1 mgmtip2 : string) :
  srv6_sdn_controller_state.authenticate_device token (db w)
  = (true, Some tenantid) ->
  devices (db w) !! (tenantid, deviceid) = None ->
  let w1 := (register_device self deviceid r1 mgmtip1 token w).2 in
  let w2 := (register_device self deviceid r2 mgmtip2 token w1).2 in
  devices (db w2)
  = <[(tenantid, deviceid) :=
        {| registration := r1; mgmtip := Some mgmtip1; state := REGISTERED;
           connected := false; tunnel_mode := None; mgmt_info := None;
           reconciliation_flag := true; reconciliation_failures := 0;
           allow_reboot := false |}]> (devices (db w)).
Proof.
  intros Hauth Hd. cbv zeta.
  assert (H1 : db (register_device self deviceid r1 mgmtip1 token w).2
               = srv6_sdn_controller_state.register_device
                   deviceid r1 mgmtip1 tenantid (db w)).
  { unfold register_device, authenticate_device.
    unfold_world. unfold_monad. cbn. rewrite Hauth. cbn.
    unfold device_exists, get_tenant_config.
    rewrite bool_decide_eq_false_2
      by (rewrite Hd; intros [? ?]; discriminate).
    cbn. by destruct (tenants (db w) !! tenantid). }
  set (w1 := (register_device self deviceid r1 mgmtip1 token w).2) in *.
  assert (Htok : tokens (db w) !! token = Some tenantid).
  { unfold srv6_sdn_controller_state.authenticate_device in Hauth.
    destruct (tokens (db w) !! token); by simplify_eq. }
  unfold register_device at 1. unfold authenticate_device.
  unfold_world. unfold_monad. cbn.
  rewrite H1. unfold srv6_sdn_controller_state.authenticate_device. cbn.
  rewrite Htok. cbn.
  unfold device_exists, get_tenant_config. cbn.
  rewrite bool_decide_eq_true_2
    by (rewrite H1; cbn; rewrite lookup_insert_eq; eauto).
  cbv beta iota. unfold set_device_reconciliation_flag.
  erewrite update_device_Some by (rewrite H1; cbn; apply lookup_insert_eq).
  cbn. rewrite H1. cbn.
  destruct (tenants (db w) !! tenantid); cbn; by rewrite insert_insert_eq.
Qed.

End RegistrationTwice.


(** ** A tunnel established and then lost *)

Section Lifecycle.
Import srv6_sdn_controller_state PymerangController.

Context {T : Type}.
Variables (self : Controller T) (deviceid tenantid : string)
          (interfaces : gmap string (list string * list string))
          (mgmtip tunnel_name nat_type device_external_ip : string)
          (device_external_port : Z) (device_vtep_mac : string)
          (vxlan_port : Z).

Let key : string * string := (tenantid, deviceid).
Let thread_id : string := tenantid +:+ "/" +:+ deviceid.

#[local] Abbreviation update_here :=
  (update_mgmt_info self deviceid tenantid interfaces mgmtip tunnel_name
     nat_type device_external_ip device_external_port device_vtep_mac
     vxlan_port).

(** X13: a tunnel established and then lost.  When [update_mgmt_info] has
    succeeded and the keep-alive monitor then reports the device
    ([device_disconnected]), with a teardown that succeeds, the call
    returns SUCCESS and the device is stored in state WORKING but not
    connected, without tunnel mode, management information or address; the
    session table is what it was before the tunnel was established, minus
    the entry of the device; no stop event is set and no thread removed by
    the disconnection. *)
Theorem update_then_disconnect (w : World T) (v : Vteps) (tm : TunnelMode T) :
  (update_here w).1 = Returned (STATUS_SUCCESS, v) ->
  tunnel_modes self !! tunnel_name = Some tm ->
  let w1 := (update_here w).2 in
  (destroy_tunnel_controller_endpoint tm deviceid tenantid
     (tunnel_state w1)).1 = Returned STATUS_SUCCESS ->
  let r := (device_disconnected self deviceid tenantid w1).1 in
  let w2 := (device_disconnected self deviceid tenantid w1).2 in
  r = Returned STATUS_SUCCESS
  /\ (exists dev0,
        devices (db w) !! key = Some dev0
        /\ devices (db w2)
           = <[key := {| registration := registration dev0;
                         srv6_sdn_controller_state.mgmtip := None;
                         state := WORKING; connected := false;
                         tunnel_mode := None; mgmt_info := None;
                         reconciliation_flag := reconciliation_flag dev0;
                         reconciliation_failures :=
                           reconciliation_failures dev0;
                         allow_reboot := allow_reboot dev0 |}]>
               (devices (db w)))
  /\ connected_devices w2 = delete thread_id (connected_devices w)
  /\ events w2 = events w1
  /\ threads w2 = threads w1.
Proof.
  intros Hok Htm w1 Hdestroy. cbv zeta.
  destruct (update_mgmt_info_success_state self deviceid tenantid interfaces
              mgmtip tunnel_name nat_type device_external_ip
              device_external_port device_vtep_mac vxlan_port w v Hok)
    as (tm' & ts & dev0 & Htm' & _ & Hdev0 & Hdb1 & Hcd1).
  fold w1 key thread_id in Hdb1, Hcd1, Hdev0.
  destruct (update_mgmt_info_sessions self deviceid tenantid interfaces
              mgmtip tunnel_name nat_type device_external_ip
              device_external_port device_vtep_mac vxlan_port w)
    as [[_ Hne]|(_ & _ & _ & _ & Hcd & _)].
  { exfalso. by apply (Hne v). }
  fold w1 thread_id in Hcd.
  assert (Hd1 : devices (db w1) !! (tenantid, deviceid)
                = Some (working_record interfaces mgmtip tunnel_name nat_type
                          device_external_ip device_external_port
                          device_vtep_mac vxlan_port dev0)).
  { fold key. rewrite Hdb1. apply lookup_insert_eq. }
  destruct (device_disconnected_success_run self deviceid tenantid w1 _ _
              Hd1 Hcd1) as (Hr & Hdb2 & Hcd2 & Hev & Hth).
  { intros mode_name [= <-]. eauto. }
  split_and!; try done.
  - exists dev0. split; [done|].
    rewrite Hdb2. fold key. rewrite Hdb1. by rewrite insert_insert_eq.
  - rewrite Hcd2. fold thread_id. rewrite Hcd.
    apply delete_insert_eq.
Qed.

End Lifecycle.


(** ** Blocks that never return, keep or ensure a property *)

Section BlockProperties.
Context {S R : Type}.

Lemma never_returns_pure {A} (a : A) : never_returns (@pure S R A a).
Proof. by intros s r s'. Qed.

Lemma never_returns_raise {A} (e : exn) : never_returns (@raise S R A e).
Proof. by intros s r s'. Qed.

Lemma never_returns_gets {A} (g : S -> A) : never_returns (@gets S R A g).
Proof. by intros s r s'. Qed.

Lemma never_returns_modify (g : S -> S) : never_returns (@modify S R g).
Proof. by intros s r s'. Qed.

Lemma never_returns_bind {A B} (m : M S R A) (k : A -> M S R B) :
  never_returns m -> (forall a, never_returns (k a)) ->
  never_returns (bind m k).
Proof.
  intros Hm Hk s r s'. unfold bind.
  destruct (m s) as [[a|r0|e] s1] eqn:E; [apply Hk| |done].
  by apply Hm in E.
Qed.

Lemma keeps_pure {A} (P : S -> Prop) (a : A) : keeps P (@pure S R A a).
Proof. by intros s. Qed.

Lemma keeps_raise {A} (P : S -> Prop) (e : exn) : keeps P (@raise S R A e).
Proof. by intros s. Qed.

Lemma keeps_return {A} (P : S -> Prop) (r : R) : keeps P (@return_ S R A r).
Proof. by intros s. Qed.

Lemma keeps_gets {A} (P : S -> Prop) (g : S -> A) : keeps P (@gets S R A g).
Proof. by intros s. Qed.

Lemma keeps_modify (P : S -> Prop) (g : S -> S) :
  (forall s, P s -> P (g s)) -> keeps P (@modify S R g).
Proof. intros H s. apply H. Qed.

Lemma keeps_bind {A B} (P : S -> Prop) (m : M S R A) (k : A -> M S R B) :
  keeps P m -> (forall a, keeps P (k a)) -> keeps P (bind m k).
Proof.
  intros Hm Hk s HP. unfold bind. specialize (Hm s HP).
  destruct (m s) as [[a|r|e] s1]; cbn in *; [|done..].
  by apply Hk.
Qed.

Lemma ensures_skip {A B} (Q : S -> Prop) (m : M S R A) (k : A -> M S R B) :
  never_returns m -> (forall a, ensures Q (k a)) -> ensures Q (bind m k).
Proof.
  intros Hm Hk s. unfold bind.
  destruct (m s) as [[a|r|e] s1] eqn:E; [apply Hk| |done].
  by apply Hm in E.
Qed.

Lemma ensures_then {A B} (Q : S -> Prop) (m : M S R A) (k : A -> M S R B) :
  ensures Q m -> (forall a, keeps Q (k a)) -> (forall a, never_returns (k a)) ->
  ensures Q (bind m k).
Proof.
  intros Hm Hk Hn s. unfold bind. specialize (Hm s).
  destruct (m s) as [[a|r|e] s1]; cbn in *; [|done..].
  specialize (Hk a s1 Hm).
  by destruct (k a s1) as [[?|?|?] ?].
Qed.

Lemma ensures_keeps {A} (Q : S -> Prop) (m : M S R A) (s : S) :
  Q s -> keeps Q m -> match (m s).1 with Exc _ => True | _ => Q (m s).2 end.
Proof. intros HQ Hk. specialize (Hk s HQ). by destruct (m s) as [[?|?|?] ?]. Qed.

End BlockProperties.

(** ** The VXLAN tunnel mode: teardown and error paths *)

Section VXLANNeverReturns.
Import TunnelVXLAN.

(** The operations on the network objects never return. *)
Lemma never_returns_link_lookup {R} dev :
  never_returns (@Net.link_lookup R dev).
Proof.
  intros n r n'. unfold Net.link_lookup. unfold_monad.
  by destruct (Net.links n !! dev).
Qed.

Lemma never_returns_in_net {R A} (m : M Net.State R A) :
  never_returns m -> never_returns (in_net m).
Proof.
  intros Hm s r s'. unfold in_net.
  destruct (m (net s)) as [[a|r0|e] n'] eqn:E; try done.
  by apply Hm in E.
Qed.

Lemma never_returns_create_vxlan {R} device args :
  never_returns (@Net.create_vxlan R device args).
Proof.
  intros n r n'. unfold Net.create_vxlan. unfold_monad.
  by destruct (Net.links n !! device).
Qed.

Ltac nr_step :=
  lazymatch goal with
  | |- forall _, _ => intro
  | |- never_returns (bind _ _) => apply never_returns_bind
  | |- never_returns (pure _) => apply never_returns_pure
  | |- never_returns (raise _) => apply never_returns_raise
  | |- never_returns (gets _) => apply never_returns_gets
  | |- never_returns (modify _) => apply never_returns_modify
  | |- never_returns (in_net _) => apply never_returns_in_net
  | |- never_returns (Net.link_lookup _) => apply never_returns_link_lookup
  | |- never_returns (Net.create_vxlan _ _) =>
      apply never_returns_create_vxlan
  | |- never_returns (match ?x with _ => _ end) => destruct x
  | |- never_returns (if ?x then _ else _) => destruct x
  end.

Ltac nr := repeat nr_step.

Lemma never_returns_net_ops {R} :
  (forall d l dev p, never_returns (@Net.create_fdb_entry R d l dev p))
  /\ (forall l dev, never_returns (@Net.remove_fdb_entry R l dev))
  /\ (forall dev, never_returns (@Net.enable_interface R dev))
  /\ (forall dev a m, never_returns (@Net.add_address R dev a m))
  /\ (forall dev a m, never_returns (@Net.del_address R dev a m))
  /\ (forall dev l d, never_returns (@Net.create_ip_neigh R dev l d))
  /\ (forall dev d, never_returns (@Net.remove_ip_neigh R dev d))
  /\ (forall dev, never_returns (@Net.get_mac_address R dev))
  /\ (forall dev, never_returns (@Net.remove_interface R dev)).
Proof.
  split_and!; intros;
    unfold Net.create_fdb_entry, Net.remove_fdb_entry, Net.enable_interface,
      Net.add_address, Net.del_address, Net.create_ip_neigh,
      Net.remove_ip_neigh, Net.get_mac_address, Net.remove_interface; nr.
Qed.

Lemma never_returns_get_new_mgmt_ip {R} f sl t :
  never_returns (@get_new_mgmt_ip R f sl t).
Proof.
  intros s r s'. unfold get_new_mgmt_ip. unfold_monad.
  repeat case_match; done.
Qed.

Lemma never_returns_release_ip_address {R} f sl t :
  never_returns (@release_ip_address R f sl t).
Proof.
  intros s r s'. unfold release_ip_address. unfold_monad.
  repeat case_match; done.
Qed.

Lemma never_returns_num_addresses {R} t :
  never_returns (@num_addresses R t).
Proof.
  intros s r s'. unfold num_addresses. unfold_monad.
  repeat case_match; done.
Qed.

Lemma never_returns_get_device_mgmtip {R} :
  (forall t sl, never_returns (@get_device_mgmtipv4 R t sl))
  /\ (forall t sl, never_returns (@get_device_mgmtipv6 R t sl))
  /\ (forall t sl, never_returns (@get_device_mgmtip R t sl)).
Proof.
  assert (H4 : forall t sl, never_returns (@get_device_mgmtipv4 R t sl)).
  { intros t sl s r s'. unfold get_device_mgmtipv4. unfold_monad.
    by case_match. }
  assert (H6 : forall t sl, never_returns (@get_device_mgmtipv6 R t sl)).
  { intros t sl s r s'. unfold get_device_mgmtipv6. unfold_monad.
    by case_match. }
  split_and!; try done.
  intros t sl. unfold get_device_mgmtip.
  apply never_returns_bind; [apply H4|].
  intros [a|]; [apply never_returns_pure|apply H6].
Qed.

Lemma never_returns_modifiers {R} :
  (forall t, never_returns (@init_tenantid R t))
  /\ (forall t, never_returns (@release_tenantid R t))
  /\ (forall d, never_returns (@get_device_vtep_mac R d))
  /\ (forall o, never_returns (@split_of R o)).
Proof.
  split_and!; intros;
    unfold init_tenantid, release_tenantid, get_device_vtep_mac, split_of; nr.
Qed.

End VXLANNeverReturns.

Ltac never_returns_vxlan_step :=
  lazymatch goal with
  | |- forall _, _ => intro
  | |- never_returns (bind _ _) => apply never_returns_bind
  | |- never_returns (pure _) => apply never_returns_pure
  | |- never_returns (raise _) => apply never_returns_raise
  | |- never_returns (gets _) => apply never_returns_gets
  | |- never_returns (modify _) => apply never_returns_modify
  | |- never_returns (TunnelVXLAN.in_net _) => apply never_returns_in_net
  | |- never_returns (Net.create_vxlan _ _) =>
      apply never_returns_create_vxlan
  | |- never_returns (Net.create_fdb_entry _ _ _ _) =>
      apply never_returns_net_ops
  | |- never_returns (Net.remove_fdb_entry _ _) =>
      apply never_returns_net_ops
  | |- never_returns (Net.enable_interface _) =>
      apply never_returns_net_ops
  | |- never_returns (Net.add_address _ _ _) => apply never_returns_net_ops
  | |- never_returns (Net.del_address _ _ _) => apply never_returns_net_ops
  | |- never_returns (Net.create_ip_neigh _ _ _) =>
      apply never_returns_net_ops
  | |- never_returns (Net.remove_ip_neigh _ _) =>
      apply never_returns_net_ops
  | |- never_returns (Net.get_mac_address _) => apply never_returns_net_ops
  | |- never_returns (Net.remove_interface _) =>
      apply never_returns_net_ops
  | |- never_returns (TunnelVXLAN.get_new_mgmt_ipv4 _ _) =>
      apply never_returns_get_new_mgmt_ip
  | |- never_returns (TunnelVXLAN.get_new_mgmt_ipv6 _ _) =>
      apply never_returns_get_new_mgmt_ip
  | |- never_returns (TunnelVXLAN.release_ip_address _ _ _) =>
      apply never_returns_release_ip_address
  | |- never_returns (TunnelVXLAN.get_new_mgmt_ip _ _ _) =>
      apply never_returns_get_new_mgmt_ip
  | |- never_returns (TunnelVXLAN.release_ipv4_address _ _) =>
      apply never_returns_release_ip_address
  | |- never_returns (TunnelVXLAN.release_ipv6_address _ _) =>
      apply never_returns_release_ip_address
  | |- never_returns (TunnelVXLAN.num_addresses _) => apply never_returns_num_addresses
  | |- never_returns (TunnelVXLAN.get_device_mgmtipv4 _ _) =>
      apply never_returns_get_device_mgmtip
  | |- never_returns (TunnelVXLAN.get_device_mgmtipv6 _ _) =>
      apply never_returns_get_device_mgmtip
  | |- never_returns (TunnelVXLAN.get_device_mgmtip _ _) =>
      apply never_returns_get_device_mgmtip
  | |- never_returns (TunnelVXLAN.init_tenantid _) => apply never_returns_modifiers
  | |- never_returns (TunnelVXLAN.release_tenantid _) => apply never_returns_modifiers
  | |- never_returns (TunnelVXLAN.get_device_vtep_mac _) => apply never_returns_modifiers
  | |- never_returns (TunnelVXLAN.split_of _) => apply never_returns_modifiers
  | |- never_returns (match ?x with _ => _ end) => destruct x
  | |- never_returns (if ?x then _ else _) => destruct x
  end.

Ltac never_returns_vxlan := repeat never_returns_vxlan_step.

Section VXLANBlocks.
Import TunnelVXLAN.


(** What keeps a property that does not depend on the network objects and
    on the set of initiated tenants. *)
Section Keeps.
Variable P : State -> Prop.
Hypothesis P_net : forall s n, P s -> P (set_net n s).
Hypothesis P_initiated : forall s g, P s -> P (set_initiated g s).

Lemma keeps_in_net {R A} (m : M Net.State R A) : keeps P (in_net m).
Proof.
  intros s HP. unfold in_net. destruct (m (net s)) as [o n']. by apply P_net.
Qed.

Lemma keeps_getters {R} :
  (forall t sl, keeps P (@get_device_mgmtipv4 R t sl))
  /\ (forall t sl, keeps P (@get_device_mgmtipv6 R t sl))
  /\ (forall t sl, keeps P (@get_device_mgmtip R t sl))
  /\ (forall d, keeps P (@get_device_vtep_mac R d))
  /\ (forall o, keeps P (@split_of R o))
  /\ (forall t, keeps P (@num_addresses R t)).
Proof.
  assert (H4 : forall t sl, keeps P (@get_device_mgmtipv4 R t sl)).
  { intros t sl s HP. unfold get_device_mgmtipv4. unfold_monad.
    by case_match. }
  assert (H6 : forall t sl, keeps P (@get_device_mgmtipv6 R t sl)).
  { intros t sl s HP. unfold get_device_mgmtipv6. unfold_monad.
    by case_match. }
  split_and!; try done.
  - intros t sl. unfold get_device_mgmtip.
    apply keeps_bind; [apply H4|].
    intros [a|]; [apply keeps_pure|apply H6].
  - intros d s HP. done.
  - intros [a|]; [apply keeps_pure|apply keeps_raise].
  - intros t s HP. unfold num_addresses. unfold_monad.
    by repeat case_match.
Qed.

(** The teardown keeps what the release of an address and the release of
    the tenant keep. *)
Lemma keeps_destroy (ti : TunnelInfo) :
  (forall f sl, keeps P (@release_ip_address status f sl "0")) ->
  keeps P (@release_tenantid status "0") ->
  forall s, P s -> P (destroy_tunnel_controller_endpoint ti s).2.
Proof.
  intros Hrel Hten s. unfold destroy_tunnel_controller_endpoint.
  rewrite def_snd. revert s.
  match goal with |- forall s, _ -> _ (?m s).2 => change (keeps P m) end.
  unfold release_ipv4_address, release_ipv6_address.
  repeat lazymatch goal with
  | |- forall _, _ => intro
  | |- keeps _ (bind _ _) => apply keeps_bind
  | |- keeps _ (pure _) => apply keeps_pure
  | |- keeps _ (raise _) => apply keeps_raise
  | |- keeps _ (gets _) => apply keeps_gets
  | |- keeps _ (in_net _) => apply keeps_in_net
  | |- keeps _ (modify (set_initiated _)) =>
      apply keeps_modify; intros; by apply P_initiated
  | |- keeps _ (release_ip_address _ _ _) => apply Hrel
  | |- keeps _ (release_tenantid _) => apply Hten
  | |- keeps _ (match ?x with _ => _ end) => destruct x
  | |- keeps _ (if ?x then _ else _) => destruct x
  | |- keeps _ _ => apply keeps_getters
  end.
Qed.

End Keeps.

(** What keeps a property that depends neither on the network objects, nor
    on the set of initiated tenants, nor on the address pools. *)
Section KeepsPools.
Variable P : State -> Prop.
Hypothesis P_net : forall s n, P s -> P (set_net n s).
Hypothesis P_initiated : forall s g, P s -> P (set_initiated g s).
Hypothesis P_pool : forall s f m a, P s -> P (set_pool f m a s).

Lemma keeps_pool_operations {R} :
  (forall f sl t, keeps P (@get_new_mgmt_ip R f sl t))
  /\ (forall f sl t, keeps P (@release_ip_address R f sl t))
  /\ (forall t, keeps P (@init_tenantid R t))
  /\ (forall t, keeps P (@release_tenantid R t)).
Proof.
  split_and!.
  - intros f sl t s HP. unfold get_new_mgmt_ip. unfold_monad.
    repeat case_match; cbn; try done; by apply P_pool.
  - intros f sl t s HP. unfold release_ip_address. unfold_monad.
    repeat case_match; cbn; try done; by apply P_pool.
  - intros t. apply keeps_modify. intros s HP. by do 2 apply P_pool.
  - intros t. apply keeps_modify. intros s HP. by do 2 apply P_pool.
Qed.

Lemma keeps_create (ti : TunnelInfo) :
  (forall s, P s ->
     P (set_device_to_mac_addr <[device_id ti := device_vtep_mac ti]> s)) ->
  forall s, P s -> P (create_tunnel_controller_endpoint ti s).2.
Proof.
  intros Hmac s. unfold create_tunnel_controller_endpoint.
  rewrite def_snd. revert s.
  match goal with |- forall s, _ -> _ (?m s).2 => change (keeps P m) end.
  unfold get_new_mgmt_ipv4, get_new_mgmt_ipv6.
  repeat lazymatch goal with
  | |- forall _, _ => intro
  | |- keeps _ (bind _ _) => apply keeps_bind
  | |- keeps _ (pure _) => apply keeps_pure
  | |- keeps _ (raise _) => apply keeps_raise
  | |- keeps _ (return_ _) => apply keeps_return
  | |- keeps _ (gets _) => apply keeps_gets
  | |- keeps _ (in_net _) => by apply keeps_in_net
  | |- keeps _ (modify (set_initiated _)) =>
      apply keeps_modify; intros; by apply P_initiated
  | |- keeps _ (modify (set_device_to_mac_addr _)) =>
      apply keeps_modify; exact Hmac
  | |- keeps _ (get_new_mgmt_ip _ _ _) => apply keeps_pool_operations
  | |- keeps _ (init_tenantid _) => apply keeps_pool_operations
  | |- keeps _ (match ?x with _ => _ end) => destruct x; cbv beta iota
  | |- keeps _ (if ?x then _ else _) => destruct x
  end.
Qed.

End KeepsPools.

(** X14: the MAC address recorded for a device is never forgotten:
    [destroy_tunnel_controller_endpoint] leaves [device_to_mac_addr] as it
    is, whatever its outcome, and over any sequence of creations and
    teardowns a device that has an entry keeps one. *)
Theorem device_mac_never_forgotten :
  (forall ti s,
     device_to_mac_addr (destroy_tunnel_controller_endpoint ti s).2
     = device_to_mac_addr s)
  /\ (forall ops s d,
        is_Some (device_to_mac_addr s !! d) ->
        is_Some (device_to_mac_addr (run_ops ops s) !! d)).
Proof.
  split.
  - intros ti s.
    apply (keeps_destroy
             (fun s' => device_to_mac_addr s' = device_to_mac_addr s));
      try done.
    + intros f sl. by apply keeps_pool_operations.
    + by apply keeps_pool_operations.
  - intros ops. induction ops as [|o ops IH]; intros s d Hd; [done|].
    rewrite run_ops_cons. apply IH. destruct o as [ti|ti]; cbn.
    + apply (keeps_create (fun s' => is_Some (device_to_mac_addr s' !! d)));
        try done.
      intros s' Hs'. cbn.
      destruct (decide (device_id ti = d)) as [->|Hne].
      * rewrite lookup_insert_eq. eauto.
      * by rewrite lookup_insert_ne.
    + apply (keeps_destroy (fun s' => is_Some (device_to_mac_addr s' !! d)));
        try done.
      * intros f sl. by apply keeps_pool_operations.
      * by apply keeps_pool_operations.
Qed.

(** The teardown for a device without a management address. *)
Lemma destroy_without_address_run (ti : TunnelInfo) (s : State) :
  no_address AF_INET (device_id ti) s ->
  no_address AF_INET6 (device_id ti) s ->
  destroy_tunnel_controller_endpoint ti s = (Raised AttributeError, s).
Proof.
  unfold no_address. cbn [mgmt_map]. intros H4 H6.
  unfold destroy_tunnel_controller_endpoint.
  unfold get_device_mgmtip, get_device_mgmtipv4, get_device_mgmtipv6,
    split_of.
  unfold_monad. cbn.
  destruct (device_to_mgmt_ipv4 s !! "0") as [m4|] eqn:E4;
    destruct (device_to_mgmt_ipv6 s !! "0") as [m6|] eqn:E6; cbn;
    rewrite ?(H4 _ eq_refl), ?(H6 _ eq_refl); cbn;
    rewrite ?E6; cbn; rewrite ?(H6 _ eq_refl); reflexivity.
Qed.

(** X15: the teardown of the endpoint of a device that has no management
    address (none of either family in the pool ['0']) raises
    [AttributeError] ([None] has no [split]) before anything is changed;
    and so does [update_tunnel_controller_endpoint], which therefore cannot
    be used to establish a first tunnel. *)
Theorem destroy_without_address (ti : TunnelInfo) (s : State) :
  no_address AF_INET (device_id ti) s ->
  no_address AF_INET6 (device_id ti) s ->
  destroy_tunnel_controller_endpoint ti s = (Raised AttributeError, s)
  /\ update_tunnel_controller_endpoint ti s = (Raised AttributeError, s).
Proof.
  intros H4 H6.
  pose proof (destroy_without_address_run ti s H4 H6) as Hd.
  split; [exact Hd|].
  unfold update_tunnel_controller_endpoint, def, call, bind.
  by rewrite Hd.
Qed.

(** X16: with an external address that has no address family,
    [create_tunnel_controller_endpoint] never returns SUCCESS.  On an
    object whose shared tenant is already initiated it returns
    INTERNAL_ERROR with the negotiation record as it was, but not without
    a trace: the MAC address of the device has been recorded before the
    family was looked at. *)
Theorem create_without_family (ti : TunnelInfo) (s : State) :
  getAddressFamily (device_external_ip ti) = None ->
  (forall ti', (create_tunnel_controller_endpoint ti s).1
               <> Returned (STATUS_SUCCESS, ti'))
  /\ ("0" ∈ initiated s ->
      create_tunnel_controller_endpoint ti s
      = (Returned (STATUS_INTERNAL_ERROR, ti),
         set_device_to_mac_addr <[device_id ti := device_vtep_mac ti]> s)).
Proof.
  intros Hfam. split.
  - intros ti'. unfold create_tunnel_controller_endpoint, def.
    rewrite Hfam.
    do 3 (rewrite bind_run; unfold gets at 1; cbv beta iota).
    rewrite bind_run.
    match goal with
    | |- context [match ?blk s with _ => _ end] =>
        assert (Hnr : never_returns blk) by never_returns_vxlan;
        destruct (blk s) as [[[]|r|e] s1] eqn:E
    end.
    + cbn. discriminate.
    + by apply Hnr in E.
    + discriminate.
  - intros Hinit. unfold create_tunnel_controller_endpoint.
    rewrite Hfam. unfold_monad. cbn.
    rewrite bool_decide_eq_true_2 by done. reflexivity.
Qed.

(** The release of an address, on the addresses of a device. *)
Lemma release_ip_address_ensures {R} f d :
  ensures (no_address f d) (@release_ip_address R f (SlotDev d) "0").
Proof.
  intros s. unfold release_ip_address. unfold_monad.
  destruct (mgmt_map f s !! "0") as [m|] eqn:Em; [|done].
  destruct (reusable (allocator f s) !! "0") as [free|]; [|done].
  destruct (m !! SlotDev d) as [addr|] eqn:Ea; cbn.
  - intros m'. destruct f; cbn; rewrite lookup_insert_eq;
      intros [= <-]; apply lookup_delete_eq.
  - intros m'. rewrite Em. by intros [= <-].
Qed.

Lemma release_ip_address_keeps {R} f f' d sl :
  keeps (no_address f d) (@release_ip_address R f' sl "0").
Proof.
  intros s Hno. unfold release_ip_address. unfold_monad.
  destruct (mgmt_map f' s !! "0") as [m|] eqn:Em; [|done].
  destruct (reusable (allocator f' s) !! "0") as [free|]; [|done].
  destruct (m !! sl) as [addr|] eqn:Ea; cbn; [|done].
  intros m'. destruct f, f'; cbn in *;
    rewrite ?lookup_insert_eq; try apply Hno.
  all: intros [= <-]; apply lookup_delete_None; right; by apply Hno.
Qed.

Lemma release_tenantid_keeps {R} f d :
  keeps (no_address f d) (@release_tenantid R "0").
Proof.
  apply keeps_modify. intros s Hno m'.
  destruct f; cbn; by rewrite lookup_delete_eq.
Qed.

Lemma no_address_set_net f d s n :
  no_address f d s -> no_address f d (set_net n s).
Proof. by destruct f. Qed.

Lemma no_address_set_initiated f d s g :
  no_address f d s -> no_address f d (set_initiated g s).
Proof. by destruct f. Qed.

Ltac keeps_no_address :=
  repeat lazymatch goal with
  | |- forall _, _ => intro
  | |- keeps _ (bind _ _) => apply keeps_bind
  | |- keeps _ (pure _) => apply keeps_pure
  | |- keeps _ (raise _) => apply keeps_raise
  | |- keeps _ (gets _) => apply keeps_gets
  | |- keeps _ (in_net _) =>
      apply keeps_in_net; intros; by apply no_address_set_net
  | |- keeps _ (modify (set_initiated _)) =>
      apply keeps_modify; intros; by apply no_address_set_initiated
  | |- keeps _ (release_ip_address _ _ _) => apply release_ip_address_keeps
  | |- keeps _ (release_tenantid _) => apply release_tenantid_keeps
  | |- keeps _ (match ?x with _ => _ end) => destruct x
  | |- keeps _ (if ?x then _ else _) => destruct x
  | |- keeps _ _ =>
      apply keeps_getters; intros; by apply no_address_set_net
  end.

(** A teardown that does not raise leaves the device without address. *)
Lemma destroy_ensures_no_address (ti : TunnelInfo) (f : family) (s : State) :
  match (destroy_tunnel_controller_endpoint ti s).1 with
  | Raised _ => True
  | Returned _ =>
      no_address f (device_id ti) (destroy_tunnel_controller_endpoint ti s).2
  end.
Proof.
  unfold destroy_tunnel_controller_endpoint, def.
  match goal with
  | |- context [match ?b s with _ => _ end] =>
      assert (H : ensures (no_address f (device_id ti)) b);
      [|specialize (H s); by destruct (b s) as [[?|?|?] ?]]
  end.
  do 6 (apply ensures_skip; [never_returns_vxlan|intros]).
  unfold release_ipv4_address, release_ipv6_address.
  destruct f.
  - apply ensures_then; [apply release_ip_address_ensures| |never_returns_vxlan].
    keeps_no_address.
  - apply ensures_skip; [apply never_returns_release_ip_address|].
    intros _.
    apply ensures_then; [apply release_ip_address_ensures| |never_returns_vxlan].
    keeps_no_address.
Qed.

(** X17: the teardown is not idempotent.  After a call of
    [destroy_tunnel_controller_endpoint] that returned SUCCESS the device
    has no management address left, so that a second teardown of the same
    endpoint raises [AttributeError] and changes nothing. *)
Theorem destroy_twice (ti : TunnelInfo) (s s' : State) :
  destroy_tunnel_controller_endpoint ti s = (Returned STATUS_SUCCESS, s') ->
  no_address AF_INET (device_id ti) s'
  /\ no_address AF_INET6 (device_id ti) s'
  /\ destroy_tunnel_controller_endpoint ti s' = (Raised AttributeError, s').
Proof.
  intros Hd.
  assert (Hno : forall f, no_address f (device_id ti) s').
  { intros f. pose proof (destroy_ensures_no_address ti f s) as H.
    by rewrite Hd in H. }
  split_and!; [apply Hno..|].
  by apply destroy_without_address_run.
Qed.

End VXLANBlocks.


(** ** The VXLAN tunnel mode: an update is a teardown and a creation *)

Section VXLANUpdate.
Import TunnelVXLAN.

(** The teardown returns no status but SUCCESS. *)
Lemma destroy_returns_success (ti : TunnelInfo) (s : State) (res : status) :
  (destroy_tunnel_controller_endpoint ti s).1 = Returned res ->
  res = STATUS_SUCCESS.
Proof.
  unfold destroy_tunnel_controller_endpoint, def.
  match goal with
  | |- context [match ?b s with _ => _ end] =>
      assert (H : forall s, match (b s).1 with
                            | Val x | Ret x => x = STATUS_SUCCESS
                            | Exc _ => True
                            end);
      [|specialize (H s); destruct (b s) as [[?|?|?] ?]; cbn in *; congruence]
  end.
  clear s. intros s.
  repeat (rewrite bind_run;
          match goal with
          | |- context [match ?m ?s0 with _ => _ end] =>
              let Hnr := fresh "Hnr" in
              assert (Hnr : never_returns m) by
                (unfold release_ipv4_address, release_ipv6_address;
                 never_returns_vxlan);
              let E := fresh "E" in
              destruct (m s0) as [[?|?|?] ?] eqn:E;
              [|by apply Hnr in E|done]; clear Hnr E
          end).
  done.
Qed.

(** The allocation of the controller's own address and the initiation of
    the shared tenant give no address to a device. *)
Lemma get_new_mgmt_ip_slot0_keeps {R} f f' d :
  keeps (no_address f d) (@get_new_mgmt_ip R f' Slot0 "0").
Proof.
  intros s Hno. unfold get_new_mgmt_ip. unfold_monad.
  destruct (mgmt_map f' s !! "0") as [m|] eqn:Em; [|done].
  destruct (next_host (allocator f' s) !! "0") as [n|]; [|done].
  destruct (reusable (allocator f' s) !! "0") as [free|]; [|done].
  destruct (m !! Slot0) as [addr|] eqn:Ea; cbn; [done|].
  intros m'. destruct f, f'; cbn in *;
    rewrite ?lookup_insert_eq; try apply Hno.
  all: intros [= <-]; rewrite lookup_insert_ne by done; by apply Hno.
Qed.

Lemma init_tenantid_keeps {R} f d :
  keeps (no_address f d) (@init_tenantid R "0").
Proof.
  apply keeps_modify. intros s Hno m'.
  destruct f; cbn; rewrite lookup_insert_eq; by intros [= <-].
Qed.

Lemma no_address_set_device_to_mac_addr f d s g :
  no_address f d s -> no_address f d (set_device_to_mac_addr g s).
Proof. by destruct f. Qed.

(** A creation for an external address without family gives the device no
    address. *)
Lemma create_without_family_keeps (ti : TunnelInfo) f d (s : State) :
  getAddressFamily (device_external_ip ti) = None ->
  no_address f d s ->
  no_address f d (create_tunnel_controller_endpoint ti s).2.
Proof.
  intros Hfam. unfold create_tunnel_controller_endpoint.
  rewrite Hfam, def_snd. revert s.
  match goal with
  | |- forall s, _ -> _ (?m s).2 => change (keeps (no_address f d) m)
  end.
  unfold get_new_mgmt_ipv4, get_new_mgmt_ipv6.
  repeat lazymatch goal with
  | |- forall _, _ => intro
  | |- keeps _ (bind _ _) => apply keeps_bind
  | |- keeps _ (pure _) => apply keeps_pure
  | |- keeps _ (raise _) => apply keeps_raise
  | |- keeps _ (return_ _) => apply keeps_return
  | |- keeps _ (gets _) => apply keeps_gets
  | |- keeps _ (in_net _) =>
      apply keeps_in_net; intros; by apply no_address_set_net
  | |- keeps _ (modify (set_initiated _)) =>
      apply keeps_modify; intros; by apply no_address_set_initiated
  | |- keeps _ (modify (set_device_to_mac_addr _)) =>
      apply keeps_modify; intros;
      by apply no_address_set_device_to_mac_addr
  | |- keeps _ (get_new_mgmt_ip _ Slot0 _) => apply get_new_mgmt_ip_slot0_keeps
  | |- keeps _ (init_tenantid _) => apply init_tenantid_keeps
  | |- keeps _ (match ?x with _ => _ end) => destruct x; cbv beta iota
  | |- keeps _ (if ?x then _ else _) => destruct x
  end.
Qed.

(** What a creation for an external address without family returns, and
    what it has recorded by then. *)
Lemma create_without_family_returns (ti : TunnelInfo) (s : State) r :
  getAddressFamily (device_external_ip ti) = None ->
  (create_tunnel_controller_endpoint ti s).1 = Returned r ->
  r = (STATUS_INTERNAL_ERROR, ti)
  /\ device_to_mac_addr (create_tunnel_controller_endpoint ti s).2
       !! device_id ti = Some (device_vtep_mac ti).
Proof.
  intros Hfam Hr.
  destruct (create_tunnel_controller_endpoint ti s) as [r0 s'] eqn:Hc.
  cbn in Hr |- *. subst r0. revert Hc.
  unfold create_tunnel_controller_endpoint, def.
  rewrite Hfam.
  do 3 (rewrite bind_run; unfold gets at 1; cbv beta iota).
  rewrite bind_run.
  match goal with
  | |- context [match ?blk s with _ => _ end] =>
      assert (Hnr : never_returns blk) by never_returns_vxlan;
      destruct (blk s) as [[[]|r'|e] s1] eqn:E
  end.
  - cbn. intros [= <- <-]. split; [done|]. apply lookup_insert_eq.
  - by apply Hnr in E.
  - discriminate.
Qed.

(** X18: an update is not atomic.  With an external address that has no
    address family, [update_tunnel_controller_endpoint] never returns
    SUCCESS; when it returns at all, the status is INTERNAL_ERROR with the
    negotiation record as it was, and the tunnel that the device had is
    gone: the device holds no management address of either family, while
    its MAC address is recorded. *)
Theorem update_without_family (ti : TunnelInfo) (s : State)
    (res : status) (ti' : TunnelInfo) :
  getAddressFamily (device_external_ip ti) = None ->
  (update_tunnel_controller_endpoint ti s).1 = Returned (res, ti') ->
  let s' := (update_tunnel_controller_endpoint ti s).2 in
  res = STATUS_INTERNAL_ERROR
  /\ ti' = ti
  /\ no_address AF_INET (device_id ti) s'
  /\ no_address AF_INET6 (device_id ti) s'
  /\ device_to_mac_addr s' !! device_id ti = Some (device_vtep_mac ti).
Proof.
  intros Hfam. unfold update_tunnel_controller_endpoint, def, call.
  rewrite bind_run.
  pose proof (destroy_returns_success ti s) as Hres.
  pose proof (fun f => destroy_ensures_no_address ti f s) as Hno.
  destruct (destroy_tunnel_controller_endpoint ti s) as [[r1|e1] s1];
    cbn in Hres, Hno |- *; [|discriminate].
  rewrite (Hres r1 eq_refl). rewrite decide_True by done.
  pose proof (create_without_family_returns ti s1) as Hret.
  pose proof (fun f => create_without_family_keeps ti f (device_id ti) s1
                         Hfam (Hno f)) as Hkeep.
  destruct (create_tunnel_controller_endpoint ti s1) as [[r2|e2] s2];
    cbn in Hret, Hkeep |- *; [|discriminate].
  intros [= ->].
  destruct (Hret _ Hfam eq_refl) as [[= -> ->] Hmac].
  split_and!; try done; apply Hkeep.
Qed.

End VXLANUpdate.


(** ** The VXLAN tunnel mode: the first endpoint and its teardown *)

Section VXLANRoundTrip.
Import TunnelVXLAN.

#[local] Arguments first_endpoint : simpl never.
#[local] Arguments set_vteps : simpl never.

Ltac unfold_vxlan :=
  unfold get_new_mgmt_ipv4, get_new_mgmt_ipv6, get_new_mgmt_ip,
    release_ipv4_address, release_ipv6_address, release_ip_address,
    init_tenantid, release_tenantid, num_addresses, get_device_vtep_mac,
    get_device_mgmtip, get_device_mgmtipv4, get_device_mgmtipv6, split_of,
    in_net, Net.create_vxlan, Net.enable_interface, Net.add_address,
    Net.del_address, Net.create_fdb_entry, Net.remove_fdb_entry,
    Net.create_ip_neigh, Net.remove_ip_neigh, Net.get_mac_address,
    Net.remove_interface, Net.link_lookup.

Lemma create_first_run (ti : TunnelInfo) (s : State) (f : family) :
  "0" ∉ initiated s ->
  Net.links (net s) !! vxlan_name_of s MGMT_VNI = None ->
  getAddressFamily (device_external_ip ti) = Some f ->
  create_tunnel_controller_endpoint ti s
  = (Returned
       (STATUS_SUCCESS,
        set_vteps (Net.kernel_mac (net s) (vxlan_name_of s MGMT_VNI))
                  (f, 1%N) (f, 2%N) (prefixlen (allocator f s)) ti),
     first_endpoint ti f s).
Proof.
  intros Hinit Hlink Hfam.
  assert (Hne : Slot0 <> SlotDev (device_id ti)) by done.
  destruct (create_tunnel_controller_endpoint ti s) as [r1 s1] eqn:Hc.
  revert Hc.
  unfold create_tunnel_controller_endpoint. rewrite Hfam.
  unfold_vxlan. unfold_monad. cbn.
  rewrite bool_decide_eq_false_2 by done. cbn.
  repeat (progress (rewrite ?lookup_insert_eq, ?lookup_empty, ?Hlink,
                      ?(lookup_insert_ne _ _ _ _ Hne); cbn)).
  destruct f; cbn;
  repeat (progress (rewrite ?lookup_insert_eq, ?lookup_empty, ?Hlink,
                      ?(lookup_insert_ne _ _ _ _ Hne); cbn)).
  all: intros [= <- <-]; f_equal.
  all: unfold first_endpoint.
  all: cbv beta iota zeta delta
         [set_net set_pool set_device_to_mac_addr set_initiated
          Net.set_neigh Net.set_fdb Net.set_links
          info controller_ip initiated device_to_mac_addr
          device_to_mgmt_ipv4 device_to_mgmt_ipv6 ipv4_address_allocator
          ipv6_address_allocator net Net.links Net.fdb Net.neigh
          Net.kernel_mac prefixlen next_host reusable allocator
          split_ip split_mask addr_family addr_host addr_mask].
  all: rewrite ?decide_True by done; rewrite ?decide_False by done.
  all: rewrite !insert_insert_eq.
  all: reflexivity.
Qed.

Lemma destroy_first_run (ti : TunnelInfo) (s : State) (f : family) :
  "0" ∉ initiated s ->
  Net.links (net s) !! vxlan_name_of s MGMT_VNI = None ->
  let vxlan_name := vxlan_name_of s MGMT_VNI in
  destroy_tunnel_controller_endpoint ti (first_endpoint ti f s)
  = (Returned STATUS_SUCCESS,
     set_device_to_mac_addr <[device_id ti := device_vtep_mac ti]>
       (erase "0"
          (set_net
             (Net.set_neigh
                (filter (fun e => ¬ (e.1.1 = vxlan_name ∧ e.1.2 = (f, 2%N))))
                (Net.set_fdb
                   (filter (fun e => ¬ (e.1.1.1 = vxlan_name
                                        ∧ e.1.1.2 = Some (device_vtep_mac ti))))
                   (net s)))
             s))).
Proof.
  intros Hinit Hlink vxlan_name.
  assert (Hne : Slot0 <> SlotDev (device_id ti)) by done.
  assert (Hne' : SlotDev (device_id ti) <> Slot0) by done.
  destruct (destroy_tunnel_controller_endpoint ti (first_endpoint ti f s))
    as [r2 s2] eqn:Hd.
  revert Hd.
  destruct f.
  all: unfold first_endpoint; cbv beta zeta.
  all: repeat (case_decide; try done).
  all: unfold destroy_tunnel_controller_endpoint.
  all: unfold_vxlan; unfold_monad.
  all: cbn.
  all: repeat (progress
         (repeat match goal with
                 | |- context [vxlan_name_of ?x MGMT_VNI] =>
                     tryif is_var x then fail
                     else change (vxlan_name_of x MGMT_VNI) with vxlan_name
                 end;
          fold vxlan_name;
          rewrite ?lookup_insert_eq, ?lookup_empty, ?lookup_delete_eq,
            ?delete_insert_eq, ?delete_empty, ?map_size_empty,
            ?(lookup_insert_ne _ _ _ _ Hne),
            ?(lookup_insert_ne _ _ _ _ Hne'),
            ?(delete_insert_ne _ _ _ _ Hne),
            ?(delete_insert_ne _ _ _ _ Hne'),
            ?(lookup_delete_ne _ _ _ Hne),
            ?(lookup_delete_ne _ _ _ Hne'),
            ?(decide_True (P := 0%nat = 0%nat)) by done;
          rewrite ?bool_decide_eq_true_2 by set_solver;
          cbn)).
  all: intros [= <- <-]; f_equal.
  all: cbv beta iota zeta delta
         [set_net set_pool set_device_to_mac_addr set_initiated erase
          release_pool
          Net.set_neigh Net.set_fdb Net.set_links
          info controller_ip initiated device_to_mac_addr
          device_to_mgmt_ipv4 device_to_mgmt_ipv6 ipv4_address_allocator
          ipv6_address_allocator net Net.links Net.fdb Net.neigh
          Net.kernel_mac prefixlen next_host reusable allocator
          split_ip split_mask addr_family addr_host addr_mask].
  all: rewrite ?delete_insert_eq.
  all: rewrite (delete_id _ _ Hlink).
  all: rewrite !filter_app, !filter_cons, !filter_nil.
  all: rewrite !decide_False by (intros Hn; by apply Hn).
  all: rewrite !app_nil_r.
  all: f_equal.
  all: set_solver.
Qed.



End VXLANRoundTrip.


(** ** Restoring the management interfaces at start-up *)

Section RestoreInterfaces.
Import srv6_sdn_controller_state PymerangController.

Context {T : Type}.
Variable self : Controller T.

Lemma restore_devices_frame (l : list (string * string * Device)) :
  forall (locals : RestoreLocals) (w : World T),
    let w' := (restore_devices self l locals w).2 in
    db w' = db w /\ stamp_nodes w' = stamp_nodes w
    /\ sessions w' = sessions w.
Proof.
  induction l as [|[[t d] dev] l IH]; intros locals w;
    cbn [restore_devices]; [done|].
  destruct (tunnel_mode dev) as [mode_name|]; [|apply IH].
  destruct (tunnel_modes self !! mode_name) as [tm|]; [|done].
  destruct (l_device_external_ip (assign_locals dev locals)) as [ip|];
    [|done].
  destruct (l_device_external_port (assign_locals dev locals)) as [port|];
    [|done].
  destruct (l_vxlan_port (assign_locals dev locals)) as [vport|]; [|done].
  destruct (l_device_vtep_mac (assign_locals dev locals)) as [mac|]; [|done].
  cbv zeta.
  destruct (create_tunnel_controller_endpoint tm d t ip port vport mac
              (tunnel_state w)) as [[[res v]|e] ts]; [|done].
  case_decide; [done|].
  match goal with
  | |- context [restore_devices self l ?loc ?w1] =>
      destruct (IH loc w1) as (-> & -> & ->)
  end.
  done.
Qed.

(** X21: [restore_mgmt_interfaces] recreates endpoints and nothing else:
    however it ends, the storage, the STAMP nodes and the keep-alive
    bookkeeping are what they were.  No keep-alive thread is started for a
    restored tunnel and no session is registered for it. *)
Theorem restore_mgmt_interfaces_frame (w : World T) :
  let w' := (restore_mgmt_interfaces self w).2 in
  db w' = db w
  /\ stamp_nodes w' = stamp_nodes w
  /\ connected_devices w' = connected_devices w
  /\ events w' = events w
  /\ threads w' = threads w.
Proof.
  cbv zeta. unfold restore_mgmt_interfaces, get_devices.
  destruct (restore_devices_frame (map_to_list (devices (db w))) no_locals w)
    as (? & ? & [= ? ? ?]).
  done.
Qed.


(** X23: the tunnel parameters are local variables that outlive an
    iteration.  A device that has a persisted tunnel mode but no stored
    tunnel parameters raises [UnboundLocalError] when it is the first to
    be restored, and the list is left there; when it comes after a device
    that had parameters and was restored, its endpoint is created with the
    parameters of that device. *)
Theorem restore_devices_stale_parameters
    (t1 d1 t2 d2 m1 m2 : string) (dev1 dev2 : Device) (mi : MgmtInfo)
    (tm1 tm2 : TunnelMode T) (rest : list (string * string * Device))
    (w : World T) (v : Vteps) (ts1 : T) :
  tunnel_mode dev2 = Some m2 ->
  mgmt_info dev2 = None ->
  tunnel_modes self !! m2 = Some tm2 ->
  restore_devices self ((t2, d2, dev2) :: rest) no_locals w
  = (RestoreUnboundLocalError "device_external_ip", w)
  /\ (tunnel_mode dev1 = Some m1 ->
      mgmt_info dev1 = Some mi ->
      tunnel_modes self !! m1 = Some tm1 ->
      create_tunnel_controller_endpoint tm1 d1 t1 (external_ip mi)
        (external_port mi) (srv6_sdn_controller_state.vxlan_port mi)
        (mgmt_mac mi) (tunnel_state w) = (Returned (STATUS_SUCCESS, v), ts1) ->
      tunnel_state
        (restore_devices self [(t1, d1, dev1); (t2, d2, dev2)] no_locals w).2
      = (create_tunnel_controller_endpoint tm2 d2 t2 (external_ip mi)
           (external_port mi) (srv6_sdn_controller_state.vxlan_port mi)
           (mgmt_mac mi) ts1).2).
Proof.
  intros Hm2 Hi2 Htm2. split.
  - cbn [restore_devices]. rewrite Hm2, Htm2.
    unfold assign_locals. rewrite Hi2. done.
  - intros Hm1 Hi1 Htm1 Hc1. cbn [restore_devices].
    rewrite Hm1, Htm1.
    set (L := {| l_device_external_ip := Some (external_ip mi);
                 l_device_external_port := Some (external_port mi);
                 l_device_vtep_mac := Some (mgmt_mac mi);
                 l_vxlan_port :=
                   Some (srv6_sdn_controller_state.vxlan_port mi) |}).
    assert (Hl1 : assign_locals dev1 no_locals = L)
      by (unfold assign_locals; rewrite Hi1; done).
    assert (Hl2 : assign_locals dev2 L = L)
      by (unfold assign_locals; rewrite Hi2; done).
    rewrite Hl1. cbv zeta.
    cbn [L l_device_external_ip l_device_external_port l_device_vtep_mac
         l_vxlan_port].
    rewrite Hc1. rewrite decide_False by (intros H; by apply H).
    rewrite Hm2, Htm2. fold L. rewrite Hl2.
    cbn [L l_device_external_ip l_device_external_port l_device_vtep_mac
         l_vxlan_port].
    match goal with
    | |- context [let (r, ts) := ?X in _] =>
        destruct X as [[[res v']|e] ts2] eqn:E
    end; cbn in E |- *; rewrite E; cbn; [|done].
    by case_decide.
Qed.

End RestoreInterfaces.


(** ** The RPC handlers *)

Section Handlers.
Import srv6_sdn_controller_state PymerangController PymerangServicer.

Context {T : Type}.
Variables (parse_ip_port : string -> string) (controller : Controller T)
          (request : Request) (peer : string).

(** X24: the answer to [RegisterDevice].  With a token the storage rejects
    the reply carries UNAUTHORIZED and nothing else, and nothing is
    changed.  With a token of a tenant whose configuration can be read the
    reply carries SUCCESS, the VXLAN port of the tenant, the tenant and the
    state of the device: REGISTERED for a device that was not known, the
    state it had for a device that was.  With a token of a tenant without
    readable configuration the handler returns no reply message but the
    bare INTERNAL_ERROR code: the controller returns no tenant with the
    error, so the device is looked up under no tenant and never found. *)
Theorem RegisterDevice_reply (w : World T) :
  let r := (RegisterDevice parse_ip_port controller request peer w).1 in
  let w' := (RegisterDevice parse_ip_port controller request peer w).2 in
  match tokens (db w) !! request_auth_data_token request with
  | None =>
      r = Returned (Reply (reply_with (Status STATUS_UNAUTHORIZED) None))
      /\ w' = w
  | Some tenantid =>
      match tenants (db w) !! tenantid with
      | None => r = Returned (BareStatus STATUS_INTERNAL_ERROR)
      | Some config =>
          r = Returned (Reply
                {| reply_status := Status STATUS_SUCCESS;
                   reply_device_state :=
                     Some (match devices (db w)
                                 !! (tenantid, request_device_id request) with
                           | Some dev => state dev
                           | None => REGISTERED
                           end);
                   reply_vxlan_port :=
                     Some (default DEFAULT_VXLAN_PORT (cfg_vxlan_port config));
                   reply_controller_vtep_mac := None;
                   reply_controller_vtep_ip := None;
                   reply_device_vtep_ip := None;
                   reply_vtep_mask := None;
                   reply_tenantid := Some tenantid |})
      end
  end.
Proof.
  cbv zeta. unfold RegisterDevice, register_device, authenticate_device.
  unfold_world. unfold_monad. cbn.
  unfold srv6_sdn_controller_state.authenticate_device.
  destruct (tokens (db w) !! request_auth_data_token request)
    as [tenantid|] eqn:Htok; cbn; [|done].
  unfold device_exists, get_tenant_config, get_device.
  destruct (devices (db w) !! (tenantid, request_device_id request))
    as [dev|] eqn:Hd.
  - rewrite bool_decide_eq_true_2 by eauto.
    unfold set_device_reconciliation_flag.
    rewrite (update_device_Some _ _ _ _ _ Hd). cbn.
    destruct (tenants (db w) !! tenantid) as [config|]; cbn;
      repeat (case_decide; simplify_eq; cbn); try done.
    by rewrite lookup_insert_eq.
  - rewrite bool_decide_eq_false_2 by (intros [? ?]; discriminate).
    cbn.
    destruct (tenants (db w) !! tenantid) as [config|]; cbn;
      repeat (case_decide; simplify_eq; cbn); try done.
    by rewrite lookup_insert_eq.
Qed.

Let deviceid : string := request_device_id request.
Let tenantid : string := request_tenantid request.
Let key : string * string := (tenantid, deviceid).

(** The handlers that read the device after the call of the controller. *)
Lemma KeepAlive_run (w : World T) :
  KeepAlive request w
  = (match devices (db w) !! key with
     | None => Returned (BareStatus STATUS_INTERNAL_ERROR)
     | Some dev =>
         Returned (Reply (reply_with (Status STATUS_SUCCESS)
                                     (Some (state dev))))
     end, w).
Proof.
  unfold KeepAlive. unfold_world. unfold_monad. cbn.
  unfold get_device. fold deviceid tenantid key.
  by destruct (devices (db w) !! key).
Qed.

(** X25: [KeepAlive] reads and writes nothing: it answers SUCCESS with the
    persisted state of the device, or the bare INTERNAL_ERROR code for a
    device the storage does not know.  It tells nothing about the
    connection: after a disconnection found by the keep-alive monitor the
    answer is the same SUCCESS with the same state as before. *)
Theorem KeepAlive_reports_state (w : World T) :
  (KeepAlive request w).2 = w
  /\ (KeepAlive request w).1
     = match devices (db w) !! key with
       | None => Returned (BareStatus STATUS_INTERNAL_ERROR)
       | Some dev =>
           Returned (Reply (reply_with (Status STATUS_SUCCESS)
                                       (Some (state dev))))
       end
  /\ (forall dev e,
        devices (db w) !! key = Some dev ->
        connected_devices w !! (tenantid +:+ "/" +:+ deviceid) = Some e ->
        (forall mode_name, tunnel_mode dev = Some mode_name ->
           exists tm, tunnel_modes controller !! mode_name = Some tm
                      /\ (destroy_tunnel_controller_endpoint tm deviceid
                            tenantid (tunnel_state w)).1
                         = Returned STATUS_SUCCESS) ->
        (KeepAlive request
           (device_disconnected controller deviceid tenantid w).2).1
        = (KeepAlive request w).1).
Proof.
  rewrite !KeepAlive_run. split_and!; try done.
  intros dev e Hd He Hmode. rewrite ?KeepAlive_run. cbn.
  destruct (device_disconnected_success_run controller deviceid tenantid w
              dev e Hd He Hmode) as (_ & Hdb & _).
  fold key in Hdb |- *. rewrite Hdb, Hd, lookup_insert_eq. done.
Qed.

Lemma UnregisterDevice_run (w : World T) :
  UnregisterDevice controller request w
  = (match (unregister_device controller deviceid tenantid w).1 with
     | Returned st => Returned (Reply (reply_with (Status st) None))
     | Raised e => Raised e
     end, (unregister_device controller deviceid tenantid w).2).
Proof.
  unfold UnregisterDevice. unfold_monad. fold deviceid tenantid.
  destruct (unregister_device controller deviceid tenantid w)
    as [[st|e] w1]; cbn; [|done].
  case_decide; cbn; [done|].
  destruct (decide (st = STATUS_SUCCESS)) as [->|]; done.
Qed.

(** X26: [UnregisterDevice] answers with the status [unregister_device]
    returned and nothing else, and the device it unregistered is still
    known: a [KeepAlive] after it is answered as one before it. *)
Theorem UnregisterDevice_keeps_device (w : World T) :
  let r := (UnregisterDevice controller request w).1 in
  let w' := (UnregisterDevice controller request w).2 in
  (forall st, (unregister_device controller deviceid tenantid w).1
              = Returned st ->
              r = Returned (Reply (reply_with (Status st) None)))
  /\ (forall e, (unregister_device controller deviceid tenantid w).1
                = Raised e -> r = Raised e)
  /\ (KeepAlive request w').1 = (KeepAlive request w).1.
Proof.
  cbv zeta. rewrite !KeepAlive_run, !UnregisterDevice_run. cbn.
  assert (Hdb : db (unregister_device controller deviceid tenantid w).2
                = db w).
  { unfold unregister_device. unfold_world. unfold_monad. cbn.
    destruct (get_device deviceid tenantid (db w)) as [device|]; [|done].
    destruct (tunnel_mode device) as [mode_name|]; [|done].
    destruct (tunnel_modes controller !! mode_name) as [tm|]; [|done]. cbn.
    destruct (destroy_tunnel_controller_endpoint tm deviceid tenantid
                (tunnel_state w)) as [[res|e] ts]; [|done]. cbn.
    by case_decide. }
  rewrite Hdb. split_and!; try done.
  - by intros st ->.
  - by intros e ->.
Qed.

(** The state a failed reconciliation leaves. *)
Lemma reconciliation_failed_state (w : World T) :
  match devices (db (reconciliation_failed controller deviceid tenantid w).2)
        !! key with
  | None => True
  | Some dev => state dev = REBOOT_REQUIRED \/ state dev = FAILURE
  end.
Proof.
  destruct (devices (db w) !! key) as [dev|] eqn:Hd.
  - rewrite (reconciliation_failed_exists controller deviceid tenantid w dev
               Hd).
    cbn. fold key. rewrite lookup_insert_eq.
    unfold failed_record. case_decide; cbn; eauto.
  - rewrite (reconciliation_failed_missing controller deviceid tenantid w Hd).
    cbn. fold key. by rewrite Hd.
Qed.

Lemma ExecReconciliation_run (w : World T) :
  ExecReconciliation controller request w
  = let e := exec_reconciliation controller deviceid tenantid w in
    (match e.1 with
     | Raised x => Raised x
     | Returned res =>
         match devices (db e.2) !! key with
         | None => Returned (BareStatus STATUS_INTERNAL_ERROR)
         | Some dev => Returned (Reply (reply_with res (Some (state dev))))
         end
     end, e.2).
Proof.
  unfold ExecReconciliation. unfold_world. unfold_monad.
  cbv zeta. fold deviceid tenantid.
  destruct (exec_reconciliation controller deviceid tenantid w)
    as [[res|e] w1]; cbn; [|done].
  unfold get_device. fold key.
  by destruct (devices (db w1) !! key).
Qed.

(** X27: the answer to [ExecReconciliation] when a northbound step fails.
    The HTTP-style code of the step is put in the status field of the
    reply as it is, and the state sent with it is the one the rollback has
    just written: REBOOT_REQUIRED, or FAILURE from the ceiling on.  For a
    device the storage does not know the handler returns the bare
    INTERNAL_ERROR code. *)
Theorem ExecReconciliation_failure_reply (w : World T) (code : Z) :
  (exec_reconciliation controller deviceid tenantid w).1
  = Returned (Http code) ->
  let r := (ExecReconciliation controller request w).1 in
  r = Returned (BareStatus STATUS_INTERNAL_ERROR)
  \/ exists st, r = Returned (Reply (reply_with (Http code) (Some st)))
                /\ (st = REBOOT_REQUIRED \/ st = FAILURE).
Proof.
  intros Hr. cbv zeta.
  assert (Hst : match devices
                        (db (exec_reconciliation controller deviceid tenantid
                               w).2) !! key with
                | None => True
                | Some dev => state dev = REBOOT_REQUIRED \/ state dev = FAILURE
                end).
  { revert Hr.
    unfold exec_reconciliation, RollbackContext.with_, RollbackContext.push,
      RollbackContext.lift, RollbackContext.commitAll.
    unfold_world. unfold_monad. cbn.
    destruct (bool_decide _); cbn.
    2: { destruct (reset_reconciliation_failures deviceid tenantid (db w))
           as [[] dbr]; cbn; discriminate. }
    destruct (nb_interface_ref controller) as [nb|]; cbn.
    2: { destruct (reconciliation_failed controller deviceid tenantid w)
           as [[?|?] ?]; cbn; discriminate. }
    destruct (prepare_db_for_device_reconciliation nb deviceid tenantid (db w))
      as [c1 db1]. cbn.
    destruct (decide (c1 ≠ 200)); cbn.
    { match goal with
      | |- context [reconciliation_failed _ _ _ ?w1] =>
          pose proof (reconciliation_failed_state w1) as H;
          destruct (reconciliation_failed controller deviceid tenantid w1)
            as [[?|?] ?]
      end; cbn in *; intros; [exact H|discriminate]. }
    destruct (device_reconciliation nb deviceid tenantid db1) as [c2 db2].
    cbn. destruct (decide (c2 ≠ 200)); cbn.
    { match goal with
      | |- context [reconciliation_failed _ _ _ ?w1] =>
          pose proof (reconciliation_failed_state w1) as H;
          destruct (reconciliation_failed controller deviceid tenantid w1)
            as [[?|?] ?]
      end; cbn in *; intros; [exact H|discriminate]. }
    destruct (overlay_reconciliation nb deviceid tenantid db2) as [c3 db3].
    cbn. destruct (decide (c3 ≠ 200)); cbn.
    { match goal with
      | |- context [reconciliation_failed _ _ _ ?w1] =>
          pose proof (reconciliation_failed_state w1) as H;
          destruct (reconciliation_failed controller deviceid tenantid w1)
            as [[?|?] ?]
      end; cbn in *; intros; [exact H|discriminate]. }
    destruct (set_device_reconciliation_flag deviceid tenantid false db3)
      as [? db4]. cbn.
    destruct (reset_reconciliation_failures deviceid tenantid db4)
      as [[] db5]; cbn; discriminate. }
  rewrite ExecReconciliation_run. cbv zeta. cbn [fst].
  rewrite Hr.
  destruct (devices (db (exec_reconciliation controller deviceid tenantid
                           w).2) !! key) as [dev|]; [|by left].
  right. eauto.
Qed.

Lemma UpdateMgmtInfo_run (w : World T) :
  UpdateMgmtInfo parse_ip_port controller request peer w
  = let u :=
      update_mgmt_info controller deviceid tenantid
        (external_addresses (request_interfaces request))
        (parse_ip_port peer) (msg_tunnel_mode (request_mgmt_info request))
        (msg_nat_type (request_mgmt_info request))
        (msg_device_external_ip (request_mgmt_info request))
        (msg_device_external_port (request_mgmt_info request))
        (msg_device_vtep_mac (request_mgmt_info request))
        (msg_vxlan_port (request_mgmt_info request)) w in
    (match u.1 with
     | Raised x => Raised x
     | Returned (res, vteps) =>
         Returned (Reply
           (if decide (res = STATUS_SUCCESS)
            then {| reply_status := Status STATUS_SUCCESS;
                    reply_device_state := None;
                    reply_vxlan_port := None;
                    reply_controller_vtep_mac := controller_vtep_mac vteps;
                    reply_controller_vtep_ip := controller_vtep_ip vteps;
                    reply_device_vtep_ip := device_vtep_ip vteps;
                    reply_vtep_mask := vtep_mask vteps;
                    reply_tenantid := None |}
            else reply_with (Status res) None))
     end, u.2).
Proof.
  unfold UpdateMgmtInfo. unfold_monad. cbv zeta. fold deviceid tenantid.
  destruct (update_mgmt_info _ _ _ _ _ _ _ _ _ _ _ w)
    as [[[res vteps]|e] w1]; cbn; [|done].
  case_decide as Hres; cbn.
  - by rewrite decide_False.
  - destruct (decide (res = STATUS_SUCCESS)) as [->|]; done.
Qed.


(** X29: the interfaces of an [UpdateMgmtInfo] request are collected by
    name: the external addresses kept for a name are those of the last
    interface of the request with that name, and an earlier interface of
    the same name is dropped. *)
Theorem external_addresses_by_name (l : list InterfaceMsg) (n : string) :
  external_addresses l !! n
  = (fun i => (interface_ext_ipv4_addrs i, interface_ext_ipv6_addrs i))
      <$> last (filter (fun i => interface_name i = n) l).
Proof.
  induction l as [|i l IH] using rev_ind; [done|].
  unfold external_addresses in *. rewrite foldl_app. cbn.
  rewrite filter_app, filter_cons, filter_nil.
  destruct (decide (interface_name i = n)) as [<-|Hne].
  - rewrite lookup_insert_eq. by rewrite last_snoc.
  - rewrite lookup_insert_ne by done. by rewrite app_nil_r.
Qed.

End Handlers.

(** ** The further properties at work on the example objects *)

Section MoreWitnesses.
Import srv6_sdn_controller_state PymerangController PymerangServicer.
Import Scenario Examples.

(** Device [d1] of tenant [t1] after a successful [UpdateMgmtInfo] in VXLAN
    mode, then found disconnected. *)
Lemma device_disconnected_success_witness :
  let c := controller 200 200 200 in
  let w := world {[ ("t1", "d1") := device REGISTERED None false 0 ]} in
  let w1 := (update c "vxlan" "203.0.113.5" w).2 in
  (device_disconnected c "d1" "t1" w1).1 = Returned STATUS_SUCCESS
  /\ connected_devices (device_disconnected c "d1" "t1" w1).2 !! "t1/d1"
     = None.
Proof.
  intros c w w1.
  edestruct (device_disconnected_success c "d1" "t1" w1) as (Hr & _ & Hcd).
  - vm_compute. reflexivity.
  - vm_compute. reflexivity.
  - intros mode_name [= <-]. exists (mode true).
    split; vm_compute; reflexivity.
  - split; [exact Hr|]. rewrite Hcd. apply lookup_delete_eq.
Defined.

(** A device whose tunnel cannot be torn down keeps its tunnel mode. *)
Lemma device_disconnected_teardown_fails_witness :
  let w := world {[ ("t1", "d1") := device WORKING (Some "vxlan") false 0 ]} in
  (device_disconnected stuck_controller "d1" "t1" w).1
  = Returned STATUS_INTERNAL_ERROR
  /\ get_tunnel_mode "d1" "t1"
       (db (device_disconnected stuck_controller "d1" "t1" w).2)
     = Some "vxlan".
Proof.
  intros w.
  destruct (device_disconnected_teardown_fails stuck_controller "d1" "t1" w
              (device WORKING (Some "vxlan") false 0) "vxlan" stuck_mode
              STATUS_INTERNAL_ERROR eq_refl eq_refl eq_refl eq_refl)
    as (Hr & _ & Hm & _); [discriminate|].
  split; [exact Hr|exact Hm].
Defined.

Lemma update_mgmt_info_success_witness :
  let c := controller 200 200 200 in
  let w := world {[ ("t1", "d1") := device REGISTERED None false 0 ]} in
  connected_devices (update c "vxlan" "203.0.113.5" w).2 !! "t1/d1"
  = Some 0%nat.
Proof.
  intros c w.
  destruct (update_mgmt_info_success c "d1" "t1" ∅ "198.51.100.7" "vxlan"
              "Open" "203.0.113.5" 51000 "aa:bb:cc:00:00:01" 4789 w
              {| controller_vtep_mac := Some "02:00:00:00:00:01";
                 controller_vtep_ip := Some "10.255.0.1";
                 device_vtep_ip := Some "10.255.0.2";
                 vtep_mask := Some 16 |})
    as (tm & ts & dev0 & _ & _ & _ & _ & H).
  - vm_compute. reflexivity.
  - exact H.
Defined.

(** On the controller without a northbound interface the tunnel is set up
    and the call still fails. *)
Lemma update_mgmt_info_without_northbound_witness :
  let w := world {[ ("t1", "d1") := device REGISTERED None false 0 ]} in
  (update standalone "vxlan" "203.0.113.5" w).1 = Raised AttributeError
  /\ connected_devices (update standalone "vxlan" "203.0.113.5" w).2
       !! "t1/d1" = Some 0%nat.
Proof.
  intros w.
  destruct (update_mgmt_info_without_northbound standalone "d1" "t1" ∅
              "198.51.100.7" "vxlan" "Open" "203.0.113.5" 51000
              "aa:bb:cc:00:00:01" 4789 w eq_refl) as [_ H].
  destruct (H (mode true)
              {| controller_vtep_mac := Some "02:00:00:00:00:01";
                 controller_vtep_ip := Some "10.255.0.1";
                 device_vtep_ip := Some "10.255.0.2";
                 vtep_mask := Some 16 |}
              (device REGISTERED None false 0))
    as (Hr & Hcd & _); try (vm_compute; reflexivity).
  split; [exact Hr|exact Hcd].
Defined.

Lemma exec_reconciliation_without_northbound_witness :
  let w := world {[ ("t1", "d1") := device WORKING (Some "vxlan") true 0 ]} in
  (exec_reconciliation standalone "d1" "t1" w).1 = Raised AttributeError
  /\ get_device_reconciliation_flag "d1" "t1"
       (db (exec_reconciliation standalone "d1" "t1" w).2) = Some true.
Proof.
  intros w.
  destruct (exec_reconciliation_without_northbound standalone "d1" "t1" w
              (device WORKING (Some "vxlan") true 0) eq_refl eq_refl eq_refl)
    as (Hr & _ & _ & Hf).
  split; [exact Hr|exact Hf].
Defined.

Lemma exec_reconciliation_not_flagged_witness :
  let c := controller 500 500 500 in
  let w := world {[ ("t1", "d1") := device WORKING (Some "vxlan") false 3 ]} in
  trace (exec_reconciliation c "d1" "t1" w).2 = [].
Proof.
  intros c w.
  apply (exec_reconciliation_not_flagged c "d1" "t1" w).
  vm_compute. discriminate.
Defined.

Lemma register_device_twice_witness :
  let c := controller 200 200 200 in
  let w1 := (register_device c "d1" registration "198.51.100.7" "token-t1"
               (world ∅)).2 in
  let w2 := (register_device c "d1" registration "198.51.100.8" "token-t1"
               w1).2 in
  mgmtip <$> devices (db w2) !! ("t1", "d1")
  = Some (Some "198.51.100.7").
Proof.
  intros c w1 w2. subst w1 w2.
  rewrite (register_device_twice c "d1" "token-t1" (world ∅) "t1"
             registration registration "198.51.100.7" "198.51.100.8");
    [|vm_compute; reflexivity..].
  rewrite lookup_insert_eq. reflexivity.
Defined.

Lemma update_then_disconnect_witness :
  let c := controller 200 200 200 in
  let w := world {[ ("t1", "d1") := device REGISTERED None false 0 ]} in
  let w1 := (update c "vxlan" "203.0.113.5" w).2 in
  let w2 := (device_disconnected c "d1" "t1" w1).2 in
  (device_disconnected c "d1" "t1" w1).1 = Returned STATUS_SUCCESS
  /\ connected_devices w2 = ∅
  /\ threads w2 = threads w1.
Proof.
  intros c w w1 w2.
  destruct (update_then_disconnect c "d1" "t1" ∅ "198.51.100.7" "vxlan"
              "Open" "203.0.113.5" 51000 "aa:bb:cc:00:00:01" 4789 w
              {| controller_vtep_mac := Some "02:00:00:00:00:01";
                 controller_vtep_ip := Some "10.255.0.1";
                 device_vtep_ip := Some "10.255.0.2";
                 vtep_mask := Some 16 |} (mode true))
    as (Hr & _ & Hcd & _ & Hth); try (vm_compute; reflexivity).
  split_and!; [exact Hr| |exact Hth].
  etrans; [exact Hcd|]. apply delete_empty.
Defined.

(** A fresh [TunnelVXLAN] object: no device has an address yet. *)
Lemma destroy_without_address_witness :
  let s0 := TunnelVXLAN.new "vxlan" 1 "::" 64 16 in
  let a := ti_example "d1" "t1" "203.0.113.5" in
  TunnelVXLAN.destroy_tunnel_controller_endpoint a s0
  = (Raised AttributeError, s0)
  /\ TunnelVXLAN.update_tunnel_controller_endpoint a s0
     = (Raised AttributeError, s0).
Proof.
  intros s0 a.
  apply (destroy_without_address a s0);
    intros m Hm; vm_compute in Hm; discriminate Hm.
Defined.

(** A device that announces [localhost] as its external address, on an
    object that already serves device [d2]. *)
Lemma create_without_family_witness :
  let s0 := TunnelVXLAN.new "vxlan" 1 "::" 64 16 in
  let b := ti_example "d2" "t1" "203.0.113.6" in
  let s1 := (TunnelVXLAN.create_tunnel_controller_endpoint b s0).2 in
  let a := ti_example "d1" "t1" "localhost" in
  TunnelVXLAN.create_tunnel_controller_endpoint a s1
  = (Returned (STATUS_INTERNAL_ERROR, a),
     TunnelVXLAN.set_device_to_mac_addr <["d1" := "aa:bb:cc:00:00:01"]> s1).
Proof.
  intros s0 b s1 a.
  apply (create_without_family a s1); [reflexivity|].
  compute_done.
Defined.

Lemma destroy_twice_witness :
  let s0 := TunnelVXLAN.new "vxlan" 1 "::" 64 16 in
  let a := ti_example "d1" "t1" "203.0.113.5" in
  let s1 := (TunnelVXLAN.create_tunnel_controller_endpoint a s0).2 in
  let s2 := (TunnelVXLAN.destroy_tunnel_controller_endpoint a s1).2 in
  TunnelVXLAN.destroy_tunnel_controller_endpoint a s2
  = (Raised AttributeError, s2).
Proof.
  intros s0 a s1 s2.
  apply (destroy_twice a s1 s2). vm_compute. reflexivity.
Defined.

(** Device [d1] has a tunnel and asks for an update with [localhost] as
    its external address. *)
Lemma update_without_family_witness :
  let s0 := TunnelVXLAN.new "vxlan" 1 "::" 64 16 in
  let a := ti_example "d1" "t1" "203.0.113.5" in
  let s1 := (TunnelVXLAN.create_tunnel_controller_endpoint a s0).2 in
  let a' := ti_example "d1" "t1" "localhost" in
  let s2 := (TunnelVXLAN.update_tunnel_controller_endpoint a' s1).2 in
  (TunnelVXLAN.update_tunnel_controller_endpoint a' s1).1
  = Returned (STATUS_INTERNAL_ERROR, a')
  /\ no_address AF_INET "d1" s2
  /\ no_address AF_INET6 "d1" s2.
Proof.
  intros s0 a s1 a' s2.
  assert (Hr : (TunnelVXLAN.update_tunnel_controller_endpoint a' s1).1
               = Returned (STATUS_INTERNAL_ERROR, a'))
    by (vm_compute; reflexivity).
  destruct (update_without_family a' s1 STATUS_INTERNAL_ERROR a' eq_refl Hr)
    as (_ & _ & H4 & H6 & _).
  split_and!; [exact Hr|exact H4|exact H6].
Defined.



(** A device restored first that has a tunnel mode but no stored tunnel
    parameters. *)
Lemma restore_devices_stale_parameters_witness :
  let c := controller 200 200 200 in
  let dev := device WORKING (Some "vxlan") false 0 in
  restore_devices c [("t1", "d1", dev)] no_locals (world ∅)
  = (RestoreUnboundLocalError "device_external_ip", world ∅).
Proof.
  intros c dev.
  apply (restore_devices_stale_parameters c "t1" "d1" "t1" "d1" "vxlan"
           "vxlan" dev dev mgmt_info_d1 (mode true) (mode true) []
           (world ∅) no_vteps ∅); reflexivity.
Defined.

(** The reconciliation of device [d1] when the second northbound step
    answers 500. *)
Lemma ExecReconciliation_failure_reply_witness :
  let c := controller 200 500 200 in
  let w := world {[ ("t1", "d1") := device WORKING (Some "vxlan") true 3 ]} in
  (ExecReconciliation c request_d1 w).1
  = Returned (Reply (reply_with (Http 500) (Some REBOOT_REQUIRED))).
Proof.
  intros c w.
  destruct (ExecReconciliation_failure_reply c request_d1 w 500) as [H|H].
  - vm_compute. reflexivity.
  - vm_compute in H. discriminate H.
  - vm_compute. reflexivity.
Defined.

End MoreWitnesses.
